(** * DualSerialPortLib: 16550 (mini UART) / PL011 serial port library

    A shallow embedding of
    [Platform/RaspberryPi/Library/DualSerialPortLib/DualSerialPortLib.c]
    and the properties checked against it.

    Conventions of the embedding:
    - C unsigned integers are [Z] values; every cast and every operation that
      can wrap is written with [u8], [u32] or [u64];
    - memory-mapped I/O goes to an abstract device (a state machine with one
      read and one write function); register-level accesses are recorded in a
      ghost trace so that "no register is written" can be stated;
    - busy-wait loops take fuel; a run is [Ret], [OutOfFuel] or [Fault]
      (integer division by zero);
    - UINTN is 64 bits wide (the platform is built for AArch64); pointers are
      addresses, the null pointer is 0;
    - the PL011 back-end is an external library and is a parameter. *)

From Stdlib Require Import ZArith List Bool Lia.
Import ListNotations.
Local Open Scope Z_scope.

(** ** Fixed-width unsigned integers *)

Definition u8 (z : Z) : Z := z mod 2 ^ 8.
Definition u32 (z : Z) : Z := z mod 2 ^ 32.
Definition u64 (z : Z) : Z := z mod 2 ^ 64.

(** Modelled from the spec: the bit masks [BIT0] ... [BIT7] of Base.h, which
    is not part of the library's source file; [BITn] is the mask of bit [n]. *)
Definition BIT0 : Z := 0x01.
(** Modelled from the spec: mask of bit 1 (Base.h). *)
Definition BIT1 : Z := 0x02.
(** Modelled from the spec: mask of bit 4 (Base.h). *)
Definition BIT4 : Z := 0x10.
(** Modelled from the spec: mask of bit 5 (Base.h). *)
Definition BIT5 : Z := 0x20.
(** Modelled from the spec: mask of bit 6 (Base.h). *)
Definition BIT6 : Z := 0x40.
(** Modelled from the spec: mask of bit 7 (Base.h). *)
Definition BIT7 : Z := 0x80.

(** ** 16550 UART register offsets and bitfields (lines 34-55) *)

Definition R_UART_RXBUF : Z := 0.
Definition R_UART_TXBUF : Z := 0.
Definition R_UART_BAUD_LOW : Z := 0.
Definition R_UART_BAUD_HIGH : Z := 1.
Definition R_UART_IER : Z := 1.
Definition R_UART_FCR : Z := 2.
Definition B_UART_FCR_FIFOE : Z := BIT0.
Definition B_UART_FCR_FIFO64 : Z := BIT5.
Definition R_UART_LCR : Z := 3.
Definition B_UART_LCR_DLAB : Z := BIT7.
Definition R_UART_MCR : Z := 4.
Definition B_UART_MCR_DTRC : Z := BIT0.
Definition B_UART_MCR_RTS : Z := BIT1.
Definition R_UART_LSR : Z := 5.
Definition B_UART_LSR_RXRDY : Z := BIT0.
Definition B_UART_LSR_TXRDY : Z := BIT5.
Definition B_UART_LSR_TEMT : Z := BIT6.
Definition R_UART_MSR : Z := 6.
Definition B_UART_MSR_CTS : Z := BIT4.
Definition B_UART_MSR_DSR : Z := BIT5.
Definition B_UART_MSR_RI : Z := BIT6.
Definition B_UART_MSR_DCD : Z := BIT7.

(** ** Declarations of the UEFI headers the library includes

    Base.h and Protocol/SerialIo.h are not part of the library's source file;
    the library uses their names only.  The parity and stop-bits types are C
    enumerations, so a caller can pass any integer: they are [Z] with named
    constants, numbered in the order of the UEFI specification.  The proofs
    use that the enumerators are distinct, and nothing else of the numbers. *)

(** Modelled from the spec: the status taxonomy of the public operations,
    Success, InvalidParameter, Unsupported and DeviceError (RETURN_STATUS of
    Base.h). *)
Inductive RETURN_STATUS : Type :=
| RETURN_SUCCESS
| RETURN_INVALID_PARAMETER
| RETURN_UNSUPPORTED
| RETURN_DEVICE_ERROR.

(** Modelled from the spec: the "use default" sentinel of the parity
    (EFI_PARITY_TYPE of Protocol/SerialIo.h). *)
Definition DefaultParity : Z := 0.
(** Modelled from the spec: parity None. *)
Definition NoParity : Z := 1.
(** Modelled from the spec: parity Even. *)
Definition EvenParity : Z := 2.
(** Modelled from the spec: parity Odd. *)
Definition OddParity : Z := 3.
(** Modelled from the spec: parity Mark. *)
Definition MarkParity : Z := 4.
(** Modelled from the spec: parity Space. *)
Definition SpaceParity : Z := 5.

(** Modelled from the spec: the "use default" sentinel of the stop bits
    (EFI_STOP_BITS_TYPE of Protocol/SerialIo.h). *)
Definition DefaultStopBits : Z := 0.
(** Modelled from the spec: stop bits One. *)
Definition OneStopBit : Z := 1.
(** Modelled from the spec: stop bits OneAndHalf. *)
Definition OneFiveStopBits : Z := 2.
(** Modelled from the spec: stop bits Two. *)
Definition TwoStopBits : Z := 3.

(** Modelled from the spec: the control signal DataTerminalReady (the
    EFI_SERIAL_ masks of Protocol/SerialIo.h; each is one bit). *)
Definition EFI_SERIAL_DATA_TERMINAL_READY : Z := 0x0001.
(** Modelled from the spec: the control signal RequestToSend. *)
Definition EFI_SERIAL_REQUEST_TO_SEND : Z := 0x0002.
(** Modelled from the spec: the status signal ClearToSend. *)
Definition EFI_SERIAL_CLEAR_TO_SEND : Z := 0x0010.
(** Modelled from the spec: the status signal DataSetReady. *)
Definition EFI_SERIAL_DATA_SET_READY : Z := 0x0020.
(** Modelled from the spec: the status signal RingIndicate. *)
Definition EFI_SERIAL_RING_INDICATE : Z := 0x0040.
(** Modelled from the spec: the status signal CarrierDetect. *)
Definition EFI_SERIAL_CARRIER_DETECT : Z := 0x0080.
(** Modelled from the spec: the status signal input-buffer-empty. *)
Definition EFI_SERIAL_INPUT_BUFFER_EMPTY : Z := 0x0100.
(** Modelled from the spec: the status signal output-buffer-empty. *)
Definition EFI_SERIAL_OUTPUT_BUFFER_EMPTY : Z := 0x0200.
(** Modelled from the spec: the control signal HardwareFlowControlEnable. *)
Definition EFI_SERIAL_HARDWARE_FLOW_CONTROL_ENABLE : Z := 0x4000.

(** Modelled from the spec: the null pointer (Base.h). *)
Definition NULL : Z := 0.

(** ** Platform configuration database (the PCDs the library reads)

    The values are supplied by the platform build; they are parameters. *)

Record Pcd : Type := {
  PcdSerialRegisterStride : Z;
  PcdSerialUseHardwareFlowControl : bool;
  PcdSerialDetectCable : bool;
  PcdSerialClockRate : Z;
  PcdSerialBaudRate : Z;
  PcdSerialLineControl : Z;
  PcdSerialFifoControl : Z;
  PcdSerialExtendedTxFifoSize : Z;
  PcdUartDefaultBaudRate : Z;
  PcdUartDefaultParity : Z;
  PcdUartDefaultDataBits : Z;
  PcdUartDefaultStopBits : Z
}.

(** ** Fixed hardware addresses (IndustryStandard/Bcm2836.h, Bcm2836Gpio.h)

    The headers are not part of the library's source file; the addresses are
    parameters. *)

Record Platform : Type := {
  BCM2836_PL011_UART_BASE_ADDRESS : Z;
  BCM2836_MINI_UART_BASE_ADDRESS : Z;
  GPIO_BASE_ADDRESS : Z;
  BCM2836_CM_BASE : Z;
  BCM2836_CM_VPU_CLOCK_DIVISOR : Z
}.

(** ** The memory-mapped device

    Reads may change the device (reading the receive buffer pops a byte), so a
    read returns the value and the next device state. *)

Record Hardware : Type := {
  Dev : Type;
  mmio_read8 : Dev -> Z -> Z * Dev;
  mmio_write8 : Dev -> Z -> Z -> Dev;
  mmio_read32 : Dev -> Z -> Z * Dev
}.

(** Ghost trace of the accesses the library makes. 16550 registers are
    recorded by their offset, as [SerialPortReadRegister] and
    [SerialPortWriteRegister] receive it. *)

Inductive Event : Type :=
| RegRead (Offset Value : Z)
| RegWrite (Offset Value : Z)
| Mmio32Read (Address Value : Z).

Record Machine (hw : Hardware) : Type := {
  dev : Dev hw;
  ram : Z -> Z;
  trace : list Event
}.
Arguments dev {hw} _.
Arguments ram {hw} _.
Arguments trace {hw} _.

(** The two module globals (lines 25-26) and the machine. *)

Record World (hw : Hardware) : Type := {
  machine : Machine hw;
  UsePl011Uart : bool;
  UsePl011UartSet : bool
}.
Arguments machine {hw} _.
Arguments UsePl011Uart {hw} _.
Arguments UsePl011UartSet {hw} _.

(** ** Outcomes and the state/error monad *)

Inductive Result (A : Type) : Type :=
| Ret (a : A)
| OutOfFuel
| Fault.
Arguments Ret {A} a.
Arguments OutOfFuel {A}.
Arguments Fault {A}.

(** In/out parameters of SetAttributes and of the PL011 port initialisation. *)

Record SerialAttributes : Type := {
  BaudRate : Z;
  ReceiveFifoDepth : Z;
  Timeout : Z;
  Parity : Z;
  DataBits : Z;
  StopBits : Z
}.

(** ** The PL011 back-end (Library/PL011UartLib.h, PL011UartClockLib.h)

    External: it works on the machine and has no access to the two globals of
    this library.  [PL011UartInitializePort] receives no pointer to the
    timeout. *)

Record PL011UartLib (hw : Hardware) : Type := {
  PL011UartClockGetFreq : Machine hw -> Result (Z * Machine hw);
  PL011UartInitializePort :
    Z -> Z -> SerialAttributes -> Machine hw ->
    Result ((RETURN_STATUS * SerialAttributes) * Machine hw);
  PL011UartWrite : Z -> Z -> Z -> Machine hw -> Result (Z * Machine hw);
  PL011UartRead : Z -> Z -> Z -> Machine hw -> Result (Z * Machine hw);
  PL011UartPoll : Z -> Machine hw -> Result (bool * Machine hw);
  PL011UartSetControl : Z -> Z -> Machine hw -> Result (RETURN_STATUS * Machine hw);
  PL011UartGetControl : Z -> Machine hw -> Result ((RETURN_STATUS * Z) * Machine hw)
}.
Arguments PL011UartClockGetFreq {hw} _.
Arguments PL011UartInitializePort {hw} _.
Arguments PL011UartWrite {hw} _.
Arguments PL011UartRead {hw} _.
Arguments PL011UartPoll {hw} _.
Arguments PL011UartSetControl {hw} _.
Arguments PL011UartGetControl {hw} _.

Section Monad.
Context {hw : Hardware}.

Definition M (A : Type) : Type := World hw -> Result (A * World hw).

Definition ret {A} (a : A) : M A := fun w => Ret (a, w).

Definition bind {A B} (m : M A) (k : A -> M B) : M B :=
  fun w =>
    match m w with
    | Ret (a, w') => k a w'
    | OutOfFuel => OutOfFuel
    | Fault => Fault
    end.

Definition fault {A} : M A := fun _ => Fault.

Definition with_machine (w : World hw) (m : Machine hw) : World hw :=
  {| machine := m; UsePl011Uart := UsePl011Uart w; UsePl011UartSet := UsePl011UartSet w |}.

Definition with_dev (m : Machine hw) (d : Dev hw) : Machine hw :=
  {| dev := d; ram := ram m; trace := trace m |}.

Definition log_event (m : Machine hw) (e : Event) : Machine hw :=
  {| dev := dev m; ram := ram m; trace := trace m ++ [e] |}.

Definition store8 (m : Machine hw) (a v : Z) : Machine hw :=
  {| dev := dev m;
     ram := fun x => if x =? a then v else ram m x;
     trace := trace m |}.

(** An action of the external library, run on the machine of the world. *)
Definition lift {A} (f : Machine hw -> Result (A * Machine hw)) : M A :=
  fun w =>
    match f (machine w) with
    | Ret (a, m) => Ret (a, with_machine w m)
    | OutOfFuel => OutOfFuel
    | Fault => Fault
    end.

(** [while (cond) body] on a loop state [S]. *)
Fixpoint While {S : Type} (fuel : nat) (cond : S -> M bool) (body : S -> M S)
         (s : S) : M S :=
  match fuel with
  | O => fun _ => OutOfFuel
  | Datatypes.S fuel' =>
      bind (cond s) (fun b =>
        if b then bind (body s) (fun s' => While fuel' cond body s')
        else ret s)
  end.

(** [while (busy);] *)
Definition SpinWhile (fuel : nat) (busy : M bool) : M unit :=
  While fuel (fun _ => busy) (fun _ => ret tt) tt.

End Monad.

Declare Scope io_scope.
Delimit Scope io_scope with io.
Notation "x <- m ;; k" := (bind m (fun x => k))
  (at level 61, m at next level, right associativity) : io_scope.
Notation "m ;; k" := (bind m (fun _ => k))
  (at level 61, right associativity) : io_scope.
Local Open Scope io_scope.

(** ** The library *)

Section DualSerialPortLib.
Variable pcd : Pcd.
Variable plat : Platform.
Variable hw : Hardware.
Variable pl011 : PL011UartLib hw.

(** Modelled from the spec: the accessors of PcdLib.h, which return the
    configured value at the width of the accessor. *)
Definition PcdGet8 (f : Pcd -> Z) : Z := u8 (f pcd).
(** Modelled from the spec: 32-bit configuration value (PcdLib.h). *)
Definition PcdGet32 (f : Pcd -> Z) : Z := u32 (f pcd).
(** Modelled from the spec: 8-bit build-time configuration value (PcdLib.h). *)
Definition FixedPcdGet8 (f : Pcd -> Z) : Z := u8 (f pcd).
(** Modelled from the spec: 64-bit build-time configuration value (PcdLib.h). *)
Definition FixedPcdGet64 (f : Pcd -> Z) : Z := u64 (f pcd).
(** Modelled from the spec: boolean configuration value (PcdLib.h). *)
Definition PcdGetBool (f : Pcd -> bool) : bool := f pcd.

Definition PL011_UART_REGISTER_BASE : Z := BCM2836_PL011_UART_BASE_ADDRESS plat.
Definition MINI_UART_REGISTER_BASE : Z :=
  u64 (BCM2836_MINI_UART_BASE_ADDRESS plat + 0x40).

(** *** IoLib *)

(** Modelled from the spec: the raw memory-mapped I/O primitives of IoLib.h
    (single-byte and word load and store at a physical address), a trusted
    external capability: an 8-bit load from the device. *)
Definition MmioRead8 (Address : Z) : M (hw := hw) Z :=
  fun w =>
    let '(v, d) := mmio_read8 hw (dev (machine w)) Address in
    Ret (u8 v, with_machine w (with_dev (machine w) d)).

(** Modelled from the spec: an 8-bit store to the device (IoLib.h); returns
    the value written. *)
Definition MmioWrite8 (Address Value : Z) : M (hw := hw) Z :=
  fun w =>
    let d := mmio_write8 hw (dev (machine w)) Address Value in
    Ret (Value, with_machine w (with_dev (machine w) d)).

(** Modelled from the spec: a 32-bit load from the device (IoLib.h); it is
    recorded in the ghost trace. *)
Definition MmioRead32 (Address : Z) : M (hw := hw) Z :=
  fun w =>
    let '(v, d) := mmio_read32 hw (dev (machine w)) Address in
    Ret (u32 v,
         with_machine w (log_event (with_dev (machine w) d)
                                   (Mmio32Read Address (u32 v)))).

(** Ghost: append an event to the trace. *)
Definition record (e : Event) : M (hw := hw) unit :=
  fun w => Ret (tt, with_machine w (log_event (machine w) e)).

(** *** SerialPortReadRegister (lines 66-73) *)
Definition SerialPortReadRegister (Base Offset : Z) : M (hw := hw) Z :=
  v <- MmioRead8 (u64 (Base + Offset * PcdGet32 PcdSerialRegisterStride)) ;;
  record (RegRead Offset v) ;;
  ret v.

(** *** SerialPortWriteRegister (lines 85-93) *)
Definition SerialPortWriteRegister (Base Offset Value : Z) : M (hw := hw) Z :=
  v <- MmioWrite8 (u64 (Base + Offset * PcdGet32 PcdSerialRegisterStride)) Value ;;
  record (RegWrite Offset Value) ;;
  ret v.

(** *** SerialPortWritable (lines 103-141) *)
Definition SerialPortWritable (SerialRegisterBase : Z) : M (hw := hw) bool :=
  if PcdGetBool PcdSerialUseHardwareFlowControl then
    if PcdGetBool PcdSerialDetectCable then
      msr <- SerialPortReadRegister SerialRegisterBase R_UART_MSR ;;
      ret (Z.land msr (Z.lor B_UART_MSR_DSR B_UART_MSR_CTS)
           =? Z.lor B_UART_MSR_DSR B_UART_MSR_CTS)
    else
      msr <- SerialPortReadRegister SerialRegisterBase R_UART_MSR ;;
      ret (negb (Z.land msr (Z.lor B_UART_MSR_DSR B_UART_MSR_CTS)
                 =? B_UART_MSR_DSR))
  else ret true.

(** *** SerialPortGetDivisor (lines 150-176)

    [BaseClockRate] is a UINT64, [Divisor] and [SerialBaudRate] are UINT32;
    the final quotient and remainder are taken on [(UINT32)BaseClockRate]
    and on the 32-bit product [SerialBaudRate * 16]. *)
Definition SerialPortGetDivisor (SerialBaudRate : Z) : M (hw := hw) Z :=
  let BaseClockRate := u64 (PcdGet32 PcdSerialClockRate * 4) in
  v <- MmioRead32 (BCM2836_CM_BASE plat + BCM2836_CM_VPU_CLOCK_DIVISOR plat) ;;
  let Divisor := Z.land v 0xFFFFFF in
  let BaseClockRate :=
    if negb (Divisor =? 0)
    then u64 (Z.shiftl BaseClockRate 12) / Divisor
    else BaseClockRate in
  if u32 (SerialBaudRate * 16) =? 0 then fault
  else
    let Divisor := u32 BaseClockRate / u32 (SerialBaudRate * 16) in
    let Divisor :=
      if u32 BaseClockRate mod u32 (SerialBaudRate * 16) >=? u32 (SerialBaudRate * 8)
      then u32 (Divisor + 1)
      else Divisor in
    ret Divisor.

(** *** Accessors of the module globals and of plain memory *)

Definition get_UsePl011Uart : M (hw := hw) bool :=
  fun w => Ret (UsePl011Uart w, w).

Definition get_UsePl011UartSet : M (hw := hw) bool :=
  fun w => Ret (UsePl011UartSet w, w).

Definition set_UsePl011Uart (b : bool) : M (hw := hw) unit :=
  fun w => Ret (tt, {| machine := machine w; UsePl011Uart := b;
                       UsePl011UartSet := UsePl011UartSet w |}).

Definition set_UsePl011UartSet (b : bool) : M (hw := hw) unit :=
  fun w => Ret (tt, {| machine := machine w; UsePl011Uart := UsePl011Uart w;
                       UsePl011UartSet := b |}).

Definition load8 (Address : Z) : M (hw := hw) Z :=
  fun w => Ret (u8 (ram (machine w) Address), w).

Definition store (Address Value : Z) : M (hw := hw) unit :=
  fun w => Ret (tt, with_machine w (store8 (machine w) Address Value)).

(** The block [if (!UsePl011UartSet) { ... }] that opens SerialPortInitialize
    (lines 208-211) and SerialPortWrite (lines 328-331). *)
Definition DetectPl011Uart : M (hw := hw) unit :=
  isset <- get_UsePl011UartSet ;;
  if negb isset then
    v <- MmioRead32 (GPIO_BASE_ADDRESS plat + 4) ;;
    set_UsePl011Uart (Z.land v 0x0003F000 =? 0x00024000) ;;
    set_UsePl011UartSet true
  else ret tt.

(** [(Lsr & (TEMT | TXRDY)) != (TEMT | TXRDY)], the condition of the three
    transmitter-empty busy-waits (lines 255, 350, 377). *)
Definition TransmitterBusy (SerialRegisterBase : Z) : M (hw := hw) bool :=
  lsr <- SerialPortReadRegister SerialRegisterBase R_UART_LSR ;;
  ret (negb (Z.land lsr (Z.lor B_UART_LSR_TEMT B_UART_LSR_TXRDY)
             =? Z.lor B_UART_LSR_TEMT B_UART_LSR_TXRDY)).

(** [!SerialPortWritable (SerialRegisterBase)] (lines 355, 386). *)
Definition NotWritable (SerialRegisterBase : Z) : M (hw := hw) bool :=
  b <- SerialPortWritable SerialRegisterBase ;;
  ret (negb b).

(** *** SerialPortInitialize (lines 189-289) *)

(** The reprogramming sequence, lines 251-287. *)
Definition InitializeProgram (fuel : nat) (SerialRegisterBase Divisor : Z)
  : M (hw := hw) RETURN_STATUS :=
  SpinWhile fuel (TransmitterBusy SerialRegisterBase) ;;
  SerialPortWriteRegister SerialRegisterBase R_UART_LCR B_UART_LCR_DLAB ;;
  SerialPortWriteRegister SerialRegisterBase R_UART_BAUD_HIGH
                          (u8 (Z.shiftr Divisor 8)) ;;
  SerialPortWriteRegister SerialRegisterBase R_UART_BAUD_LOW
                          (u8 (Z.land Divisor 0xff)) ;;
  SerialPortWriteRegister SerialRegisterBase R_UART_LCR
                          (u8 (Z.land (PcdGet8 PcdSerialLineControl) 0x3F)) ;;
  SerialPortWriteRegister SerialRegisterBase R_UART_FCR 0x00 ;;
  SerialPortWriteRegister SerialRegisterBase R_UART_FCR
    (u8 (Z.land (PcdGet8 PcdSerialFifoControl)
                (Z.lor B_UART_FCR_FIFOE B_UART_FCR_FIFO64))) ;;
  SerialPortWriteRegister SerialRegisterBase R_UART_IER 0x00 ;;
  SerialPortWriteRegister SerialRegisterBase R_UART_MCR 0x00 ;;
  ret RETURN_SUCCESS.

(** The "already initialized" test, lines 233-246: the value of
    [Initialized] when line 247 is reached. *)
Definition InitializeCheck (SerialRegisterBase Divisor : Z) : M (hw := hw) bool :=
  let Initialized := true in
  lcr <- SerialPortReadRegister SerialRegisterBase R_UART_LCR ;;
  let Initialized :=
    if negb (Z.land lcr 0x3F =? Z.land (PcdGet8 PcdSerialLineControl) 0x3F)
    then false else Initialized in
  lcr <- SerialPortReadRegister SerialRegisterBase R_UART_LCR ;;
  SerialPortWriteRegister SerialRegisterBase R_UART_LCR
                          (u8 (Z.lor lcr B_UART_LCR_DLAB)) ;;
  hi <- SerialPortReadRegister SerialRegisterBase R_UART_BAUD_HIGH ;;
  let CurrentDivisor := u32 (Z.shiftl hi 8) in
  lo <- SerialPortReadRegister SerialRegisterBase R_UART_BAUD_LOW ;;
  let CurrentDivisor := Z.lor CurrentDivisor (u32 lo) in
  lcr <- SerialPortReadRegister SerialRegisterBase R_UART_LCR ;;
  SerialPortWriteRegister SerialRegisterBase R_UART_LCR
                          (u8 (Z.land lcr (Z.lnot B_UART_LCR_DLAB))) ;;
  let Initialized :=
    if negb (CurrentDivisor =? Divisor) then false else Initialized in
  ret Initialized.

Definition SerialPortInitialize (fuel : nat) : M (hw := hw) RETURN_STATUS :=
  DetectPl011Uart ;;
  use <- get_UsePl011Uart ;;
  if use then
    let attrs :=
      {| BaudRate := FixedPcdGet64 PcdUartDefaultBaudRate;
         ReceiveFifoDepth := 0;
         Timeout := 0;
         Parity := FixedPcdGet8 PcdUartDefaultParity;
         DataBits := FixedPcdGet8 PcdUartDefaultDataBits;
         StopBits := FixedPcdGet8 PcdUartDefaultStopBits |} in
    clock <- lift (PL011UartClockGetFreq pl011) ;;
    r <- lift (PL011UartInitializePort pl011 PL011_UART_REGISTER_BASE clock attrs) ;;
    ret (fst r)
  else
    let SerialRegisterBase := MINI_UART_REGISTER_BASE in
    Divisor <- SerialPortGetDivisor (PcdGet32 PcdSerialBaudRate) ;;
    Initialized <- InitializeCheck SerialRegisterBase Divisor ;;
    if Initialized then ret RETURN_SUCCESS
    else InitializeProgram fuel SerialRegisterBase Divisor.

(** *** SerialPortWrite (lines 310-396) *)

(** Lines 362-369. *)
Definition TxFifoSize : Z :=
  if negb (Z.land (PcdGet8 PcdSerialFifoControl) B_UART_FCR_FIFOE =? 0) then
    if Z.land (PcdGet8 PcdSerialFifoControl) B_UART_FCR_FIFO64 =? 0 then 16
    else PcdGet32 PcdSerialExtendedTxFifoSize
  else 1.

(** The [for] loop of lines 382-392 on [(Index, NumberOfBytes, Buffer)]:
    its test and its body with the increments.  [Buffer] is an address;
    pointer arithmetic is not wrapped. *)
Definition WriteFillFifoTest (FifoSize : Z) (s : Z * Z * Z) : M (hw := hw) bool :=
  let '(Index, NumberOfBytes, Buffer) := s in
  ret ((Index <? FifoSize) && negb (NumberOfBytes =? 0)).

Definition WriteFillFifoBody (fuel : nat) (SerialRegisterBase : Z) (s : Z * Z * Z)
  : M (hw := hw) (Z * Z * Z) :=
  let '(Index, NumberOfBytes, Buffer) := s in
  SpinWhile fuel (NotWritable SerialRegisterBase) ;;
  b <- load8 Buffer ;;
  SerialPortWriteRegister SerialRegisterBase R_UART_TXBUF b ;;
  ret (u64 (Index + 1), u64 (NumberOfBytes - 1), Buffer + 1).

Definition WriteFillFifo (fuel : nat) (SerialRegisterBase FifoSize : Z)
  : Z * Z * Z -> M (hw := hw) (Z * Z * Z) :=
  While fuel (WriteFillFifoTest FifoSize)
        (WriteFillFifoBody fuel SerialRegisterBase).

(** The [while (NumberOfBytes != 0)] loop of lines 372-393 on
    [(NumberOfBytes, Buffer)]. *)
Definition WriteLoopTest (s : Z * Z) : M (hw := hw) bool :=
  let '(NumberOfBytes, Buffer) := s in
  ret (negb (NumberOfBytes =? 0)).

Definition WriteLoopBody (fuel : nat) (SerialRegisterBase FifoSize : Z) (s : Z * Z)
  : M (hw := hw) (Z * Z) :=
  let '(NumberOfBytes, Buffer) := s in
  SpinWhile fuel (TransmitterBusy SerialRegisterBase) ;;
  s <- WriteFillFifo fuel SerialRegisterBase FifoSize (0, NumberOfBytes, Buffer) ;;
  let '(_, NumberOfBytes, Buffer) := s in
  ret (NumberOfBytes, Buffer).

Definition WriteLoop (fuel : nat) (SerialRegisterBase FifoSize : Z)
  : Z * Z -> M (hw := hw) (Z * Z) :=
  While fuel WriteLoopTest (WriteLoopBody fuel SerialRegisterBase FifoSize).

Definition SerialPortWrite (fuel : nat) (Buffer NumberOfBytes : Z)
  : M (hw := hw) Z :=
  DetectPl011Uart ;;
  use <- get_UsePl011Uart ;;
  if use then
    lift (PL011UartWrite pl011 PL011_UART_REGISTER_BASE Buffer NumberOfBytes)
  else if Buffer =? NULL then ret 0
  else
    let SerialRegisterBase := MINI_UART_REGISTER_BASE in
    if NumberOfBytes =? 0 then
      SpinWhile fuel (TransmitterBusy SerialRegisterBase) ;;
      SpinWhile fuel (NotWritable SerialRegisterBase) ;;
      ret 0
    else
      let FifoSize := TxFifoSize in
      let Result := NumberOfBytes in
      WriteLoop fuel SerialRegisterBase FifoSize (NumberOfBytes, Buffer) ;;
      ret Result.

(** *** SerialPortRead (lines 409-458)

    The loop state is [(Result, NumberOfBytes, Buffer)].  The post-decrement of
    [NumberOfBytes-- != 0] is done at the head of the body; the decrement of
    the failing last test is dead. *)

Definition ReadLoop (fuel : nat) (SerialRegisterBase Mcr : Z)
  : Z * Z * Z -> M (hw := hw) (Z * Z * Z) :=
  While fuel
    (fun '(Result, NumberOfBytes, Buffer) => ret (negb (NumberOfBytes =? 0)))
    (fun '(Result, NumberOfBytes, Buffer) =>
       let NumberOfBytes := u64 (NumberOfBytes - 1) in
       While fuel
         (fun _ =>
            lsr <- SerialPortReadRegister SerialRegisterBase R_UART_LSR ;;
            ret (Z.land lsr B_UART_LSR_RXRDY =? 0))
         (fun _ =>
            if PcdGetBool PcdSerialUseHardwareFlowControl then
              SerialPortWriteRegister SerialRegisterBase R_UART_MCR
                                      (u8 (Z.lor Mcr B_UART_MCR_RTS)) ;;
              ret tt
            else ret tt)
         tt ;;
       (if PcdGetBool PcdSerialUseHardwareFlowControl then
          SerialPortWriteRegister SerialRegisterBase R_UART_MCR Mcr ;;
          ret tt
        else ret tt) ;;
       v <- SerialPortReadRegister SerialRegisterBase R_UART_RXBUF ;;
       store Buffer v ;;
       ret (u64 (Result + 1), NumberOfBytes, Buffer + 1)).

Definition SerialPortRead (fuel : nat) (Buffer NumberOfBytes : Z)
  : M (hw := hw) Z :=
  use <- get_UsePl011Uart ;;
  if use then
    lift (PL011UartRead pl011 PL011_UART_REGISTER_BASE Buffer NumberOfBytes)
  else if NULL =? Buffer then ret 0
  else
    let SerialRegisterBase := MINI_UART_REGISTER_BASE in
    mcr <- SerialPortReadRegister SerialRegisterBase R_UART_MCR ;;
    let Mcr := u8 (Z.land mcr (Z.lnot B_UART_MCR_RTS)) in
    s <- ReadLoop fuel SerialRegisterBase Mcr (0, NumberOfBytes, Buffer) ;;
    let '(Result, _, _) := s in
    ret Result.

(** *** SerialPortPoll (lines 471-506) *)

Definition SerialPortPoll : M (hw := hw) bool :=
  use <- get_UsePl011Uart ;;
  if use then lift (PL011UartPoll pl011 PL011_UART_REGISTER_BASE)
  else
    let SerialRegisterBase := MINI_UART_REGISTER_BASE in
    lsr <- SerialPortReadRegister SerialRegisterBase R_UART_LSR ;;
    if negb (Z.land lsr B_UART_LSR_RXRDY =? 0) then
      (if PcdGetBool PcdSerialUseHardwareFlowControl then
         mcr <- SerialPortReadRegister SerialRegisterBase R_UART_MCR ;;
         SerialPortWriteRegister SerialRegisterBase R_UART_MCR
                                 (u8 (Z.land mcr (Z.lnot B_UART_MCR_RTS))) ;;
         ret tt
       else ret tt) ;;
      ret true
    else
      (if PcdGetBool PcdSerialUseHardwareFlowControl then
         mcr <- SerialPortReadRegister SerialRegisterBase R_UART_MCR ;;
         SerialPortWriteRegister SerialRegisterBase R_UART_MCR
                                 (u8 (Z.lor mcr B_UART_MCR_RTS)) ;;
         ret tt
       else ret tt) ;;
      ret false.

(** *** SerialPortSetControl (lines 518-561) *)

Definition SerialPortSetControl (Control : Z) : M (hw := hw) RETURN_STATUS :=
  use <- get_UsePl011Uart ;;
  if use then lift (PL011UartSetControl pl011 PL011_UART_REGISTER_BASE Control)
  else if negb (Z.land Control
                  (Z.lnot (Z.lor (Z.lor EFI_SERIAL_REQUEST_TO_SEND
                                        EFI_SERIAL_DATA_TERMINAL_READY)
                                 EFI_SERIAL_HARDWARE_FLOW_CONTROL_ENABLE)) =? 0)
  then ret RETURN_UNSUPPORTED
  else
    let SerialRegisterBase := MINI_UART_REGISTER_BASE in
    mcr <- SerialPortReadRegister SerialRegisterBase R_UART_MCR ;;
    let Mcr := u8 (Z.land mcr (Z.lnot (Z.lor B_UART_MCR_DTRC B_UART_MCR_RTS))) in
    let Mcr :=
      if Z.land Control EFI_SERIAL_DATA_TERMINAL_READY =? EFI_SERIAL_DATA_TERMINAL_READY
      then u8 (Z.lor Mcr B_UART_MCR_DTRC) else Mcr in
    let Mcr :=
      if Z.land Control EFI_SERIAL_REQUEST_TO_SEND =? EFI_SERIAL_REQUEST_TO_SEND
      then u8 (Z.lor Mcr B_UART_MCR_RTS) else Mcr in
    SerialPortWriteRegister SerialRegisterBase R_UART_MCR Mcr ;;
    ret RETURN_SUCCESS.

(** *** SerialPortGetControl (lines 573-644); returns the status and [*Control] *)

Definition SerialPortGetControl : M (hw := hw) (RETURN_STATUS * Z) :=
  use <- get_UsePl011Uart ;;
  if use then lift (PL011UartGetControl pl011 PL011_UART_REGISTER_BASE)
  else
    let SerialRegisterBase := MINI_UART_REGISTER_BASE in
    let Control := 0 in
    Msr <- SerialPortReadRegister SerialRegisterBase R_UART_MSR ;;
    let Control :=
      if Z.land Msr B_UART_MSR_CTS =? B_UART_MSR_CTS
      then Z.lor Control EFI_SERIAL_CLEAR_TO_SEND else Control in
    let Control :=
      if Z.land Msr B_UART_MSR_DSR =? B_UART_MSR_DSR
      then Z.lor Control EFI_SERIAL_DATA_SET_READY else Control in
    let Control :=
      if Z.land Msr B_UART_MSR_RI =? B_UART_MSR_RI
      then Z.lor Control EFI_SERIAL_RING_INDICATE else Control in
    let Control :=
      if Z.land Msr B_UART_MSR_DCD =? B_UART_MSR_DCD
      then Z.lor Control EFI_SERIAL_CARRIER_DETECT else Control in
    Mcr <- SerialPortReadRegister SerialRegisterBase R_UART_MCR ;;
    let Control :=
      if Z.land Mcr B_UART_MCR_DTRC =? B_UART_MCR_DTRC
      then Z.lor Control EFI_SERIAL_DATA_TERMINAL_READY else Control in
    let Control :=
      if Z.land Mcr B_UART_MCR_RTS =? B_UART_MCR_RTS
      then Z.lor Control EFI_SERIAL_REQUEST_TO_SEND else Control in
    let Control :=
      if PcdGetBool PcdSerialUseHardwareFlowControl
      then Z.lor Control EFI_SERIAL_HARDWARE_FLOW_CONTROL_ENABLE else Control in
    Lsr <- SerialPortReadRegister SerialRegisterBase R_UART_LSR ;;
    let Control :=
      if Z.land Lsr (Z.lor B_UART_LSR_TEMT B_UART_LSR_TXRDY)
         =? Z.lor B_UART_LSR_TEMT B_UART_LSR_TXRDY
      then Z.lor Control EFI_SERIAL_OUTPUT_BUFFER_EMPTY else Control in
    let Control :=
      if Z.land Lsr B_UART_LSR_RXRDY =? 0
      then Z.lor Control EFI_SERIAL_INPUT_BUFFER_EMPTY else Control in
    ret (RETURN_SUCCESS, Control).

(** *** SerialPortSetAttributes (lines 679-836)

    The six in/out pointers are the record [a]; the function returns the
    status and the record as the caller finds it afterwards. *)

Definition set_BaudRate (a : SerialAttributes) (v : Z) : SerialAttributes :=
  {| BaudRate := v; ReceiveFifoDepth := ReceiveFifoDepth a; Timeout := Timeout a;
     Parity := Parity a; DataBits := DataBits a; StopBits := StopBits a |}.

Definition set_DataBits (a : SerialAttributes) (v : Z) : SerialAttributes :=
  {| BaudRate := BaudRate a; ReceiveFifoDepth := ReceiveFifoDepth a;
     Timeout := Timeout a; Parity := Parity a; DataBits := v;
     StopBits := StopBits a |}.

Definition set_Parity (a : SerialAttributes) (v : Z) : SerialAttributes :=
  {| BaudRate := BaudRate a; ReceiveFifoDepth := ReceiveFifoDepth a;
     Timeout := Timeout a; Parity := v; DataBits := DataBits a;
     StopBits := StopBits a |}.

Definition set_StopBits (a : SerialAttributes) (v : Z) : SerialAttributes :=
  {| BaudRate := BaudRate a; ReceiveFifoDepth := ReceiveFifoDepth a;
     Timeout := Timeout a; Parity := Parity a; DataBits := DataBits a;
     StopBits := v |}.

Definition set_Timeout (a : SerialAttributes) (v : Z) : SerialAttributes :=
  {| BaudRate := BaudRate a; ReceiveFifoDepth := ReceiveFifoDepth a;
     Timeout := v; Parity := Parity a; DataBits := DataBits a;
     StopBits := StopBits a |}.

(** Lines 714-717: the baud rate. *)
Definition ResolveBaudRate (a : SerialAttributes) : SerialAttributes :=
  if BaudRate a =? 0 then set_BaudRate a (PcdGet32 PcdSerialBaudRate) else a.

(** Lines 719-730: data bits; [None] is the return of line 724. *)
Definition ResolveDataBits (a : SerialAttributes) : option (Z * SerialAttributes) :=
  if DataBits a =? 0 then
    let LcrData := u8 (Z.land (PcdGet8 PcdSerialLineControl) 0x3) in
    Some (LcrData, set_DataBits a (u8 (LcrData + 5)))
  else if (DataBits a <? 5) || (DataBits a >? 8) then None
  else Some (u8 (DataBits a - u8 5), a).

(** Lines 732-783: parity; [None] is the return of line 781. *)
Definition ResolveParity (a : SerialAttributes) : option (Z * SerialAttributes) :=
  if Parity a =? DefaultParity then
    let LcrParity := u8 (Z.land (Z.shiftr (PcdGet8 PcdSerialLineControl) 3) 0x7) in
    Some (LcrParity,
          if LcrParity =? 0 then set_Parity a NoParity
          else if LcrParity =? 3 then set_Parity a EvenParity
          else if LcrParity =? 1 then set_Parity a OddParity
          else if LcrParity =? 7 then set_Parity a SpaceParity
          else if LcrParity =? 5 then set_Parity a MarkParity
          else a)
  else if Parity a =? NoParity then Some (0, a)
  else if Parity a =? EvenParity then Some (3, a)
  else if Parity a =? OddParity then Some (1, a)
  else if Parity a =? SpaceParity then Some (7, a)
  else if Parity a =? MarkParity then Some (5, a)
  else None.

(** Lines 785-817: stop bits; [None] is the return of line 815. *)
Definition ResolveStopBits (a : SerialAttributes) : option (Z * SerialAttributes) :=
  if StopBits a =? DefaultStopBits then
    let LcrStop := u8 (Z.land (Z.shiftr (PcdGet8 PcdSerialLineControl) 2) 0x1) in
    Some (LcrStop,
          if LcrStop =? 0 then set_StopBits a OneStopBit
          else if LcrStop =? 1 then
            if DataBits a =? 5 then set_StopBits a OneFiveStopBits
            else set_StopBits a TwoStopBits
          else a)
  else if StopBits a =? OneStopBit then Some (0, a)
  else if (StopBits a =? OneFiveStopBits) || (StopBits a =? TwoStopBits)
       then Some (1, a)
  else None.

Definition SerialPortSetAttributes (a : SerialAttributes)
  : M (hw := hw) (RETURN_STATUS * SerialAttributes) :=
  use <- get_UsePl011Uart ;;
  if use then
    clock <- lift (PL011UartClockGetFreq pl011) ;;
    r <- lift (PL011UartInitializePort pl011 PL011_UART_REGISTER_BASE clock a) ;;
    ret (fst r, set_Timeout (snd r) (Timeout a))
  else
    let SerialRegisterBase := MINI_UART_REGISTER_BASE in
    let a := ResolveBaudRate a in
    let SerialBaudRate := u32 (BaudRate a) in
    match ResolveDataBits a with
    | None => ret (RETURN_INVALID_PARAMETER, a)
    | Some (LcrData, a) =>
      match ResolveParity a with
      | None => ret (RETURN_INVALID_PARAMETER, a)
      | Some (LcrParity, a) =>
        match ResolveStopBits a with
        | None => ret (RETURN_INVALID_PARAMETER, a)
        | Some (LcrStop, a) =>
          Divisor <- SerialPortGetDivisor SerialBaudRate ;;
          SerialPortWriteRegister SerialRegisterBase R_UART_LCR B_UART_LCR_DLAB ;;
          SerialPortWriteRegister SerialRegisterBase R_UART_BAUD_HIGH
                                  (u8 (Z.shiftr Divisor 8)) ;;
          SerialPortWriteRegister SerialRegisterBase R_UART_BAUD_LOW
                                  (u8 (Z.land Divisor 0xff)) ;;
          let Lcr := u8 (Z.lor (Z.lor (Z.shiftl LcrParity 3) (Z.shiftl LcrStop 2))
                               LcrData) in
          SerialPortWriteRegister SerialRegisterBase R_UART_LCR
                                  (u8 (Z.land Lcr 0x3F)) ;;
          ret (RETURN_SUCCESS, a)
        end
      end
    end.

End DualSerialPortLib.


(** * Vocabulary for statements about runs *)

(** The value a run returned, if it returned. *)
Definition returned {hw A} (r : Result (A * World hw)) : option A :=
  match r with
  | Ret (a, _) => Some a
  | _ => None
  end.

(** The events a run added to the trace of [w]. *)
Definition events_since {hw} (w : World hw) (r : World hw) : list Event :=
  skipn (length (trace (machine w))) (trace (machine r)).

(** Round to nearest, ties up: [C / (16 B)] rounded. *)
Definition nearest_divisor (C B : Z) : Z :=
  C / (16 * B) + (if C mod (16 * B) >=? 8 * B then 1 else 0).


(** The final world of a run that returned (the initial world otherwise). *)
Definition final_world {hw A} (w : World hw) (r : Result (A * World hw)) : World hw :=
  match r with
  | Ret (_, w') => w'
  | _ => w
  end.

(** Register writes among events, as (offset, value). *)
Fixpoint reg_writes (evs : list Event) : list (Z * Z) :=
  match evs with
  | [] => []
  | RegWrite o v :: evs => (o, v) :: reg_writes evs
  | _ :: evs => reg_writes evs
  end.

(** Values written to the line-control register. *)
Definition lcr_writes (evs : list Event) : list Z :=
  map snd (filter (fun ov => fst ov =? R_UART_LCR) (reg_writes evs)).

Definition is_read (e : Event) : Prop :=
  match e with
  | RegWrite _ _ => False
  | _ => True
  end.

Definition not_lcr_write (e : Event) : Prop :=
  match e with
  | RegWrite o _ => o <> R_UART_LCR
  | _ => True
  end.

(** The parity a line-control byte encodes in bits 5:3, by the inverse of the
    table of SetAttributes; [DefaultParity] for the codes 2, 4 and 6. *)
Definition decoded_parity (lcr : Z) : Z :=
  let code := Z.land (Z.shiftr lcr 3) 0x7 in
  if code =? 0 then NoParity
  else if code =? 1 then OddParity
  else if code =? 3 then EvenParity
  else if code =? 5 then MarkParity
  else if code =? 7 then SpaceParity
  else DefaultParity.

Definition decoded_data_bits (lcr : Z) : Z := Z.land lcr 0x3 + 5.

Definition decoded_stop_bits (lcr : Z) : Z :=
  if Z.land (Z.shiftr lcr 2) 0x1 =? 0 then OneStopBit
  else if decoded_data_bits lcr =? 5 then OneFiveStopBits
  else TwoStopBits.



Section RunVocabulary.
Context {hw : Hardware}.
Local Abbreviation M := (@M hw).

(** [respects R m]: every returning run of [m] relates the initial and the
    final world by [R]. *)
Definition respects {A} (R : World hw -> World hw -> Prop) (m : M A) : Prop :=
  forall w a w', m w = Ret (a, w') -> R w w'.

Definition preorder (R : World hw -> World hw -> Prop) : Prop :=
  (forall w, R w w) /\ (forall w1 w2 w3, R w1 w2 -> R w2 w3 -> R w1 w3).

(** Relations on worlds. *)

Definition same_flags (w w' : World hw) : Prop :=
  UsePl011Uart w' = UsePl011Uart w /\ UsePl011UartSet w' = UsePl011UartSet w.

Definition same_ram (w w' : World hw) : Prop :=
  ram (machine w') = ram (machine w).

(** [emits P w w']: the trace grew by events that all satisfy [P]. *)
Definition emits (P : Event -> Prop) (w w' : World hw) : Prop :=
  exists evs, trace (machine w') = trace (machine w) ++ evs /\ Forall P evs.

(** Only reads, and plain memory untouched. *)
Definition quiet (w w' : World hw) : Prop := emits is_read w w' /\ same_ram w w'.

End RunVocabulary.

Section RegisterAccess.
Variable pcd : Pcd.
Variable plat : Platform.
Variable hw : Hardware.

Definition reg_address (Base Offset : Z) : Z :=
  u64 (Base + Offset * PcdGet32 pcd PcdSerialRegisterStride).

(** What a register read returns in world [w], and the world after it. *)
Definition read_value (w : World hw) (Base Offset : Z) : Z :=
  u8 (fst (mmio_read8 hw (dev (machine w)) (reg_address Base Offset))).

Definition after_read (w : World hw) (Base Offset : Z) : World hw :=
  with_machine w
    (log_event
       (with_dev (machine w)
                 (snd (mmio_read8 hw (dev (machine w)) (reg_address Base Offset))))
       (RegRead Offset (read_value w Base Offset))).

Definition after_write (w : World hw) (Base Offset Value : Z) : World hw :=
  with_machine w
    (log_event
       (with_dev (machine w)
                 (mmio_write8 hw (dev (machine w)) (reg_address Base Offset) Value))
       (RegWrite Offset Value)).

Definition read32_value (w : World hw) (Address : Z) : Z :=
  u32 (fst (mmio_read32 hw (dev (machine w)) Address)).

Definition after_read32 (w : World hw) (Address : Z) : World hw :=
  with_machine w
    (log_event
       (with_dev (machine w) (snd (mmio_read32 hw (dev (machine w)) Address)))
       (Mmio32Read Address (read32_value w Address))).

(** The four register writes of lines 823-832. *)
Definition program_line (w : World hw) (Divisor Lcr : Z) : World hw :=
  let base := MINI_UART_REGISTER_BASE plat in
  after_write
    (after_write
       (after_write
          (after_write w base R_UART_LCR B_UART_LCR_DLAB)
          base R_UART_BAUD_HIGH (u8 (Z.shiftr Divisor 8)))
       base R_UART_BAUD_LOW (u8 (Z.land Divisor 0xff)))
    base R_UART_LCR (u8 (Z.land Lcr 0x3F)).

Definition pack_lcr (LcrParity LcrStop LcrData : Z) : Z :=
  u8 (Z.lor (Z.lor (Z.shiftl LcrParity 3) (Z.shiftl LcrStop 2)) LcrData).

(** The "already initialized" test of SerialPortInitialize on the mini UART,
    lines 237-243: the line-control value it compares, the divisor it reads
    back under the latch, and the world it leaves. *)
Definition check_lcr (w : World hw) : Z :=
  read_value w (MINI_UART_REGISTER_BASE plat) R_UART_LCR.

Definition check_latched (w : World hw) : World hw :=
  let base := MINI_UART_REGISTER_BASE plat in
  let w1 := after_read w base R_UART_LCR in
  after_write (after_read w1 base R_UART_LCR) base R_UART_LCR
              (u8 (Z.lor (read_value w1 base R_UART_LCR) B_UART_LCR_DLAB)).

Definition check_divisor (w : World hw) : Z :=
  let base := MINI_UART_REGISTER_BASE plat in
  let w3 := check_latched w in
  Z.lor (u32 (Z.shiftl (read_value w3 base R_UART_BAUD_HIGH) 8))
        (u32 (read_value (after_read w3 base R_UART_BAUD_HIGH) base R_UART_BAUD_LOW)).

Definition check_world (w : World hw) : World hw :=
  let base := MINI_UART_REGISTER_BASE plat in
  let w5 := after_read (after_read (check_latched w) base R_UART_BAUD_HIGH)
                       base R_UART_BAUD_LOW in
  after_write (after_read w5 base R_UART_LCR) base R_UART_LCR
              (u8 (Z.land (read_value w5 base R_UART_LCR) (Z.lnot B_UART_LCR_DLAB))).

(** The eight register writes of lines 260-285. *)
Definition program_port (w : World hw) (Divisor : Z) : World hw :=
  let base := MINI_UART_REGISTER_BASE plat in
  let w := after_write w base R_UART_LCR B_UART_LCR_DLAB in
  let w := after_write w base R_UART_BAUD_HIGH (u8 (Z.shiftr Divisor 8)) in
  let w := after_write w base R_UART_BAUD_LOW (u8 (Z.land Divisor 0xff)) in
  let w := after_write w base R_UART_LCR
                       (u8 (Z.land (PcdGet8 pcd PcdSerialLineControl) 0x3F)) in
  let w := after_write w base R_UART_FCR 0x00 in
  let w := after_write w base R_UART_FCR
             (u8 (Z.land (PcdGet8 pcd PcdSerialFifoControl)
                         (Z.lor B_UART_FCR_FIFOE B_UART_FCR_FIFO64))) in
  let w := after_write w base R_UART_IER 0x00 in
  after_write w base R_UART_MCR 0x00.

(** The busy-waits of SerialPortWrite end within [K] polls, whatever the
    state of the device: the hardware is live. *)
Definition ready_within (K : nat) : Prop :=
  forall w : World hw,
    (exists w', SpinWhile K (TransmitterBusy pcd hw (MINI_UART_REGISTER_BASE plat)) w
                = Ret (tt, w')) /\
    (exists w', SpinWhile K (NotWritable pcd hw (MINI_UART_REGISTER_BASE plat)) w
                = Ret (tt, w')).

(** The first [n] bytes of the buffer at address [Buffer]. *)
Definition buffer_bytes (mem : Z -> Z) (Buffer : Z) (n : nat) : list Z :=
  map (fun i => u8 (mem (Buffer + Z.of_nat i))) (seq 0 n).

Definition tx_writes (bytes : list Z) : list (Z * Z) :=
  map (fun b => (R_UART_TXBUF, b)) bytes.

(** Loop invariant of SerialPortWrite, started in [w0] on [n] bytes at
    [Buffer0]: [i] bytes are out, in order, and nothing else was written. *)
Definition sent (w0 : World hw) (Buffer0 n : Z) (NumberOfBytes Buffer : Z)
           (w : World hw) : Prop :=
  exists i : nat,
    NumberOfBytes = n - Z.of_nat i /\
    0 <= NumberOfBytes /\
    Buffer = Buffer0 + Z.of_nat i /\
    ram (machine w) = ram (machine w0) /\
    exists evs,
      trace (machine w) = trace (machine w0) ++ evs /\
      reg_writes evs = tx_writes (buffer_bytes (ram (machine w0)) Buffer0 i).

(** The world after the detection block of lines 208-211 and 328-331. *)
Definition detected (w : World hw) : World hw :=
  if UsePl011UartSet w then w
  else
    {| machine := machine (after_read32 w (GPIO_BASE_ADDRESS plat + 4));
       UsePl011Uart :=
         (Z.land (read32_value w (GPIO_BASE_ADDRESS plat + 4)) 0x0003F000
          =? 0x00024000);
       UsePl011UartSet := true |}.

End RegisterAccess.

(** ** What is assumed of a 16550

    For the statements about two calls in a row: the device holds its
    line-control register and its divisor latch.  [lcr_of], [dll_of] and
    [dlm_of] read the three bytes off the state of the device.  Reads change
    none of them; the line-control register reads and writes as a plain
    register; with the DLAB bit (bit 7 of the line-control register) set,
    the offsets 0 and 1 read and write the low and the high byte of the
    divisor; with DLAB clear, writes of the FIFO-control, interrupt-enable
    and modem-control registers change none of the three. *)

Section DeviceAssumptions.
Variable pcd : Pcd.
Variable plat : Platform.
Variable hw : Hardware.

Record holds_line_registers (lcr_of dll_of dlm_of : Dev hw -> Z) : Prop := {
  read8_keeps : forall d a,
    let d' := snd (mmio_read8 hw d a) in
    lcr_of d' = lcr_of d /\ dll_of d' = dll_of d /\ dlm_of d' = dlm_of d;
  read32_keeps : forall d a,
    let d' := snd (mmio_read32 hw d a) in
    lcr_of d' = lcr_of d /\ dll_of d' = dll_of d /\ dlm_of d' = dlm_of d;
  lcr_read : forall d,
    u8 (fst (mmio_read8 hw d
               (reg_address pcd (MINI_UART_REGISTER_BASE plat) R_UART_LCR)))
    = lcr_of d;
  latch_read : forall d,
    Z.testbit (lcr_of d) 7 = true ->
    u8 (fst (mmio_read8 hw d
               (reg_address pcd (MINI_UART_REGISTER_BASE plat) R_UART_BAUD_HIGH)))
    = dlm_of d /\
    u8 (fst (mmio_read8 hw d
               (reg_address pcd (MINI_UART_REGISTER_BASE plat) R_UART_BAUD_LOW)))
    = dll_of d;
  lcr_write : forall d v,
    0 <= v < 256 ->
    let d' := mmio_write8 hw d
                (reg_address pcd (MINI_UART_REGISTER_BASE plat) R_UART_LCR) v in
    lcr_of d' = v /\ dll_of d' = dll_of d /\ dlm_of d' = dlm_of d;
  latch_write_high : forall d v,
    0 <= v < 256 ->
    Z.testbit (lcr_of d) 7 = true ->
    let d' := mmio_write8 hw d
                (reg_address pcd (MINI_UART_REGISTER_BASE plat) R_UART_BAUD_HIGH) v in
    lcr_of d' = lcr_of d /\ dll_of d' = dll_of d /\ dlm_of d' = v;
  latch_write_low : forall d v,
    0 <= v < 256 ->
    Z.testbit (lcr_of d) 7 = true ->
    let d' := mmio_write8 hw d
                (reg_address pcd (MINI_UART_REGISTER_BASE plat) R_UART_BAUD_LOW) v in
    lcr_of d' = lcr_of d /\ dll_of d' = v /\ dlm_of d' = dlm_of d;
  other_writes : forall d o v,
    Z.testbit (lcr_of d) 7 = false ->
    o = R_UART_FCR \/ o = R_UART_IER \/ o = R_UART_MCR ->
    let d' := mmio_write8 hw d
                (reg_address pcd (MINI_UART_REGISTER_BASE plat) o) v in
    lcr_of d' = lcr_of d /\ dll_of d' = dll_of d /\ dlm_of d' = dlm_of d
}.

(** The three bytes in a world. *)
Definition held (lcr_of dll_of dlm_of : Dev hw -> Z) (w : World hw) : Z * Z * Z :=
  (lcr_of (dev (machine w)), dll_of (dev (machine w)), dlm_of (dev (machine w))).

End DeviceAssumptions.

(** * A concrete board, for running the library

    A register-file model of the 16550: the divisor latch bytes are banked
    behind the DLAB bit of the line-control register, the transmitter is
    always idle (the line-status register reads 0x60), the modem-status
    register holds what the test puts there, and a transmitted byte is
    dropped.  The addresses and the configuration are example values. *)

Module Sim.

Record Uart : Type := {
  gpfsel1 : Z;
  vpu_divisor : Z;
  rbr : Z;
  ier : Z;
  fcr : Z;
  lcr : Z;
  mcr : Z;
  msr : Z;
  dll : Z;
  dlm : Z
}.

Definition board : Platform := {|
  BCM2836_PL011_UART_BASE_ADDRESS := 0x3F201000;
  BCM2836_MINI_UART_BASE_ADDRESS := 0x3F215000;
  GPIO_BASE_ADDRESS := 0x3F200000;
  BCM2836_CM_BASE := 0x3F101000;
  BCM2836_CM_VPU_CLOCK_DIVISOR := 0x0C
|}.

Definition uart_base : Z := 0x3F215040.

Definition dlab (d : Uart) : bool := Z.testbit (lcr d) 7.

Definition read8 (d : Uart) (a : Z) : Z * Uart :=
  (if a =? uart_base then (if dlab d then dll d else rbr d)
   else if a =? uart_base + 4 then (if dlab d then dlm d else ier d)
   else if a =? uart_base + 8 then fcr d
   else if a =? uart_base + 12 then lcr d
   else if a =? uart_base + 16 then mcr d
   else if a =? uart_base + 20 then 0x60
   else if a =? uart_base + 24 then msr d
   else 0, d).

Definition write8 (d : Uart) (a v : Z) : Uart :=
  let upd ier' fcr' lcr' mcr' dll' dlm' :=
    {| gpfsel1 := gpfsel1 d; vpu_divisor := vpu_divisor d; rbr := rbr d;
       ier := ier'; fcr := fcr'; lcr := lcr'; mcr := mcr';
       msr := msr d; dll := dll'; dlm := dlm' |} in
  if a =? uart_base then
    (if dlab d then upd (ier d) (fcr d) (lcr d) (mcr d) v (dlm d) else d)
  else if a =? uart_base + 4 then
    (if dlab d then upd (ier d) (fcr d) (lcr d) (mcr d) (dll d) v
     else upd v (fcr d) (lcr d) (mcr d) (dll d) (dlm d))
  else if a =? uart_base + 8 then upd (ier d) v (lcr d) (mcr d) (dll d) (dlm d)
  else if a =? uart_base + 12 then upd (ier d) (fcr d) v (mcr d) (dll d) (dlm d)
  else if a =? uart_base + 16 then upd (ier d) (fcr d) (lcr d) v (dll d) (dlm d)
  else d.

Definition read32 (d : Uart) (a : Z) : Z * Uart :=
  (if a =? 0x3F200004 then gpfsel1 d
   else if a =? 0x3F10100C then vpu_divisor d
   else 0, d).

Definition hardware : Hardware := {|
  Dev := Uart;
  mmio_read8 := read8;
  mmio_write8 := write8;
  mmio_read32 := read32
|}.

(** A PL011 back-end that does nothing. *)
Definition pl011 : PL011UartLib hardware := {|
  PL011UartClockGetFreq := fun m => Ret (48000000, m);
  PL011UartInitializePort := fun _ _ a m => Ret ((RETURN_SUCCESS, a), m);
  PL011UartWrite := fun _ _ n m => Ret (n, m);
  PL011UartRead := fun _ _ _ m => Ret (0, m);
  PL011UartPoll := fun _ m => Ret (false, m);
  PL011UartSetControl := fun _ _ m => Ret (RETURN_SUCCESS, m);
  PL011UartGetControl := fun _ m => Ret ((RETURN_SUCCESS, 0), m)
|}.

(** 500 MHz clock, register stride 4, no flow control; the baud rate, the
    line-control byte, the FIFO-control byte and the extended FIFO size are
    the arguments. *)
Definition configure (baud lc fc ext : Z) : Pcd := {|
  PcdSerialRegisterStride := 4;
  PcdSerialUseHardwareFlowControl := false;
  PcdSerialDetectCable := false;
  PcdSerialClockRate := 500000000;
  PcdSerialBaudRate := baud;
  PcdSerialLineControl := lc;
  PcdSerialFifoControl := fc;
  PcdSerialExtendedTxFifoSize := ext;
  PcdUartDefaultBaudRate := 115200;
  PcdUartDefaultParity := 1;
  PcdUartDefaultDataBits := 8;
  PcdUartDefaultStopBits := 1
|}.

(** 115200 8N1, FIFOs on. *)
Definition config : Pcd := configure 115200 0x03 0x27 8.

(** The UART with [l] in its line-control register; [g] is the GPIO
    function-select word and [v] the VPU clock divisor word. *)
Definition uart (g v l : Z) : Uart := {|
  gpfsel1 := g; vpu_divisor := v; rbr := 0; ier := 0; fcr := 0; lcr := l;
  mcr := 0; msr := 0; dll := 0; dlm := 0
|}.

(** The state of the library when the firmware starts: nothing probed. *)
Definition boot (d : Uart) (mem : Z -> Z) : World hardware := {|
  machine := Build_Machine hardware d mem [];
  UsePl011Uart := false;
  UsePl011UartSet := false
|}.

(** GPIO 14/15 on ALT5 (mini UART) and on ALT0 (PL011). *)
Definition gpio_mini_uart : Z := 0x00012000.
Definition gpio_pl011 : Z := 0x00024000.

(** A buffer "Hi!" at address 0x1000. *)
Definition message (a : Z) : Z :=
  if a =? 0x1000 then 72 else if a =? 0x1001 then 105
  else if a =? 0x1002 then 33 else 0.

Definition mini : World hardware := boot (uart gpio_mini_uart 0x1000 0) message.
Definition pl011_board : World hardware := boot (uart gpio_pl011 0x1000 0) message.

Definition all_defaults : SerialAttributes := {|
  BaudRate := 0; ReceiveFifoDepth := 0; Timeout := 0;
  Parity := DefaultParity; DataBits := 0; StopBits := DefaultStopBits
|}.

End Sim.

(** The library on the concrete board. *)

Module Board.
Import Sim.

Definition Initialize (c : Pcd) := SerialPortInitialize c board hardware pl011.
Definition Write (c : Pcd) := SerialPortWrite c board hardware pl011.
Definition Poll (c : Pcd) := SerialPortPoll c board hardware pl011.
Definition SetAttributes (c : Pcd) := SerialPortSetAttributes c board hardware pl011.
Definition GetDivisor (c : Pcd) := SerialPortGetDivisor c board hardware.

(** 300 baud: the divisor, 416667, does not fit the 16-bit latch. *)
Definition config_300 : Pcd := configure 300 0x03 0x27 8.

(** The 64-byte FIFO mode with an extended FIFO size of 0. *)
Definition config_fifo0 : Pcd := configure 115200 0x03 0x21 0.

(** A default line-control byte whose parity field is the code 2. *)
Definition config_parity2 : Pcd := configure 115200 0x13 0x27 8.

(** The live line-control register holds 7 data bits, even parity, two stop
    bits. *)
Definition mini_7E2 : World hardware :=
  boot (uart gpio_mini_uart 0x1000 0x1E) message.

(** The VPU clock divisor reads 0.25: the UART clock is 8 GHz. *)
Definition mini_fast : World hardware :=
  boot (uart gpio_mini_uart 0x400 0) message.

Definition initialized (c : Pcd) : World hardware :=
  final_world mini (Initialize c 1 mini).

Definition attributes (baud parity data stop : Z) : SerialAttributes := {|
  BaudRate := baud; ReceiveFifoDepth := 0; Timeout := 0;
  Parity := parity; DataBits := data; StopBits := stop
|}.

End Board.


(** * Vocabulary of the further properties *)

(** A monitor over a trace: [step] takes the state of the monitor and an
    event to the next state, or to [None] when the event breaks the rule that
    is monitored.  [monitor step s evs] is the state after [evs]. *)
Fixpoint monitor {S : Type} (step : S -> Event -> option S) (s : S)
         (evs : list Event) : option S :=
  match evs with
  | [] => Some s
  | e :: evs =>
      match step s e with
      | Some s' => monitor step s' evs
      | None => None
      end
  end.

(** The rule of the receive path: a byte is taken from the receive buffer
    only when the last read of the line-status register showed RXRDY and no
    byte was taken since.  The state says whether a byte may be taken. *)
Definition rx_step (ready : bool) (e : Event) : option bool :=
  match e with
  | RegRead off v =>
      if off =? R_UART_LSR then Some (negb (Z.land v B_UART_LSR_RXRDY =? 0))
      else if off =? R_UART_RXBUF then (if ready then Some false else None)
      else Some ready
  | _ => Some ready
  end.

(** What the line-status byte [lsr] says about the transmitter, by the test
    of lines 350, 377 and 254: the FIFO and the shift register are empty when
    TEMT and TXRDY are both set. *)
Definition transmitter_empty (lsr : Z) : bool :=
  Z.land lsr (Z.lor B_UART_LSR_TEMT B_UART_LSR_TXRDY)
  =? Z.lor B_UART_LSR_TEMT B_UART_LSR_TXRDY.

(** What the modem-status byte [msr] says about sending, by lines 109-137:
    with cable detection, DSR and CTS must both be set; without it, only DSR
    set with CTS clear forbids sending. *)
Definition clear_to_send (detect : bool) (msr : Z) : bool :=
  if detect
  then Z.land msr (Z.lor B_UART_MSR_DSR B_UART_MSR_CTS)
       =? Z.lor B_UART_MSR_DSR B_UART_MSR_CTS
  else negb (Z.land msr (Z.lor B_UART_MSR_DSR B_UART_MSR_CTS) =? B_UART_MSR_DSR).

(** The rule of the transmit path under hardware flow control: a byte is
    written to the transmit buffer only as the next register access after a
    read of the modem-status register that allows sending. *)
Definition tx_step (detect : bool) (open : bool) (e : Event) : option bool :=
  match e with
  | RegRead off v =>
      Some (if off =? R_UART_MSR then clear_to_send detect v else false)
  | RegWrite off _ =>
      if off =? R_UART_TXBUF then (if open then Some false else None)
      else Some false
  | Mmio32Read _ _ => Some false
  end.

(** Since [w0] the rule of [step] was kept, and the monitor state satisfies
    [P]. *)
Definition monitored {hw} {S : Type} (step : S -> Event -> option S) (s0 : S)
           (w0 : World hw) (P : S -> Prop) (w : World hw) : Prop :=
  exists evs st,
    trace (machine w) = trace (machine w0) ++ evs /\
    monitor step s0 evs = Some st /\
    P st.


(** The library's accounting of the transmit FIFO along a trace.  A read of
    the line-status register that shows TEMT and TXRDY both set says that the
    FIFO is empty: there is room for [size] bytes.  Each write of the
    transmit-buffer register takes one byte of room.  [fifo_room size room
    evs] is the room left after [evs], started with [room]; it is [None] when
    a byte is written while no room is left. *)
Fixpoint fifo_room (size room : Z) (evs : list Event) : option Z :=
  match evs with
  | [] => Some room
  | RegRead off v :: evs =>
      if (off =? R_UART_LSR)
         && (Z.land v (Z.lor B_UART_LSR_TEMT B_UART_LSR_TXRDY)
             =? Z.lor B_UART_LSR_TEMT B_UART_LSR_TXRDY)
      then fifo_room size size evs
      else fifo_room size room evs
  | RegWrite off _ :: evs =>
      if off =? R_UART_TXBUF then
        if 0 <? room then fifo_room size (room - 1) evs else None
      else fifo_room size room evs
  | Mmio32Read _ _ :: evs => fifo_room size room evs
  end.

(** An event that says nothing about the transmit FIFO. *)
Definition fifo_neutral (e : Event) : Prop :=
  match e with
  | RegRead off _ => off <> R_UART_LSR
  | RegWrite off _ => off <> R_UART_TXBUF
  | Mmio32Read _ _ => True
  end.

(** Since [w0], no byte was written without room, and the room left
    satisfies [P]. *)
Definition fifo_ok {hw} (w0 : World hw) (size : Z) (P : Z -> Prop)
           (w : World hw) : Prop :=
  exists evs room,
    trace (machine w) = trace (machine w0) ++ evs /\
    fifo_room size 0 evs = Some room /\
    P room.


(** The bytes read from the receive buffer, in order. *)
Definition rx_reads (evs : list Event) : list Z :=
  flat_map (fun e => match e with
                     | RegRead off v => if off =? R_UART_RXBUF then [v] else []
                     | _ => []
                     end) evs.

(** An event that is not a read of the receive buffer. *)
Definition not_rx (e : Event) : Prop :=
  match e with
  | RegRead off _ => off <> R_UART_RXBUF
  | _ => True
  end.

(** What SerialPortRead does to the device after it has read [mcr] from the
    modem-control register: it polls the line status, takes bytes from the
    receive buffer and, with hardware flow control only, writes [mcr] back
    with RTS cleared or set. *)
Definition receive_event (flow : bool) (mcr : Z) (e : Event) : Prop :=
  match e with
  | RegRead off _ => off = R_UART_LSR \/ off = R_UART_RXBUF
  | RegWrite off v =>
      flow = true /\ off = R_UART_MCR /\
      (v = Z.land mcr 0xFD \/ v = Z.lor mcr 0x02)
  | Mmio32Read _ _ => False
  end.


Section FurtherVocabulary.
Variable pcd : Pcd.
Variable plat : Platform.
Variable hw : Hardware.

(** The device gives back, at the modem-control register, the byte last
    written there, also after a read of the modem-status register. *)
Definition mcr_latched : Prop :=
  forall (d : Dev hw) (v : Z),
    0 <= v < 256 ->
    let base := MINI_UART_REGISTER_BASE plat in
    let d1 := mmio_write8 hw d (reg_address pcd base R_UART_MCR) v in
    let d2 := snd (mmio_read8 hw d1 (reg_address pcd base R_UART_MSR)) in
    u8 (fst (mmio_read8 hw d2 (reg_address pcd base R_UART_MCR))) = v.

(** *** The loops of SerialPortRead, by name

    The wait for data of lines 434-441 and the loop around it (lines 430-454):
    the same programs as in [ReadLoop], with names for their tests and
    bodies. *)

Definition ReadWaitTest (SerialRegisterBase : Z) (_ : unit) : M (hw := hw) bool :=
  lsr <- SerialPortReadRegister pcd hw SerialRegisterBase R_UART_LSR ;;
  ret (Z.land lsr B_UART_LSR_RXRDY =? 0).

Definition ReadWaitBody (SerialRegisterBase Mcr : Z) (_ : unit)
  : M (hw := hw) unit :=
  if PcdGetBool pcd PcdSerialUseHardwareFlowControl then
    SerialPortWriteRegister pcd hw SerialRegisterBase R_UART_MCR
                            (u8 (Z.lor Mcr B_UART_MCR_RTS)) ;;
    ret tt
  else ret tt.

Definition ReadWait (fuel : nat) (SerialRegisterBase Mcr : Z) : M (hw := hw) unit :=
  While fuel (ReadWaitTest SerialRegisterBase)
        (ReadWaitBody SerialRegisterBase Mcr) tt.

Definition ReadLoopTest (s : Z * Z * Z) : M (hw := hw) bool :=
  let '(Result, NumberOfBytes, Buffer) := s in ret (negb (NumberOfBytes =? 0)).

Definition ReadLoopBody (fuel : nat) (SerialRegisterBase Mcr : Z) (s : Z * Z * Z)
  : M (hw := hw) (Z * Z * Z) :=
  let '(Result, NumberOfBytes, Buffer) := s in
  let NumberOfBytes := u64 (NumberOfBytes - 1) in
  ReadWait fuel SerialRegisterBase Mcr ;;
  (if PcdGetBool pcd PcdSerialUseHardwareFlowControl then
     SerialPortWriteRegister pcd hw SerialRegisterBase R_UART_MCR Mcr ;;
     ret tt
   else ret tt) ;;
  v <- SerialPortReadRegister pcd hw SerialRegisterBase R_UART_RXBUF ;;
  store hw Buffer v ;;
  ret (u64 (Result + 1), NumberOfBytes, Buffer + 1).

(** The receiver is live: the wait for data ends within [K] polls, whatever
    the state of the device. *)
Definition data_within (K : nat) : Prop :=
  forall (Mcr : Z) (w : World hw),
    exists w', ReadWait K (MINI_UART_REGISTER_BASE plat) Mcr w = Ret (tt, w').

(** The world after the write that clears RTS (lines 443-448), and after
    the byte [v] is stored at [Buffer]. *)
Definition rts_cleared (w : World hw) (Base Mcr : Z) : World hw :=
  if PcdGetBool pcd PcdSerialUseHardwareFlowControl
  then after_write pcd hw w Base R_UART_MCR Mcr
  else w.

Definition stored (w : World hw) (Buffer v : Z) : World hw :=
  with_machine w (store8 (machine w) Buffer v).

(** Loop invariant of SerialPortRead, started in [w0] on [n] bytes at
    [Buffer0]: [i] bytes were taken from the receive buffer and are in memory,
    in order; the rest of memory is as it was. *)
Definition received (w0 : World hw) (Buffer0 n : Z) (s : Z * Z * Z)
           (w : World hw) : Prop :=
  exists i : nat,
    fst (fst s) = Z.of_nat i /\
    snd (fst s) = n - Z.of_nat i /\
    0 <= snd (fst s) /\
    snd s = Buffer0 + Z.of_nat i /\
    exists evs,
      trace (machine w) = trace (machine w0) ++ evs /\
      length (rx_reads evs) = i /\
      (forall j, (j < i)%nat ->
                 ram (machine w) (Buffer0 + Z.of_nat j) = nth j (rx_reads evs) 0) /\
      (forall x, ~ (Buffer0 <= x < Buffer0 + Z.of_nat i) ->
                 ram (machine w) x = ram (machine w0) x).

End FurtherVocabulary.

(** The configuration [pcd] with [l] as its default line-control byte. *)
Definition with_line_control (pcd : Pcd) (l : Z) : Pcd := {|
  PcdSerialRegisterStride := PcdSerialRegisterStride pcd;
  PcdSerialUseHardwareFlowControl := PcdSerialUseHardwareFlowControl pcd;
  PcdSerialDetectCable := PcdSerialDetectCable pcd;
  PcdSerialClockRate := PcdSerialClockRate pcd;
  PcdSerialBaudRate := PcdSerialBaudRate pcd;
  PcdSerialLineControl := l;
  PcdSerialFifoControl := PcdSerialFifoControl pcd;
  PcdSerialExtendedTxFifoSize := PcdSerialExtendedTxFifoSize pcd;
  PcdUartDefaultBaudRate := PcdUartDefaultBaudRate pcd;
  PcdUartDefaultParity := PcdUartDefaultParity pcd;
  PcdUartDefaultDataBits := PcdUartDefaultDataBits pcd;
  PcdUartDefaultStopBits := PcdUartDefaultStopBits pcd
|}.

(** The parity and stop-bits codes of the line-control byte, by the tables of
    lines 759-782 and 804-816. *)
Definition parity_code (parity : Z) : Z :=
  if parity =? NoParity then 0
  else if parity =? EvenParity then 3
  else if parity =? OddParity then 1
  else if parity =? SpaceParity then 7
  else 5.

Definition stop_code (stop : Z) : Z := if stop =? OneStopBit then 0 else 1.

(** What the stop-bits code reads back as: 1.5 and 2 stop bits share a code
    and are told apart by the data bits. *)
Definition stop_bits_read_back (stop data : Z) : Z :=
  if stop =? OneStopBit then OneStopBit
  else if data =? 5 then OneFiveStopBits
  else TwoStopBits.

(** Further configurations and devices for running the library. *)

Module Lab.

(** The standard configuration of the board with hardware flow control. *)
Definition flow_config : Pcd := {|
  PcdSerialRegisterStride := 4;
  PcdSerialUseHardwareFlowControl := true;
  PcdSerialDetectCable := false;
  PcdSerialClockRate := 500000000;
  PcdSerialBaudRate := 115200;
  PcdSerialLineControl := 0x03;
  PcdSerialFifoControl := 0x27;
  PcdSerialExtendedTxFifoSize := 8;
  PcdUartDefaultBaudRate := 115200;
  PcdUartDefaultParity := 1;
  PcdUartDefaultDataBits := 8;
  PcdUartDefaultStopBits := 1
|}.

(** The board after a first zero-length write: the variant is detected. *)
Definition probed : World Sim.hardware :=
  final_world Sim.mini (Board.Write Sim.config 1 0x1000 0 Sim.mini).

(** A peer that sends one byte each time RTS is raised: the bytes count up
    from [next_byte]; [pending] says that a byte waits in the receive
    buffer. *)
Record Peer : Type := {
  pending : bool;
  next_byte : Z;
  modem_control : Z
}.

Definition peer_read8 (d : Peer) (a : Z) : Z * Peer :=
  if a =? Sim.uart_base then
    (next_byte d,
     {| pending := false; next_byte := (next_byte d + 1) mod 256;
        modem_control := modem_control d |})
  else if a =? Sim.uart_base + 16 then (modem_control d, d)
  else if a =? Sim.uart_base + 20 then ((if pending d then 0x61 else 0x60), d)
  else (0, d).

Definition peer_write8 (d : Peer) (a v : Z) : Peer :=
  if a =? Sim.uart_base + 16 then
    {| pending := pending d || Z.testbit v 1; next_byte := next_byte d;
       modem_control := v |}
  else d.

Definition peer_read32 (d : Peer) (a : Z) : Z * Peer :=
  ((if a =? 0x3F200004 then Sim.gpio_mini_uart else 0), d).

Definition receiver : Hardware := {|
  Dev := Peer;
  mmio_read8 := peer_read8;
  mmio_write8 := peer_write8;
  mmio_read32 := peer_read32
|}.

Definition receiver_pl011 : PL011UartLib receiver := {|
  PL011UartClockGetFreq := fun m => Ret (48000000, m);
  PL011UartInitializePort := fun _ _ a m => Ret ((RETURN_SUCCESS, a), m);
  PL011UartWrite := fun _ _ n m => Ret (n, m);
  PL011UartRead := fun _ _ _ m => Ret (0, m);
  PL011UartPoll := fun _ m => Ret (false, m);
  PL011UartSetControl := fun _ _ m => Ret (RETURN_SUCCESS, m);
  PL011UartGetControl := fun _ m => Ret ((RETURN_SUCCESS, 0), m)
|}.

(** The peer about to send 72, 73, ..., DTR set in the modem-control register,
    nothing probed, memory all zero. *)
Definition listening : World receiver := {|
  machine := Build_Machine receiver
               {| pending := false; next_byte := 72; modem_control := 0x01 |}
               (fun _ => 0) [];
  UsePl011Uart := false;
  UsePl011UartSet := false
|}.

End Lab.

(** * Reasoning about runs *)

Section Runs.
Context {hw : Hardware}.
Local Abbreviation M := (@M hw).

Lemma bind_Ret {A B} (m : M A) (k : A -> M B) w b w'' :
  bind m k w = Ret (b, w'') ->
  exists a w', m w = Ret (a, w') /\ k a w' = Ret (b, w'').
Proof.
  unfold bind. destruct (m w) as [[a w']| |]; try discriminate.
  intros H. exists a, w'. split; [reflexivity | exact H].
Qed.

Lemma bind_run {A B} (m : M A) (k : A -> M B) w a w' :
  m w = Ret (a, w') -> bind m k w = k a w'.
Proof. unfold bind. intros ->. reflexivity. Qed.

Lemma respects_ret {A} (R : World hw -> World hw -> Prop) (a : A) : preorder R -> respects R (ret a).
Proof. intros [Hr _] w a' w' H. injection H as _ <-. apply Hr. Qed.

Lemma respects_bind {A B} (R : World hw -> World hw -> Prop) (m : M A) (k : A -> M B) :
  preorder R -> respects R m -> (forall a, respects R (k a)) ->
  respects R (bind m k).
Proof.
  intros [_ Ht] Hm Hk w b w'' H.
  apply bind_Ret in H as (a & w' & H1 & H2).
  eapply Ht; [eapply Hm; eassumption | eapply Hk; eassumption].
Qed.

Lemma respects_fault {A} (R : World hw -> World hw -> Prop) : respects R (@fault hw A).
Proof. intros w a w' H. discriminate. Qed.

Lemma respects_While {S} (R : World hw -> World hw -> Prop) fuel (cond : S -> M bool) (body : S -> M S) :
  preorder R ->
  (forall s, respects R (cond s)) -> (forall s, respects R (body s)) ->
  forall s, respects R (While fuel cond body s).
Proof.
  intros HR Hc Hb. induction fuel as [|fuel IH]; intros s.
  - intros w a w' H. discriminate.
  - simpl. apply respects_bind; auto. intros [|].
    + apply respects_bind; auto.
    + apply respects_ret; auto.
Qed.

Lemma respects_SpinWhile (R : World hw -> World hw -> Prop) fuel (busy : M bool) :
  preorder R -> respects R busy -> respects R (SpinWhile fuel busy).
Proof.
  intros HR Hb. unfold SpinWhile. apply respects_While; auto.
  intros _. apply respects_ret; auto.
Qed.

(** Invariants of a loop, with the loop state. *)
Lemma While_invariant {S} (I : S -> World hw -> Prop) fuel
      (cond : S -> M bool) (body : S -> M S) :
  (forall s w b w', I s w -> cond s w = Ret (b, w') -> I s w') ->
  (forall s w w1 s' w', I s w -> cond s w = Ret (true, w1) ->
                        body s w1 = Ret (s', w') -> I s' w') ->
  forall s w s' w',
    I s w -> While fuel cond body s w = Ret (s', w') ->
    I s' w' /\ exists w0, I s' w0 /\ cond s' w0 = Ret (false, w').
Proof.
  intros Hc Hb. induction fuel as [|fuel IH]; intros s w s' w' HI H.
  - discriminate.
  - simpl in H. apply bind_Ret in H as (b & w1 & H1 & H2).
    destruct b.
    + apply bind_Ret in H2 as (s1 & w2 & H2 & H3).
      eapply IH; [|exact H3]. eapply Hb; eassumption.
    + injection H2 as <- <-. split; [eapply Hc; eassumption|].
      exists w. split; assumption.
Qed.

(** More fuel does not change a run that returned. *)
Lemma While_fuel_mono {S} (cond : S -> M bool) (body : S -> M S) fuel :
  forall s w r, While fuel cond body s w = Ret r ->
  forall fuel', (fuel <= fuel')%nat -> While fuel' cond body s w = Ret r.
Proof.
  induction fuel as [|fuel IH]; intros s w r H fuel' Hle.
  - discriminate.
  - destruct fuel' as [|fuel']; [lia|]. simpl in *.
    unfold bind in *. destruct (cond s w) as [[[|] w1]| |]; try discriminate; auto.
    destruct (body s w1) as [[s1 w2]| |]; try discriminate.
    apply IH; [assumption | lia].
Qed.

Lemma SpinWhile_fuel_mono (busy : M bool) fuel w r :
  SpinWhile fuel busy w = Ret r ->
  forall fuel', (fuel <= fuel')%nat -> SpinWhile fuel' busy w = Ret r.
Proof. unfold SpinWhile. apply While_fuel_mono. Qed.

Lemma same_flags_preorder : preorder (@same_flags hw).
Proof.
  split; [intros w; split; reflexivity|].
  intros w1 w2 w3 [A1 A2] [B1 B2]. split; congruence.
Qed.

Lemma same_ram_preorder : preorder (@same_ram hw).
Proof.
  split; [intros w; reflexivity|]. unfold same_ram. intros; congruence.
Qed.

Lemma emits_preorder P : preorder (@emits hw P).
Proof.
  split.
  - intros w. exists []. rewrite app_nil_r. auto.
  - intros w1 w2 w3 (e1 & H1 & F1) (e2 & H2 & F2).
    exists (e1 ++ e2). rewrite H2, H1, app_assoc. split; [reflexivity|].
    apply Forall_app; auto.
Qed.

Lemma preorder_and (R1 R2 : World hw -> World hw -> Prop) :
  preorder R1 -> preorder R2 -> preorder (fun w w' => R1 w w' /\ R2 w w').
Proof.
  intros [r1 t1] [r2 t2]. split; [intros; split; auto|].
  intros w1 w2 w3 [A B] [C D]. split; eauto.
Qed.

Lemma respects_and {A} (R1 R2 : World hw -> World hw -> Prop) (m : M A) :
  respects R1 m -> respects R2 m -> respects (fun w w' => R1 w w' /\ R2 w w') m.
Proof. intros H1 H2 w a w' H. split; eauto. Qed.

End Runs.


(** * Runs of the primitives *)

Section Primitives.
Variable pcd : Pcd.
Variable plat : Platform.
Variable hw : Hardware.
Variable pl011 : PL011UartLib hw.
Local Abbreviation read_value := (read_value pcd hw).
Local Abbreviation after_read := (after_read pcd hw).
Local Abbreviation after_write := (after_write pcd hw).
Local Abbreviation read32_value := (read32_value hw).
Local Abbreviation after_read32 := (after_read32 hw).

Lemma SerialPortReadRegister_run Base Offset w :
  SerialPortReadRegister pcd hw Base Offset w
  = Ret (read_value w Base Offset, after_read w Base Offset).
Proof.
  unfold SerialPortReadRegister, bind, MmioRead8, record, ret, after_read,
    read_value, reg_address.
  destruct (mmio_read8 hw (dev (machine w)) _) as [v d]. reflexivity.
Qed.

Lemma SerialPortWriteRegister_run Base Offset Value w :
  SerialPortWriteRegister pcd hw Base Offset Value w
  = Ret (Value, after_write w Base Offset Value).
Proof. reflexivity. Qed.

Lemma MmioRead32_run Address w :
  MmioRead32 hw Address w = Ret (read32_value w Address, after_read32 w Address).
Proof.
  unfold MmioRead32, after_read32, read32_value.
  destruct (mmio_read32 hw (dev (machine w)) Address) as [v d]. reflexivity.
Qed.

Lemma trace_after_read w Base Offset :
  trace (machine (after_read w Base Offset))
  = trace (machine w) ++ [RegRead Offset (read_value w Base Offset)].
Proof. reflexivity. Qed.

Lemma trace_after_write w Base Offset Value :
  trace (machine (after_write w Base Offset Value))
  = trace (machine w) ++ [RegWrite Offset Value].
Proof. reflexivity. Qed.

Lemma trace_after_read32 w Address :
  trace (machine (after_read32 w Address))
  = trace (machine w) ++ [Mmio32Read Address (read32_value w Address)].
Proof. reflexivity. Qed.

Lemma read_value_range w Base Offset : 0 <= read_value w Base Offset < 256.
Proof. unfold read_value, u8. apply Z.mod_pos_bound. lia. Qed.

(** *** The primitives and the relations on worlds *)

Lemma flags_ReadRegister Base Offset :
  respects same_flags (SerialPortReadRegister pcd hw Base Offset).
Proof.
  intros w a w' H. rewrite SerialPortReadRegister_run in H.
  inversion H; subst. split; reflexivity.
Qed.

Lemma flags_WriteRegister Base Offset Value :
  respects same_flags (SerialPortWriteRegister pcd hw Base Offset Value).
Proof. intros w a w' H. inversion H; subst. split; reflexivity. Qed.

Lemma flags_MmioRead32 Address : respects same_flags (MmioRead32 hw Address).
Proof.
  intros w a w' H. rewrite MmioRead32_run in H.
  inversion H; subst. split; reflexivity.
Qed.

Lemma flags_load8 Address : respects same_flags (load8 hw Address).
Proof. intros w a w' H. inversion H; subst. split; reflexivity. Qed.

Lemma flags_store Address Value : respects same_flags (store hw Address Value).
Proof. intros w a w' H. inversion H; subst. split; reflexivity. Qed.

Lemma flags_get_UsePl011Uart : respects same_flags (get_UsePl011Uart hw).
Proof. intros w a w' H. inversion H; subst. split; reflexivity. Qed.

Lemma flags_lift {A} (f : Machine hw -> Result (A * Machine hw)) :
  respects same_flags (lift f).
Proof.
  intros w a w' H. unfold lift in H.
  destruct (f (machine w)) as [[a' m]| |]; try discriminate.
  inversion H; subst. split; reflexivity.
Qed.

Lemma ram_ReadRegister Base Offset :
  respects same_ram (SerialPortReadRegister pcd hw Base Offset).
Proof.
  intros w a w' H. rewrite SerialPortReadRegister_run in H.
  inversion H; subst. reflexivity.
Qed.

Lemma ram_WriteRegister Base Offset Value :
  respects same_ram (SerialPortWriteRegister pcd hw Base Offset Value).
Proof. intros w a w' H. inversion H; subst. reflexivity. Qed.

Lemma ram_MmioRead32 Address : respects same_ram (MmioRead32 hw Address).
Proof.
  intros w a w' H. rewrite MmioRead32_run in H. inversion H; subst. reflexivity.
Qed.

Lemma ram_load8 Address : respects same_ram (load8 hw Address).
Proof. intros w a w' H. inversion H; subst. reflexivity. Qed.

Lemma emits_ReadRegister (P : Event -> Prop) Base Offset :
  (forall v, P (RegRead Offset v)) ->
  respects (emits P) (SerialPortReadRegister pcd hw Base Offset).
Proof.
  intros HP w a w' H. rewrite SerialPortReadRegister_run in H.
  inversion H; subst. eexists. split; [apply trace_after_read|].
  constructor; auto.
Qed.

Lemma emits_WriteRegister (P : Event -> Prop) Base Offset Value :
  P (RegWrite Offset Value) ->
  respects (emits P) (SerialPortWriteRegister pcd hw Base Offset Value).
Proof.
  intros HP w a w' H. rewrite SerialPortWriteRegister_run in H.
  inversion H; subst. eexists. split; [apply trace_after_write|].
  constructor; auto.
Qed.

Lemma emits_MmioRead32 (P : Event -> Prop) Address :
  (forall v, P (Mmio32Read Address v)) ->
  respects (emits P) (MmioRead32 hw Address).
Proof.
  intros HP w a w' H. rewrite MmioRead32_run in H.
  inversion H; subst. eexists. split; [apply trace_after_read32|].
  constructor; auto.
Qed.

Lemma emits_load8 (P : Event -> Prop) Address : respects (emits P) (load8 hw Address).
Proof. intros w a w' H. inversion H; subst. apply emits_preorder. Qed.

Lemma emits_store (P : Event -> Prop) Address Value :
  respects (emits P) (store hw Address Value).
Proof. intros w a w' H. inversion H; subst. exists []. rewrite app_nil_r. auto. Qed.

Lemma emits_get_UsePl011Uart (P : Event -> Prop) :
  respects (emits P) (get_UsePl011Uart hw).
Proof. intros w a w' H. inversion H; subst. apply emits_preorder. Qed.

End Primitives.

Create HintDb runs.

#[global] Hint Resolve same_flags_preorder same_ram_preorder emits_preorder
  preorder_and : runs.
#[global] Hint Resolve flags_ReadRegister flags_WriteRegister flags_MmioRead32
  flags_load8 flags_store flags_get_UsePl011Uart flags_lift
  ram_ReadRegister ram_WriteRegister ram_MmioRead32 ram_load8
  emits_load8 emits_store emits_get_UsePl011Uart : runs.

(** Decompose a program into its primitives. *)
Ltac respects_step :=
  match goal with
  | |- respects _ (bind _ _) => apply respects_bind; [auto with runs | | intros ?]
  | |- respects _ (ret _) => apply respects_ret; auto with runs
  | |- respects _ fault => apply respects_fault
  | |- respects _ (While _ _ _ _) =>
      apply respects_While; [auto with runs | intros ? | intros ?]
  | |- respects _ (SpinWhile _ _) => apply respects_SpinWhile; [auto with runs |]
  | |- respects _ (SerialPortReadRegister _ _ _ _) =>
      first [ solve [auto with runs]
            | apply emits_ReadRegister; intros ?; simpl; auto with runs ]
  | |- respects _ (SerialPortWriteRegister _ _ _ _ _) =>
      first [ solve [auto with runs]
            | apply emits_WriteRegister; simpl;
              first [ exact I | vm_compute; congruence | auto with runs ] ]
  | |- respects _ (MmioRead32 _ _) =>
      first [ solve [auto with runs]
            | apply emits_MmioRead32; intros ?; simpl; auto with runs ]
  | |- respects _ (if ?b then _ else _) => destruct b
  | |- respects _ (match ?x with (_, _) => _ end) => destruct x
  | |- respects _ (match ?x with Some _ => _ | None => _ end) => destruct x
  | |- respects (fun _ _ => _ /\ _) _ => apply respects_and
  | |- respects _ _ => solve [auto with runs]
  end.


(** * Bit-level facts about bytes *)

Lemma forall_byte (P : Z -> bool) :
  forallb P (map Z.of_nat (seq 0 256)) = true ->
  forall m, 0 <= m < 256 -> P m = true.
Proof.
  intros H m Hm. rewrite forallb_forall in H. apply H.
  apply in_map_iff. exists (Z.to_nat m). split; [lia|].
  apply in_seq. lia.
Qed.

Lemma u8_range z : 0 <= u8 z < 256.
Proof. unfold u8. apply Z.mod_pos_bound. lia. Qed.

Lemma u32_range z : 0 <= u32 z < 2 ^ 32.
Proof. unfold u32. apply Z.mod_pos_bound. lia. Qed.

Lemma u8_small z : 0 <= z < 256 -> u8 z = z.
Proof. intros H. unfold u8. apply Z.mod_small. lia. Qed.

Lemma u32_small z : 0 <= z < 2 ^ 32 -> u32 z = z.
Proof. intros H. unfold u32. apply Z.mod_small. lia. Qed.

Lemma u64_small z : 0 <= z < 2 ^ 64 -> u64 z = z.
Proof. intros H. unfold u64. apply Z.mod_small. lia. Qed.

Lemma byte_ext_bool (f g : Z -> bool) :
  forallb (fun m => Bool.eqb (f m) (g m)) (map Z.of_nat (seq 0 256)) = true ->
  forall m, 0 <= m < 256 -> f m = g m.
Proof.
  intros H m Hm. apply Bool.eqb_prop.
  apply (forall_byte (fun m => Bool.eqb (f m) (g m))); assumption.
Qed.

Lemma byte_ext_Z (f g : Z -> Z) :
  forallb (fun m => f m =? g m) (map Z.of_nat (seq 0 256)) = true ->
  forall m, 0 <= m < 256 -> f m = g m.
Proof.
  intros H m Hm. apply Z.eqb_eq.
  apply (forall_byte (fun m => f m =? g m)); assumption.
Qed.

Lemma log2_below a n : 0 < n -> 0 <= a < 2 ^ n -> Z.log2 a < n.
Proof.
  intros Hn Ha. destruct (Z.eq_dec a 0) as [->|Hz].
  - simpl. exact Hn.
  - apply Z.log2_lt_pow2; lia.
Qed.

Lemma lor_bound a b n :
  0 < n -> 0 <= a < 2 ^ n -> 0 <= b < 2 ^ n -> 0 <= Z.lor a b < 2 ^ n.
Proof.
  intros Hn Ha Hb. split; [apply Z.lor_nonneg; lia|].
  destruct (Z.eq_dec (Z.lor a b) 0) as [->|Hz].
  - apply Z.pow_pos_nonneg; lia.
  - assert (0 <= Z.lor a b) by (apply Z.lor_nonneg; lia).
    apply Z.log2_lt_pow2; [lia|].
    rewrite Z.log2_lor by lia.
    apply Z.max_lub_lt; apply log2_below; assumption.
Qed.

Lemma msr_both_set m :
  0 <= m < 256 ->
  (Z.land m (Z.lor B_UART_MSR_DSR B_UART_MSR_CTS)
   =? Z.lor B_UART_MSR_DSR B_UART_MSR_CTS)
  = Z.testbit m 5 && Z.testbit m 4.
Proof.
  revert m. apply byte_ext_bool. vm_compute. reflexivity.
Qed.

Lemma msr_dsr_only m :
  0 <= m < 256 ->
  (Z.land m (Z.lor B_UART_MSR_DSR B_UART_MSR_CTS) =? B_UART_MSR_DSR)
  = Z.testbit m 5 && negb (Z.testbit m 4).
Proof.
  revert m. apply byte_ext_bool. vm_compute. reflexivity.
Qed.

(** * Facts about traces *)

Lemma reg_writes_app evs1 evs2 :
  reg_writes (evs1 ++ evs2) = reg_writes evs1 ++ reg_writes evs2.
Proof.
  induction evs1 as [|e evs1 IH]; [reflexivity|].
  destruct e; simpl; rewrite IH; reflexivity.
Qed.

Lemma lcr_writes_app evs1 evs2 :
  lcr_writes (evs1 ++ evs2) = lcr_writes evs1 ++ lcr_writes evs2.
Proof.
  unfold lcr_writes. rewrite reg_writes_app, filter_app, map_app. reflexivity.
Qed.

Lemma reg_writes_reads evs : Forall is_read evs -> reg_writes evs = [].
Proof.
  induction 1 as [|e evs He _ IH]; [reflexivity|].
  destruct e; simpl in *; [exact IH | contradiction | exact IH].
Qed.

Lemma lcr_writes_none evs : Forall not_lcr_write evs -> lcr_writes evs = [].
Proof.
  induction 1 as [|e evs He _ IH]; [reflexivity|].
  destruct e as [o v|o v|a v]; try exact IH.
  unfold lcr_writes in *. simpl in *.
  destruct (Z.eqb_spec o R_UART_LCR); [contradiction | exact IH].
Qed.

Lemma is_read_not_lcr_write evs : Forall is_read evs -> Forall not_lcr_write evs.
Proof.
  apply Forall_impl. intros [o v|o v|a v]; simpl; auto.
Qed.

Lemma events_since_app {hw} (w w' : World hw) evs :
  trace (machine w') = trace (machine w) ++ evs -> events_since w w' = evs.
Proof.
  intros H. unfold events_since. rewrite H.
  rewrite skipn_app, skipn_all, Nat.sub_diag. reflexivity.
Qed.

Lemma emits_events_since {hw} (P : Event -> Prop) (w w' : World hw) :
  emits P w w' -> Forall P (events_since w w').
Proof.
  intros (evs & H & F). rewrite (events_since_app w w' evs H). exact F.
Qed.

(** * Properties of the library *)

Section Properties.
Variable pcd : Pcd.
Variable plat : Platform.
Variable hw : Hardware.
Variable pl011 : PL011UartLib hw.

(** ** Flow-control gate *)

(** C6: SerialPortWritable returns TRUE if and only if hardware flow control
    is disabled, or cable detection is enabled and DSR and CTS are both set in
    the modem-status register, or cable detection is disabled and it is not
    the case that DSR is set while CTS is clear. *)
Theorem SerialPortWritable_iff (SerialRegisterBase : Z) (w : World hw) :
  let msr := read_value pcd hw w SerialRegisterBase R_UART_MSR in
  let DSR := Z.testbit msr 5 in
  let CTS := Z.testbit msr 4 in
  exists b w',
    SerialPortWritable pcd hw SerialRegisterBase w = Ret (b, w') /\
    (b = true <->
     PcdSerialUseHardwareFlowControl pcd = false \/
     (PcdSerialDetectCable pcd = true /\ DSR = true /\ CTS = true) \/
     (PcdSerialDetectCable pcd = false /\ ~ (DSR = true /\ CTS = false))).
Proof.
  intros msr DSR CTS. unfold SerialPortWritable, PcdGetBool.
  assert (Hm : 0 <= msr < 256) by apply read_value_range.
  destruct (PcdSerialUseHardwareFlowControl pcd).
  - destruct (PcdSerialDetectCable pcd).
    + erewrite bind_run by apply SerialPortReadRegister_run.
      eexists; eexists; split; [reflexivity|].
      fold msr. rewrite (msr_both_set msr Hm). fold DSR CTS.
      destruct DSR, CTS; simpl; intuition congruence.
    + erewrite bind_run by apply SerialPortReadRegister_run.
      eexists; eexists; split; [reflexivity|].
      fold msr. rewrite (msr_dsr_only msr Hm). fold DSR CTS.
      destruct DSR, CTS; simpl; intuition congruence.
  - exists true, w. split; [reflexivity|]. intuition.
Qed.

(** ** Baud divisor *)

Lemma GetDivisor_run (SerialBaudRate : Z) (w : World hw) :
  let address := BCM2836_CM_BASE plat + BCM2836_CM_VPU_CLOCK_DIVISOR plat in
  let D := Z.land (read32_value hw w address) 0xFFFFFF in
  let C0 := u64 (PcdGet32 pcd PcdSerialClockRate * 4) in
  let C := if negb (D =? 0) then u64 (Z.shiftl C0 12) / D else C0 in
  SerialPortGetDivisor pcd plat hw SerialBaudRate w
  = if u32 (SerialBaudRate * 16) =? 0 then Fault
    else Ret (if u32 C mod u32 (SerialBaudRate * 16) >=? u32 (SerialBaudRate * 8)
              then u32 (u32 C / u32 (SerialBaudRate * 16) + 1)
              else u32 C / u32 (SerialBaudRate * 16),
              after_read32 hw w address).
Proof.
  intros address D C0 C. unfold SerialPortGetDivisor.
  erewrite bind_run by apply MmioRead32_run.
  fold address. fold D. fold C0. fold C.
  destruct (u32 (SerialBaudRate * 16) =? 0); reflexivity.
Qed.

(** C3, amended: for every baud rate [B] with [0 < B < 2^28], and when the
    clock [C] is below [2^32], SerialPortGetDivisor returns [C / (16 B)]
    rounded to nearest with ties up, where [C] is the configured clock rate
    times 4, scaled as [(C << 12) / D] when the VPU clock divider masked to 24
    bits reads a nonzero [D].  (Outside these bounds the code divides the low
    32 bits of [C] by [16 B] modulo [2^32].) *)
Theorem GetDivisor_round_to_nearest (B : Z) (w : World hw) :
  let address := BCM2836_CM_BASE plat + BCM2836_CM_VPU_CLOCK_DIVISOR plat in
  let D := Z.land (read32_value hw w address) 0xFFFFFF in
  let C0 := PcdGet32 pcd PcdSerialClockRate * 4 in
  let C := if D =? 0 then C0 else Z.shiftl C0 12 / D in
  0 < B < 2 ^ 28 ->
  C < 2 ^ 32 ->
  SerialPortGetDivisor pcd plat hw B w
  = Ret (nearest_divisor C B, after_read32 hw w address).
Proof.
  intros address D C0 C HB HC.
  pose proof (GetDivisor_run B w) as H. cbv zeta in H. rewrite H. clear H.
  fold address. fold D.
  assert (Hclk : 0 <= PcdGet32 pcd PcdSerialClockRate < 2 ^ 32)
    by apply u32_range.
  assert (HD : 0 <= D).
  { unfold D. apply Z.land_nonneg. right. lia. }
  assert (E0 : u64 (PcdGet32 pcd PcdSerialClockRate * 4) = C0).
  { apply u64_small. unfold C0. lia. }
  rewrite E0.
  assert (Es : u64 (Z.shiftl C0 12) = Z.shiftl C0 12).
  { apply u64_small. rewrite Z.shiftl_mul_pow2 by lia. unfold C0. lia. }
  rewrite Es.
  assert (EC : (if negb (D =? 0) then Z.shiftl C0 12 / D else C0) = C).
  { unfold C. destruct (D =? 0); reflexivity. }
  rewrite EC.
  assert (HC0 : 0 <= C).
  { unfold C. destruct (D =? 0) eqn:ED.
    - unfold C0. lia.
    - apply Z.div_pos; [|apply Z.eqb_neq in ED; lia].
      rewrite Z.shiftl_mul_pow2 by lia. unfold C0. lia. }
  rewrite (u32_small C) by lia.
  rewrite (u32_small (B * 16)) by lia.
  rewrite (u32_small (B * 8)) by lia.
  replace (B * 16) with (16 * B) by lia.
  replace (B * 8) with (8 * B) by lia.
  destruct (16 * B =? 0) eqn:E16; [apply Z.eqb_eq in E16; lia|].
  assert (Hq : 0 <= C / (16 * B) < 2 ^ 28).
  { split; [apply Z.div_pos; lia|].
    apply Z.div_lt_upper_bound; lia. }
  unfold nearest_divisor.
  destruct (C mod (16 * B) >=? 8 * B).
  - rewrite u32_small by lia. reflexivity.
  - rewrite Z.add_0_r. reflexivity.
Qed.

(** ** SetAttributes and SetControl on the mini UART *)

Lemma trace_program_line w Divisor Lcr :
  trace (machine (program_line pcd plat hw w Divisor Lcr))
  = trace (machine w)
    ++ [RegWrite R_UART_LCR B_UART_LCR_DLAB;
        RegWrite R_UART_BAUD_HIGH (u8 (Z.shiftr Divisor 8));
        RegWrite R_UART_BAUD_LOW (u8 (Z.land Divisor 0xff));
        RegWrite R_UART_LCR (u8 (Z.land Lcr 0x3F))].
Proof. unfold program_line. simpl. repeat rewrite <- app_assoc. reflexivity. Qed.

Lemma SetAttributes_mini_run (a : SerialAttributes) (w : World hw) :
  UsePl011Uart w = false ->
  SerialPortSetAttributes pcd plat hw pl011 a w
  = let a0 := ResolveBaudRate pcd a in
    match ResolveDataBits pcd a0 with
    | None => Ret ((RETURN_INVALID_PARAMETER, a0), w)
    | Some (LcrData, a1) =>
      match ResolveParity pcd a1 with
      | None => Ret ((RETURN_INVALID_PARAMETER, a1), w)
      | Some (LcrParity, a2) =>
        match ResolveStopBits pcd a2 with
        | None => Ret ((RETURN_INVALID_PARAMETER, a2), w)
        | Some (LcrStop, a3) =>
          match SerialPortGetDivisor pcd plat hw (u32 (BaudRate a0)) w with
          | Ret (Divisor, w1) =>
              Ret ((RETURN_SUCCESS, a3),
                   program_line pcd plat hw w1 Divisor
                                (pack_lcr LcrParity LcrStop LcrData))
          | OutOfFuel => OutOfFuel
          | Fault => Fault
          end
        end
      end
    end.
Proof.
  intros Hm. unfold SerialPortSetAttributes.
  unfold bind at 1. unfold get_UsePl011Uart. rewrite Hm. cbv zeta.
  destruct (ResolveDataBits pcd (ResolveBaudRate pcd a)) as [[LcrData a1]|];
    [|reflexivity].
  destruct (ResolveParity pcd a1) as [[LcrParity a2]|]; [|reflexivity].
  destruct (ResolveStopBits pcd a2) as [[LcrStop a3]|]; [|reflexivity].
  unfold bind at 1.
  destruct (SerialPortGetDivisor pcd plat hw _ w) as [[Divisor w1]| |];
    reflexivity.
Qed.

Lemma SetControl_mini_run (Control : Z) (w : World hw) :
  UsePl011Uart w = false ->
  SerialPortSetControl pcd plat hw pl011 Control w
  = if negb (Z.land Control
               (Z.lnot (Z.lor (Z.lor EFI_SERIAL_REQUEST_TO_SEND
                                     EFI_SERIAL_DATA_TERMINAL_READY)
                              EFI_SERIAL_HARDWARE_FLOW_CONTROL_ENABLE)) =? 0)
    then Ret (RETURN_UNSUPPORTED, w)
    else
      let base := MINI_UART_REGISTER_BASE plat in
      let Mcr := u8 (Z.land (read_value pcd hw w base R_UART_MCR)
                            (Z.lnot (Z.lor B_UART_MCR_DTRC B_UART_MCR_RTS))) in
      let Mcr :=
        if Z.land Control EFI_SERIAL_DATA_TERMINAL_READY
           =? EFI_SERIAL_DATA_TERMINAL_READY
        then u8 (Z.lor Mcr B_UART_MCR_DTRC) else Mcr in
      let Mcr :=
        if Z.land Control EFI_SERIAL_REQUEST_TO_SEND =? EFI_SERIAL_REQUEST_TO_SEND
        then u8 (Z.lor Mcr B_UART_MCR_RTS) else Mcr in
      Ret (RETURN_SUCCESS,
           after_write pcd hw (after_read pcd hw w base R_UART_MCR)
                       base R_UART_MCR Mcr).
Proof.
  intros Hm. unfold SerialPortSetControl.
  unfold bind at 1. unfold get_UsePl011Uart. rewrite Hm.
  destruct (negb _); [reflexivity|].
  erewrite bind_run by apply SerialPortReadRegister_run. reflexivity.
Qed.

Lemma ResolveBaudRate_fields a :
  DataBits (ResolveBaudRate pcd a) = DataBits a /\
  Parity (ResolveBaudRate pcd a) = Parity a /\
  StopBits (ResolveBaudRate pcd a) = StopBits a.
Proof. unfold ResolveBaudRate. destruct (BaudRate a =? 0); auto. Qed.

Lemma ResolveDataBits_fields a LcrData a1 :
  ResolveDataBits pcd a = Some (LcrData, a1) ->
  Parity a1 = Parity a /\ StopBits a1 = StopBits a /\ BaudRate a1 = BaudRate a /\
  0 <= LcrData <= 3.
Proof.
  unfold ResolveDataBits. destruct (DataBits a =? 0).
  - intros H. inversion H; subst. simpl. repeat split; auto.
    + apply u8_range.
    + assert (0 <= Z.land (PcdGet8 pcd PcdSerialLineControl) 3 <= 3).
      { pose proof (u8_range (PcdSerialLineControl pcd)).
        split; [apply Z.land_nonneg; lia|].
        change 3 with (Z.ones 2) at 1. rewrite Z.land_ones by lia.
        pose proof (Z.mod_pos_bound (PcdGet8 pcd PcdSerialLineControl) (2 ^ 2)).
        lia. }
      rewrite u8_small; lia.
  - destruct ((DataBits a <? 5) || (DataBits a >? 8)) eqn:E; [discriminate|].
    intros H. inversion H; subst. apply orb_false_iff in E as [E1 E2].
    apply Z.ltb_ge in E1. rewrite Z.gtb_ltb in E2. apply Z.ltb_ge in E2.
    change (u8 5) with 5. rewrite u8_small by lia. repeat split; auto; lia.
Qed.

Lemma ResolveDataBits_None a :
  ResolveDataBits pcd a = None <->
  DataBits a <> 0 /\ (DataBits a < 5 \/ 8 < DataBits a).
Proof.
  unfold ResolveDataBits. destruct (DataBits a =? 0) eqn:E0.
  - apply Z.eqb_eq in E0. split; [discriminate | intros [H _]; contradiction].
  - apply Z.eqb_neq in E0.
    destruct ((DataBits a <? 5) || (DataBits a >? 8)) eqn:E.
    + apply orb_true_iff in E. rewrite Z.gtb_ltb in E.
      rewrite !Z.ltb_lt in E. tauto.
    + apply orb_false_iff in E. rewrite Z.gtb_ltb in E.
      rewrite !Z.ltb_ge in E. split; [discriminate|]. lia.
Qed.

Lemma ResolveParity_fields a LcrParity a2 :
  ResolveParity pcd a = Some (LcrParity, a2) ->
  StopBits a2 = StopBits a /\ DataBits a2 = DataBits a /\ BaudRate a2 = BaudRate a.
Proof.
  unfold ResolveParity.
  repeat match goal with
         | |- context [if ?b then _ else _] => destruct b
         end;
    intros H; inversion H; subst; auto.
Qed.

Lemma ResolveParity_None a :
  ResolveParity pcd a = None <-> (Parity a < 0 \/ 5 < Parity a).
Proof.
  unfold ResolveParity, DefaultParity, NoParity, EvenParity, OddParity,
    SpaceParity, MarkParity.
  repeat match goal with
         | |- context [?x =? ?y] => destruct (Z.eqb_spec x y)
         end;
    split; intros H; try discriminate; try reflexivity; lia.
Qed.

Lemma ResolveStopBits_None a :
  ResolveStopBits pcd a = None <-> (StopBits a < 0 \/ 3 < StopBits a).
Proof.
  unfold ResolveStopBits, DefaultStopBits, OneStopBit, OneFiveStopBits,
    TwoStopBits.
  destruct (Z.eqb_spec (StopBits a) 0);
    [split; [discriminate | lia]|].
  destruct (Z.eqb_spec (StopBits a) 1);
    [split; [discriminate | lia]|].
  destruct (Z.eqb_spec (StopBits a) 2); simpl;
    [split; [discriminate | lia]|].
  destruct (Z.eqb_spec (StopBits a) 3); simpl;
    [split; [discriminate | lia]|].
  split; [lia | reflexivity].
Qed.

(** C4: on the mini-UART path, whenever SerialPortSetAttributes returns
    RETURN_INVALID_PARAMETER or SerialPortSetControl returns
    RETURN_UNSUPPORTED, the world is the one of the call: no register was
    read or written and the device is unchanged.  The failures are the ones
    the claim lists, and they do occur: data bits other than the sentinel 0
    outside 5..8, a parity or stop-bits value that is no member of its
    enumeration, a control mask with a bit outside RequestToSend,
    DataTerminalReady, HardwareFlowControlEnable. *)
Theorem failure_leaves_device_untouched (w : World hw) :
  UsePl011Uart w = false ->
  (forall a a' w',
      SerialPortSetAttributes pcd plat hw pl011 a w
      = Ret ((RETURN_INVALID_PARAMETER, a'), w') -> w' = w) /\
  (forall Control w',
      SerialPortSetControl pcd plat hw pl011 Control w
      = Ret (RETURN_UNSUPPORTED, w') -> w' = w) /\
  (forall a,
      (DataBits a <> 0 /\ (DataBits a < 5 \/ 8 < DataBits a)) \/
      (Parity a < 0 \/ 5 < Parity a) \/
      (StopBits a < 0 \/ 3 < StopBits a) ->
      exists a',
        SerialPortSetAttributes pcd plat hw pl011 a w
        = Ret ((RETURN_INVALID_PARAMETER, a'), w)) /\
  (forall Control,
      Z.land Control
        (Z.lnot (Z.lor (Z.lor EFI_SERIAL_REQUEST_TO_SEND
                              EFI_SERIAL_DATA_TERMINAL_READY)
                       EFI_SERIAL_HARDWARE_FLOW_CONTROL_ENABLE)) <> 0 ->
      SerialPortSetControl pcd plat hw pl011 Control w
      = Ret (RETURN_UNSUPPORTED, w)).
Proof.
  intros Hm. repeat split.
  - intros a a' w'. rewrite (SetAttributes_mini_run a w Hm). cbv zeta.
    destruct (ResolveDataBits pcd _) as [[LcrData a1]|];
      [|intros H; inversion H; reflexivity].
    destruct (ResolveParity pcd a1) as [[LcrParity a2]|];
      [|intros H; inversion H; reflexivity].
    destruct (ResolveStopBits pcd a2) as [[LcrStop a3]|];
      [|intros H; inversion H; reflexivity].
    destruct (SerialPortGetDivisor pcd plat hw _ w) as [[Divisor w1]| |];
      discriminate.
  - intros Control w'. rewrite (SetControl_mini_run Control w Hm).
    destruct (negb _); [intros H; inversion H; reflexivity | discriminate].
  - intros a Hbad. rewrite (SetAttributes_mini_run a w Hm). cbv zeta.
    destruct (ResolveBaudRate_fields a) as (Ed & Ep & Es).
    destruct (ResolveDataBits pcd _) as [[LcrData a1]|] eqn:E1;
      [|eexists; reflexivity].
    destruct (ResolveDataBits_fields _ _ _ E1) as (Ep1 & Es1 & _).
    destruct (ResolveParity pcd a1) as [[LcrParity a2]|] eqn:E2;
      [|eexists; reflexivity].
    destruct (ResolveParity_fields _ _ _ E2) as (Es2 & _).
    destruct (ResolveStopBits pcd a2) as [[LcrStop a3]|] eqn:E3;
      [|eexists; reflexivity].
    exfalso. destruct Hbad as [Hd | [Hp | Hs]].
    + rewrite <- Ed in Hd. apply ResolveDataBits_None in Hd. congruence.
    + rewrite <- Ep, <- Ep1 in Hp. apply ResolveParity_None in Hp. congruence.
    + rewrite <- Es, <- Es1, <- Es2 in Hs. apply ResolveStopBits_None in Hs.
      congruence.
  - intros Control Hc. rewrite (SetControl_mini_run Control w Hm).
    apply Z.eqb_neq in Hc. rewrite Hc. reflexivity.
Qed.

Lemma land_low_bits x k :
  0 <= k -> 0 <= Z.land x (Z.ones k) < 2 ^ k.
Proof.
  intros Hk. rewrite Z.land_ones by assumption. apply Z.mod_pos_bound.
  apply Z.pow_pos_nonneg; lia.
Qed.

Lemma u32_idem z : u32 (u32 z) = u32 z.
Proof. apply u32_small, u32_range. Qed.

Lemma pack_decoded_fields c :
  0 <= c < 256 ->
  u8 (Z.land (pack_lcr (Z.land (Z.shiftr c 3) 0x7)
                       (Z.land (Z.shiftr c 2) 0x1)
                       (Z.land c 0x3)) 0x3F)
  = Z.land c 0x3F.
Proof. revert c. apply byte_ext_Z. vm_compute. reflexivity. Qed.

Lemma ResolveBaudRate_default a :
  BaudRate a = 0 ->
  ResolveBaudRate pcd a = set_BaudRate a (PcdGet32 pcd PcdSerialBaudRate).
Proof. intros H. unfold ResolveBaudRate. rewrite H. reflexivity. Qed.

Lemma ResolveDataBits_default a :
  DataBits a = 0 ->
  ResolveDataBits pcd a
  = Some (Z.land (PcdGet8 pcd PcdSerialLineControl) 0x3,
          set_DataBits a (decoded_data_bits (PcdGet8 pcd PcdSerialLineControl))).
Proof.
  intros H. unfold ResolveDataBits. rewrite H. simpl (0 =? 0).
  cbv iota. unfold decoded_data_bits.
  pose proof (land_low_bits (PcdGet8 pcd PcdSerialLineControl) 2) as B.
  change (Z.ones 2) with 3 in B. change (2 ^ 2) with 4 in B.
  rewrite (u8_small (Z.land _ 3)) by lia. rewrite u8_small by lia.
  reflexivity.
Qed.

Lemma ResolveParity_default a :
  Parity a = DefaultParity ->
  ResolveParity pcd a
  = Some (Z.land (Z.shiftr (PcdGet8 pcd PcdSerialLineControl) 3) 0x7,
          if decoded_parity (PcdGet8 pcd PcdSerialLineControl) =? DefaultParity
          then a
          else set_Parity a (decoded_parity (PcdGet8 pcd PcdSerialLineControl))).
Proof.
  intros H. unfold ResolveParity. rewrite H. simpl (DefaultParity =? DefaultParity).
  cbv iota. unfold decoded_parity.
  pose proof (land_low_bits (Z.shiftr (PcdGet8 pcd PcdSerialLineControl) 3) 3) as B.
  change (Z.ones 3) with 7 in B. change (2 ^ 3) with 8 in B.
  rewrite (u8_small (Z.land _ 7)) by lia.
  set (code := Z.land (Z.shiftr (PcdGet8 pcd PcdSerialLineControl) 3) 7) in *.
  destruct (Z.eqb_spec code 0); [reflexivity|].
  destruct (Z.eqb_spec code 3);
    [destruct (Z.eqb_spec code 1); [lia | reflexivity]|].
  destruct (Z.eqb_spec code 1); [reflexivity|].
  destruct (Z.eqb_spec code 7);
    [destruct (Z.eqb_spec code 5); [lia | reflexivity]|].
  destruct (Z.eqb_spec code 5); reflexivity.
Qed.

Lemma ResolveStopBits_default a :
  StopBits a = DefaultStopBits ->
  DataBits a = decoded_data_bits (PcdGet8 pcd PcdSerialLineControl) ->
  ResolveStopBits pcd a
  = Some (Z.land (Z.shiftr (PcdGet8 pcd PcdSerialLineControl) 2) 0x1,
          set_StopBits a (decoded_stop_bits (PcdGet8 pcd PcdSerialLineControl))).
Proof.
  intros H Hd. unfold ResolveStopBits. rewrite H.
  simpl (DefaultStopBits =? DefaultStopBits). cbv iota. unfold decoded_stop_bits.
  pose proof (land_low_bits (Z.shiftr (PcdGet8 pcd PcdSerialLineControl) 2) 1) as B.
  change (Z.ones 1) with 1 in B. change (2 ^ 1) with 2 in B.
  rewrite (u8_small (Z.land _ 1)) by lia. rewrite Hd.
  set (code := Z.land (Z.shiftr (PcdGet8 pcd PcdSerialLineControl) 2) 1) in *.
  destruct (Z.eqb_spec code 0); [reflexivity|].
  destruct (Z.eqb_spec code 1); [|lia].
  destruct (decoded_data_bits _ =? 5); reflexivity.
Qed.


Lemma ResolveStopBits_fields a LcrStop a3 :
  ResolveStopBits pcd a = Some (LcrStop, a3) ->
  Parity a3 = Parity a /\ 0 <= LcrStop <= 1.
Proof.
  unfold ResolveStopBits.
  pose proof (land_low_bits (Z.shiftr (PcdGet8 pcd PcdSerialLineControl) 2) 1) as B.
  change (Z.ones 1) with 1 in B. change (2 ^ 1) with 2 in B.
  destruct (StopBits a =? DefaultStopBits).
  - intros H. inversion H; subst. rewrite u8_small by lia. split; [|lia].
    repeat match goal with
           | |- context [if ?b then _ else _] => destruct b
           end; reflexivity.
  - destruct (StopBits a =? OneStopBit);
      [intros H; inversion H; subst; split; [reflexivity | lia]|].
    destruct ((StopBits a =? OneFiveStopBits) || (StopBits a =? TwoStopBits));
      [intros H; inversion H; subst; split; [reflexivity | lia] | discriminate].
Qed.

Lemma parity_field_of_packed code LcrStop LcrData :
  code = 2 \/ code = 4 \/ code = 6 ->
  0 <= LcrStop <= 1 ->
  0 <= LcrData <= 3 ->
  Z.land (Z.shiftr (u8 (Z.land (pack_lcr code LcrStop LcrData) 0x3F)) 3) 0x7 = code.
Proof.
  intros Hc Hs Hd.
  assert (Es : LcrStop = 0 \/ LcrStop = 1) by lia.
  assert (Ed : LcrData = 0 \/ LcrData = 1 \/ LcrData = 2 \/ LcrData = 3) by lia.
  destruct Hc as [-> | [-> | ->]]; destruct Es as [-> | ->];
    destruct Ed as [-> | [-> | [-> | ->]]]; reflexivity.
Qed.


(** ** Variant detection *)

Lemma DetectPl011Uart_run (w : World hw) :
  DetectPl011Uart plat hw w = Ret (tt, detected plat hw w).
Proof.
  unfold DetectPl011Uart, detected, bind, get_UsePl011UartSet.
  destruct (UsePl011UartSet w); simpl; [reflexivity|].
  rewrite MmioRead32_run. reflexivity.
Qed.

Lemma trace_detected (w : World hw) :
  trace (machine (detected plat hw w))
  = trace (machine w)
    ++ (if UsePl011UartSet w then []
        else [Mmio32Read (GPIO_BASE_ADDRESS plat + 4)
                         (read32_value hw w (GPIO_BASE_ADDRESS plat + 4))]).
Proof.
  unfold detected. destruct (UsePl011UartSet w); simpl;
    [rewrite app_nil_r|]; reflexivity.
Qed.

Lemma flags_GetDivisor B :
  respects same_flags (SerialPortGetDivisor pcd plat hw B).
Proof. unfold SerialPortGetDivisor. repeat respects_step. Qed.

Lemma flags_TransmitterBusy Base :
  respects same_flags (TransmitterBusy pcd hw Base).
Proof. unfold TransmitterBusy. repeat respects_step. Qed.

Lemma flags_NotWritable Base : respects same_flags (NotWritable pcd hw Base).
Proof. unfold NotWritable, SerialPortWritable, PcdGetBool. repeat respects_step. Qed.

Hint Resolve flags_GetDivisor flags_TransmitterBusy flags_NotWritable : runs.

Lemma flags_Initialize fuel w st w' :
  SerialPortInitialize pcd plat hw pl011 fuel w = Ret (st, w') ->
  same_flags (detected plat hw w) w'.
Proof.
  unfold SerialPortInitialize. intros H.
  apply bind_Ret in H as ([] & w0 & H0 & H).
  rewrite DetectPl011Uart_run in H0. inversion H0; subst. clear H0.
  match type of H with
  | ?m _ = _ => assert (R : respects same_flags m)
  end.
  { unfold InitializeCheck, InitializeProgram. repeat respects_step. }
  exact (R _ _ _ H).
Qed.

Lemma flags_Write fuel Buffer NumberOfBytes w r w' :
  SerialPortWrite pcd plat hw pl011 fuel Buffer NumberOfBytes w = Ret (r, w') ->
  same_flags (detected plat hw w) w'.
Proof.
  unfold SerialPortWrite. intros H.
  apply bind_Ret in H as ([] & w0 & H0 & H).
  rewrite DetectPl011Uart_run in H0. inversion H0; subst. clear H0.
  match type of H with
  | ?m _ = _ => assert (R : respects same_flags m)
  end.
  { unfold WriteLoop, WriteLoopTest, WriteLoopBody, WriteFillFifo,
      WriteFillFifoTest, WriteFillFifoBody.
    repeat respects_step. }
  exact (R _ _ _ H).
Qed.

Lemma flags_Read fuel Buffer NumberOfBytes :
  respects same_flags (SerialPortRead pcd plat hw pl011 fuel Buffer NumberOfBytes).
Proof.
  unfold SerialPortRead, ReadLoop, PcdGetBool. repeat respects_step.
Qed.

Lemma flags_Poll : respects same_flags (SerialPortPoll pcd plat hw pl011).
Proof. unfold SerialPortPoll, PcdGetBool. repeat respects_step. Qed.

Lemma flags_GetControl : respects same_flags (SerialPortGetControl pcd plat hw pl011).
Proof. unfold SerialPortGetControl. repeat respects_step. Qed.

Lemma flags_SetControl Control :
  respects same_flags (SerialPortSetControl pcd plat hw pl011 Control).
Proof. unfold SerialPortSetControl. repeat respects_step. Qed.

Lemma flags_SetAttributes a :
  respects same_flags (SerialPortSetAttributes pcd plat hw pl011 a).
Proof. unfold SerialPortSetAttributes. repeat respects_step. Qed.

(** C1, amended: SerialPortInitialize and SerialPortWrite, run from the
    unprobed state ([UsePl011UartSet] false), perform the one-shot detection
    before branching.  The rest of the operation runs in the world after the
    detection read, and the branch it takes is the detected one: the PL011
    library when the GPIO function-select register masked with 0x0003F000
    equals 0x00024000, the 16550 code otherwise, whatever [UsePl011Uart] held
    before.  Afterwards [UsePl011UartSet] is true and [UsePl011Uart] is the
    detected value.  Read, Poll, GetControl, SetControl and SetAttributes do
    not probe: they branch on [UsePl011Uart] as it is (on the PL011 library
    when it is true, without any access of their own) and leave both globals
    as they found them. *)
Theorem detection_at_first_use (fuel : nat) (w : World hw) :
  UsePl011UartSet w = false ->
  let gpio := read32_value hw w (GPIO_BASE_ADDRESS plat + 4) in
  let pl011_selected := Z.land gpio 0x0003F000 =? 0x00024000 in
  let base := PL011_UART_REGISTER_BASE plat in
  let mini := MINI_UART_REGISTER_BASE plat in
  let w0 := detected plat hw w in
  (forall st w',
      SerialPortInitialize pcd plat hw pl011 fuel w = Ret (st, w') ->
      UsePl011UartSet w' = true /\ UsePl011Uart w' = pl011_selected) /\
  (forall Buffer NumberOfBytes r w',
      SerialPortWrite pcd plat hw pl011 fuel Buffer NumberOfBytes w = Ret (r, w') ->
      UsePl011UartSet w' = true /\ UsePl011Uart w' = pl011_selected) /\
  (forall Buffer NumberOfBytes r w',
      SerialPortRead pcd plat hw pl011 fuel Buffer NumberOfBytes w = Ret (r, w') ->
      UsePl011UartSet w' = false /\ UsePl011Uart w' = UsePl011Uart w) /\
  (forall r w',
      SerialPortPoll pcd plat hw pl011 w = Ret (r, w') ->
      UsePl011UartSet w' = false /\ UsePl011Uart w' = UsePl011Uart w) /\
  (forall r w',
      SerialPortGetControl pcd plat hw pl011 w = Ret (r, w') ->
      UsePl011UartSet w' = false /\ UsePl011Uart w' = UsePl011Uart w) /\
  (forall Control r w',
      SerialPortSetControl pcd plat hw pl011 Control w = Ret (r, w') ->
      UsePl011UartSet w' = false /\ UsePl011Uart w' = UsePl011Uart w) /\
  (forall a r w',
      SerialPortSetAttributes pcd plat hw pl011 a w = Ret (r, w') ->
      UsePl011UartSet w' = false /\ UsePl011Uart w' = UsePl011Uart w) /\
  (* the detection comes first: one read of the GPIO register *)
  trace (machine w0)
  = trace (machine w) ++ [Mmio32Read (GPIO_BASE_ADDRESS plat + 4) gpio] /\
  UsePl011Uart w0 = pl011_selected /\
  (* Initialize and Write branch on the detected value *)
  (pl011_selected = true ->
   SerialPortInitialize pcd plat hw pl011 fuel w
   = bind (lift (PL011UartClockGetFreq pl011))
          (fun clock =>
             bind (lift (PL011UartInitializePort pl011 base clock
                           {| BaudRate := FixedPcdGet64 pcd PcdUartDefaultBaudRate;
                              ReceiveFifoDepth := 0;
                              Timeout := 0;
                              Parity := FixedPcdGet8 pcd PcdUartDefaultParity;
                              DataBits := FixedPcdGet8 pcd PcdUartDefaultDataBits;
                              StopBits := FixedPcdGet8 pcd PcdUartDefaultStopBits |}))
                  (fun r => ret (fst r))) w0 /\
   forall Buffer NumberOfBytes,
     SerialPortWrite pcd plat hw pl011 fuel Buffer NumberOfBytes w
     = lift (PL011UartWrite pl011 base Buffer NumberOfBytes) w0) /\
  (pl011_selected = false ->
   SerialPortInitialize pcd plat hw pl011 fuel w
   = bind (SerialPortGetDivisor pcd plat hw (PcdGet32 pcd PcdSerialBaudRate))
          (fun Divisor =>
             bind (InitializeCheck pcd hw mini Divisor)
                  (fun Initialized =>
                     if Initialized then ret RETURN_SUCCESS
                     else InitializeProgram pcd hw fuel mini Divisor)) w0 /\
   forall Buffer NumberOfBytes,
     SerialPortWrite pcd plat hw pl011 fuel Buffer NumberOfBytes w
     = (if Buffer =? NULL then ret 0
        else if NumberOfBytes =? 0 then
          bind (SpinWhile fuel (TransmitterBusy pcd hw mini))
               (fun _ => bind (SpinWhile fuel (NotWritable pcd hw mini))
                              (fun _ => ret 0))
        else
          bind (WriteLoop pcd hw fuel mini (TxFifoSize pcd) (NumberOfBytes, Buffer))
               (fun _ => ret NumberOfBytes)) w0) /\
  (* the other five branch on the flag as it is *)
  (UsePl011Uart w = true ->
   (forall Buffer NumberOfBytes,
       SerialPortRead pcd plat hw pl011 fuel Buffer NumberOfBytes w
       = lift (PL011UartRead pl011 base Buffer NumberOfBytes) w) /\
   SerialPortPoll pcd plat hw pl011 w = lift (PL011UartPoll pl011 base) w /\
   SerialPortGetControl pcd plat hw pl011 w
   = lift (PL011UartGetControl pl011 base) w /\
   (forall Control,
       SerialPortSetControl pcd plat hw pl011 Control w
       = lift (PL011UartSetControl pl011 base Control) w) /\
   (forall a,
       SerialPortSetAttributes pcd plat hw pl011 a w
       = bind (lift (PL011UartClockGetFreq pl011))
              (fun clock =>
                 bind (lift (PL011UartInitializePort pl011 base clock a))
                      (fun r => ret (fst r, set_Timeout (snd r) (Timeout a)))) w)) /\
  (UsePl011Uart w = false ->
   let no_probe := emits (fun e => match e with
                                   | Mmio32Read _ _ => False
                                   | _ => True
                                   end) in
   (forall Buffer NumberOfBytes r w',
       SerialPortRead pcd plat hw pl011 fuel Buffer NumberOfBytes w = Ret (r, w') ->
       no_probe w w') /\
   (forall r w', SerialPortPoll pcd plat hw pl011 w = Ret (r, w') -> no_probe w w') /\
   (forall r w',
       SerialPortGetControl pcd plat hw pl011 w = Ret (r, w') -> no_probe w w') /\
   (forall Control r w',
       SerialPortSetControl pcd plat hw pl011 Control w = Ret (r, w') ->
       no_probe w w')).
Proof.
  intros Hunset gpio pl011_selected base mini w0.
  assert (Hd : UsePl011UartSet w0 = true /\ UsePl011Uart w0 = pl011_selected).
  { unfold w0, detected. rewrite Hunset. split; reflexivity. }
  destruct Hd as [Hd1 Hd2].
  assert (Hflags :
    (forall st w',
      SerialPortInitialize pcd plat hw pl011 fuel w = Ret (st, w') ->
      UsePl011UartSet w' = true /\ UsePl011Uart w' = pl011_selected) /\
    (forall Buffer NumberOfBytes r w',
      SerialPortWrite pcd plat hw pl011 fuel Buffer NumberOfBytes w = Ret (r, w') ->
      UsePl011UartSet w' = true /\ UsePl011Uart w' = pl011_selected) /\
    (forall Buffer NumberOfBytes r w',
      SerialPortRead pcd plat hw pl011 fuel Buffer NumberOfBytes w = Ret (r, w') ->
      UsePl011UartSet w' = false /\ UsePl011Uart w' = UsePl011Uart w) /\
    (forall r w',
      SerialPortPoll pcd plat hw pl011 w = Ret (r, w') ->
      UsePl011UartSet w' = false /\ UsePl011Uart w' = UsePl011Uart w) /\
    (forall r w',
      SerialPortGetControl pcd plat hw pl011 w = Ret (r, w') ->
      UsePl011UartSet w' = false /\ UsePl011Uart w' = UsePl011Uart w) /\
    (forall Control r w',
      SerialPortSetControl pcd plat hw pl011 Control w = Ret (r, w') ->
      UsePl011UartSet w' = false /\ UsePl011Uart w' = UsePl011Uart w) /\
    (forall a r w',
      SerialPortSetAttributes pcd plat hw pl011 a w = Ret (r, w') ->
      UsePl011UartSet w' = false /\ UsePl011Uart w' = UsePl011Uart w)).
  { fold w0 in Hd1, Hd2. repeat split.
    - apply flags_Initialize in H as [_ H]. fold w0 in H. congruence.
    - apply flags_Initialize in H as [H _]. fold w0 in H. congruence.
    - apply flags_Write in H as [_ H]. fold w0 in H. congruence.
    - apply flags_Write in H as [H _]. fold w0 in H. congruence.
    - apply flags_Read in H as [_ H]. congruence.
    - apply flags_Read in H as [H _]. congruence.
    - apply flags_Poll in H as [_ H]. congruence.
    - apply flags_Poll in H as [H _]. congruence.
    - apply flags_GetControl in H as [_ H]. congruence.
    - apply flags_GetControl in H as [H _]. congruence.
    - apply flags_SetControl in H as [_ H]. congruence.
    - apply flags_SetControl in H as [H _]. congruence.
    - apply flags_SetAttributes in H as [_ H]. congruence.
    - apply flags_SetAttributes in H as [H _]. congruence. }
  destruct Hflags as (F1 & F2 & F3 & F4 & F5 & F6 & F7).
  split; [exact F1|]. split; [exact F2|]. split; [exact F3|].
  split; [exact F4|]. split; [exact F5|]. split; [exact F6|].
  split; [exact F7|].
  split; [unfold w0; rewrite trace_detected, Hunset; reflexivity|].
  split; [exact Hd2|].
  split; [|split; [|split]].
  - intros Hsel. rewrite Hsel in Hd2. split.
    + unfold SerialPortInitialize.
      erewrite bind_run by apply DetectPl011Uart_run. fold w0.
      unfold bind at 1. unfold get_UsePl011Uart. rewrite Hd2. reflexivity.
    + intros Buffer NumberOfBytes. unfold SerialPortWrite.
      erewrite bind_run by apply DetectPl011Uart_run. fold w0.
      unfold bind at 1. unfold get_UsePl011Uart. rewrite Hd2. reflexivity.
  - intros Hsel. rewrite Hsel in Hd2. split.
    + unfold SerialPortInitialize.
      erewrite bind_run by apply DetectPl011Uart_run. fold w0.
      unfold bind at 1. unfold get_UsePl011Uart. rewrite Hd2. reflexivity.
    + intros Buffer NumberOfBytes. unfold SerialPortWrite.
      erewrite bind_run by apply DetectPl011Uart_run. fold w0.
      unfold bind at 1. unfold get_UsePl011Uart. rewrite Hd2.
      destruct (Buffer =? NULL); [reflexivity|].
      destruct (NumberOfBytes =? 0); reflexivity.
  - intros Huse. repeat split; intros.
    + unfold SerialPortRead.
      unfold bind at 1. unfold get_UsePl011Uart. rewrite Huse. reflexivity.
    + unfold SerialPortPoll.
      unfold bind at 1. unfold get_UsePl011Uart. rewrite Huse. reflexivity.
    + unfold SerialPortGetControl.
      unfold bind at 1. unfold get_UsePl011Uart. rewrite Huse. reflexivity.
    + unfold SerialPortSetControl.
      unfold bind at 1. unfold get_UsePl011Uart. rewrite Huse. reflexivity.
    + unfold SerialPortSetAttributes.
      unfold bind at 1. unfold get_UsePl011Uart. rewrite Huse. reflexivity.
  - intros Huse no_probe. unfold no_probe. repeat split.
    + intros Buffer NumberOfBytes r w' H. unfold SerialPortRead in H.
      unfold bind at 1 in H. unfold get_UsePl011Uart in H. rewrite Huse in H.
      cbv iota in H.
      match type of H with
      | ?m w = _ => assert (R : respects (emits (fun e => match e with
                                   | Mmio32Read _ _ => False
                                   | _ => True
                                   end)) m)
      end.
      { unfold ReadLoop, PcdGetBool. repeat respects_step; exact I. }
      exact (R _ _ _ H).
    + intros r w' H. unfold SerialPortPoll in H.
      unfold bind at 1 in H. unfold get_UsePl011Uart in H. rewrite Huse in H.
      cbv iota in H.
      match type of H with
      | ?m w = _ => assert (R : respects (emits (fun e => match e with
                                   | Mmio32Read _ _ => False
                                   | _ => True
                                   end)) m)
      end.
      { unfold PcdGetBool. repeat respects_step; exact I. }
      exact (R _ _ _ H).
    + intros r w' H. unfold SerialPortGetControl in H.
      unfold bind at 1 in H. unfold get_UsePl011Uart in H. rewrite Huse in H.
      cbv iota in H.
      match type of H with
      | ?m w = _ => assert (R : respects (emits (fun e => match e with
                                   | Mmio32Read _ _ => False
                                   | _ => True
                                   end)) m)
      end.
      { unfold PcdGetBool. repeat respects_step; exact I. }
      exact (R _ _ _ H).
    + intros Control r w' H. unfold SerialPortSetControl in H.
      unfold bind at 1 in H. unfold get_UsePl011Uart in H. rewrite Huse in H.
      cbv iota in H.
      match type of H with
      | ?m w = _ => assert (R : respects (emits (fun e => match e with
                                   | Mmio32Read _ _ => False
                                   | _ => True
                                   end)) m)
      end.
      { repeat respects_step; exact I. }
      exact (R _ _ _ H).
Qed.

(** ** Null buffers *)

(** C9: on the mini-UART path, for every [NumberOfBytes], SerialPortWrite
    with a null buffer returns 0 and the only thing it may have done is the
    detection read of the GPIO register: no UART register is written;
    SerialPortRead with a null buffer returns 0 in the world of the call.
    Both return a plain 0: no assertion, no error status. *)
Theorem null_buffer_returns_zero (fuel : nat) (NumberOfBytes : Z) (w : World hw) :
  (UsePl011Uart (detected plat hw w) = false ->
   SerialPortWrite pcd plat hw pl011 fuel NULL NumberOfBytes w
   = Ret (0, detected plat hw w) /\
   reg_writes (events_since w (detected plat hw w)) = [] /\
   dev (machine (detected plat hw w))
   = (if UsePl011UartSet w then dev (machine w)
      else snd (mmio_read32 hw (dev (machine w)) (GPIO_BASE_ADDRESS plat + 4))))
  /\
  (UsePl011Uart w = false ->
   SerialPortRead pcd plat hw pl011 fuel NULL NumberOfBytes w = Ret (0, w)).
Proof.
  split.
  - intros Hm. repeat split.
    + unfold SerialPortWrite.
      erewrite bind_run by apply DetectPl011Uart_run.
      unfold bind, get_UsePl011Uart. rewrite Hm. reflexivity.
    + unfold events_since. rewrite trace_detected.
      rewrite skipn_app, skipn_all, Nat.sub_diag. simpl.
      destruct (UsePl011UartSet w); reflexivity.
    + unfold detected. destruct (UsePl011UartSet w); reflexivity.
  - intros Hm. unfold SerialPortRead, bind, get_UsePl011Uart.
    rewrite Hm. reflexivity.
Qed.

(** ** Initialize on the mini UART *)

Lemma InitializeCheck_run (Divisor : Z) (w : World hw) :
  InitializeCheck pcd hw (MINI_UART_REGISTER_BASE plat) Divisor w
  = Ret ((Z.land (check_lcr pcd plat hw w) 0x3F
          =? Z.land (PcdGet8 pcd PcdSerialLineControl) 0x3F)
         && (check_divisor pcd plat hw w =? Divisor),
         check_world pcd plat hw w).
Proof.
  unfold InitializeCheck.
  repeat (first [ erewrite bind_run by apply SerialPortReadRegister_run
                | erewrite bind_run by apply SerialPortWriteRegister_run ]).
  unfold ret, check_lcr, check_divisor, check_world, check_latched.
  cbv zeta.
  destruct (Z.land _ 63 =? Z.land _ 63); destruct (Z.lor _ _ =? Divisor);
    reflexivity.
Qed.

Lemma trace_check_world (w : World hw) :
  exists l1 l2 hi lo l3,
    trace (machine (check_world pcd plat hw w))
    = trace (machine w)
      ++ [RegRead R_UART_LCR l1;
          RegRead R_UART_LCR l2;
          RegWrite R_UART_LCR (u8 (Z.lor l2 B_UART_LCR_DLAB));
          RegRead R_UART_BAUD_HIGH hi;
          RegRead R_UART_BAUD_LOW lo;
          RegRead R_UART_LCR l3;
          RegWrite R_UART_LCR (u8 (Z.land l3 (Z.lnot B_UART_LCR_DLAB)))] /\
    l1 = check_lcr pcd plat hw w /\
    Z.lor (u32 (Z.shiftl hi 8)) (u32 lo) = check_divisor pcd plat hw w.
Proof.
  do 5 eexists. split; [|split; reflexivity].
  unfold check_world, check_latched. simpl.
  repeat rewrite <- app_assoc. reflexivity.
Qed.

Lemma check_divisor_range (w : World hw) :
  0 <= check_divisor pcd plat hw w <= 0xFFFF.
Proof.
  unfold check_divisor. cbv zeta.
  set (hi := read_value pcd hw _ _ R_UART_BAUD_HIGH).
  set (lo := read_value pcd hw _ _ R_UART_BAUD_LOW).
  assert (Hhi : 0 <= hi < 256) by apply read_value_range.
  assert (Hlo : 0 <= lo < 256) by apply read_value_range.
  rewrite Z.shiftl_mul_pow2 by lia.
  rewrite (u32_small (hi * 2 ^ 8)) by lia. rewrite (u32_small lo) by lia.
  assert (H : 0 <= Z.lor (hi * 2 ^ 8) lo < 2 ^ 16)
    by (apply lor_bound; lia).
  lia.
Qed.

Lemma InitializeProgram_run (fuel : nat) (Divisor : Z) (w : World hw) :
  InitializeProgram pcd hw fuel (MINI_UART_REGISTER_BASE plat) Divisor w
  = match SpinWhile fuel (TransmitterBusy pcd hw (MINI_UART_REGISTER_BASE plat)) w with
    | Ret (_, w3) => Ret (RETURN_SUCCESS, program_port pcd plat hw w3 Divisor)
    | OutOfFuel => OutOfFuel
    | Fault => Fault
    end.
Proof.
  unfold InitializeProgram. unfold bind at 1.
  destruct (SpinWhile fuel _ w) as [[u w3]| |]; reflexivity.
Qed.

Lemma Initialize_mini_run (fuel : nat) (w : World hw) :
  UsePl011Uart (detected plat hw w) = false ->
  SerialPortInitialize pcd plat hw pl011 fuel w
  = match SerialPortGetDivisor pcd plat hw (PcdGet32 pcd PcdSerialBaudRate)
                               (detected plat hw w) with
    | Ret (Divisor, w1) =>
        if (Z.land (check_lcr pcd plat hw w1) 0x3F
            =? Z.land (PcdGet8 pcd PcdSerialLineControl) 0x3F)
           && (check_divisor pcd plat hw w1 =? Divisor)
        then Ret (RETURN_SUCCESS, check_world pcd plat hw w1)
        else InitializeProgram pcd hw fuel (MINI_UART_REGISTER_BASE plat) Divisor
                               (check_world pcd plat hw w1)
    | OutOfFuel => OutOfFuel
    | Fault => Fault
    end.
Proof.
  intros Hm. unfold SerialPortInitialize.
  erewrite bind_run by apply DetectPl011Uart_run.
  unfold bind at 1. unfold get_UsePl011Uart. rewrite Hm.
  unfold bind at 1.
  destruct (SerialPortGetDivisor pcd plat hw _ _) as [[Divisor w1]| |];
    try reflexivity.
  erewrite bind_run by apply InitializeCheck_run.
  destruct (_ && _); reflexivity.
Qed.

Lemma trace_program_port (w : World hw) (Divisor : Z) :
  trace (machine (program_port pcd plat hw w Divisor))
  = trace (machine w)
    ++ [RegWrite R_UART_LCR B_UART_LCR_DLAB;
        RegWrite R_UART_BAUD_HIGH (u8 (Z.shiftr Divisor 8));
        RegWrite R_UART_BAUD_LOW (u8 (Z.land Divisor 0xff));
        RegWrite R_UART_LCR (u8 (Z.land (PcdGet8 pcd PcdSerialLineControl) 0x3F));
        RegWrite R_UART_FCR 0x00;
        RegWrite R_UART_FCR
                 (u8 (Z.land (PcdGet8 pcd PcdSerialFifoControl)
                             (Z.lor B_UART_FCR_FIFOE B_UART_FCR_FIFO64)));
        RegWrite R_UART_IER 0x00;
        RegWrite R_UART_MCR 0x00].
Proof. unfold program_port. simpl. repeat rewrite <- app_assoc. reflexivity. Qed.

Lemma reads_TransmitterBusy Base :
  respects (emits is_read) (TransmitterBusy pcd hw Base).
Proof. unfold TransmitterBusy. repeat respects_step. Qed.

Lemma reads_NotWritable Base :
  respects (emits is_read) (NotWritable pcd hw Base).
Proof. unfold NotWritable, SerialPortWritable, PcdGetBool. repeat respects_step. Qed.


Lemma TransmitterBusy_run Base (w : World hw) :
  TransmitterBusy pcd hw Base w
  = Ret (negb (Z.land (read_value pcd hw w Base R_UART_LSR)
                      (Z.lor B_UART_LSR_TEMT B_UART_LSR_TXRDY)
               =? Z.lor B_UART_LSR_TEMT B_UART_LSR_TXRDY),
         after_read pcd hw w Base R_UART_LSR).
Proof.
  unfold TransmitterBusy.
  erewrite bind_run by apply SerialPortReadRegister_run. reflexivity.
Qed.

Lemma GetDivisor_nonneg B (w w1 : World hw) Divisor :
  SerialPortGetDivisor pcd plat hw B w = Ret (Divisor, w1) ->
  0 <= Divisor /\ w1 = after_read32 hw w (BCM2836_CM_BASE plat
                                          + BCM2836_CM_VPU_CLOCK_DIVISOR plat).
Proof.
  pose proof (GetDivisor_run B w) as H. cbv zeta in H. rewrite H. clear H.
  destruct (Z.eqb_spec (u32 (B * 16)) 0) as [E|E]; [discriminate|].
  intros H. injection H as <- <-. split; [|reflexivity].
  pose proof (u32_range (B * 16)).
  destruct (_ >=? _); [apply u32_range|].
  apply Z.div_pos; [apply u32_range | lia].
Qed.

Lemma detected_is_set (w : World hw) : UsePl011UartSet (detected plat hw w) = true.
Proof. unfold detected. destruct (UsePl011UartSet w) eqn:E; [exact E | reflexivity]. Qed.

(** ** Two calls of SerialPortInitialize in a row *)

Lemma set_dlab_bit l : Z.testbit (u8 (Z.lor l B_UART_LCR_DLAB)) 7 = true.
Proof.
  unfold u8. change 256 with (2 ^ 8).
  rewrite Z.mod_pow2_bits_low by lia.
  rewrite Z.lor_spec. apply orb_true_r.
Qed.

Lemma toggled_line_control l :
  0 <= l < 256 ->
  Z.land (u8 (Z.land (u8 (Z.lor l B_UART_LCR_DLAB)) (Z.lnot B_UART_LCR_DLAB))) 0x3F
  = Z.land l 0x3F.
Proof. revert l. apply byte_ext_Z. vm_compute. reflexivity. Qed.

Lemma toggled_dlab_clear l :
  0 <= l < 256 ->
  Z.testbit (u8 (Z.land (u8 (Z.lor l B_UART_LCR_DLAB)) (Z.lnot B_UART_LCR_DLAB))) 7
  = false.
Proof. revert l. apply byte_ext_bool. vm_compute. reflexivity. Qed.

Lemma configured_line_control c :
  0 <= c < 256 ->
  Z.land (u8 (Z.land c 0x3F)) 0x3F = Z.land c 0x3F /\
  Z.testbit (u8 (Z.land c 0x3F)) 7 = false.
Proof.
  intros Hc. split.
  - revert c Hc. apply byte_ext_Z. vm_compute. reflexivity.
  - revert c Hc. apply byte_ext_bool. vm_compute. reflexivity.
Qed.

Lemma divisor_bytes D :
  0 <= D <= 0xFFFF ->
  Z.lor (u32 (Z.shiftl (u8 (Z.shiftr D 8)) 8)) (u32 (u8 (Z.land D 0xff))) = D.
Proof.
  intros HD.
  assert (Hhi : 0 <= Z.shiftr D 8 < 256).
  { rewrite Z.shiftr_div_pow2 by lia. change (2 ^ 8) with 256.
    split; [apply Z.div_pos; lia | apply Z.div_lt_upper_bound; lia]. }
  assert (Hlo : 0 <= Z.land D 0xff < 256).
  { change 0xff with (Z.ones 8). change 256 with (2 ^ 8).
    apply land_low_bits. lia. }
  rewrite (u8_small (Z.shiftr D 8)) by lia.
  rewrite (u8_small (Z.land D 0xff)) by lia.
  rewrite (u32_small (Z.land D 0xff)) by lia.
  rewrite u32_small
    by (rewrite Z.shiftl_mul_pow2 by lia; change (2 ^ 8) with 256; lia).
  apply Z.bits_inj'. intros n Hn.
  rewrite Z.lor_spec, Z.land_spec.
  destruct (Z.ltb_spec n 8) as [Hlt|Hge].
  - rewrite Z.shiftl_spec_low by lia. simpl.
    change 0xff with (Z.ones 8). rewrite Z.ones_spec_low by lia.
    apply andb_true_r.
  - rewrite Z.shiftl_spec by lia. rewrite Z.shiftr_spec by lia.
    replace (n - 8 + 8) with n by lia.
    change 0xff with (Z.ones 8). rewrite Z.ones_spec_high by lia.
    rewrite andb_false_r. apply orb_false_r.
Qed.

Section Latch.
Variables lcr_of dll_of dlm_of : Dev hw -> Z.
Hypothesis device : holds_line_registers pcd plat hw lcr_of dll_of dlm_of.

Local Abbreviation held3 := (held hw lcr_of dll_of dlm_of).
Local Abbreviation mini := (MINI_UART_REGISTER_BASE plat).

Lemma held_after_read w Base Offset :
  held3 (after_read pcd hw w Base Offset) = held3 w.
Proof.
  unfold held, after_read. cbn [machine with_machine dev log_event with_dev].
  destruct (read8_keeps _ _ _ _ _ _ device (dev (machine w))
              (reg_address pcd Base Offset)) as (A & B & C).
  cbv zeta in A, B, C. rewrite A, B, C. reflexivity.
Qed.

Lemma held_after_read32 w Address :
  held3 (after_read32 hw w Address) = held3 w.
Proof.
  unfold held, after_read32. cbn [machine with_machine dev log_event with_dev].
  destruct (read32_keeps _ _ _ _ _ _ device (dev (machine w)) Address)
    as (A & B & C).
  cbv zeta in A, B, C. rewrite A, B, C. reflexivity.
Qed.

Lemma read_line_control w :
  read_value pcd hw w mini R_UART_LCR = fst (fst (held3 w)).
Proof. apply (lcr_read _ _ _ _ _ _ device). Qed.

Lemma line_control_byte w : 0 <= fst (fst (held3 w)) < 256.
Proof. rewrite <- read_line_control. apply read_value_range. Qed.

Lemma held_write_lcr w v :
  0 <= v < 256 ->
  held3 (after_write pcd hw w mini R_UART_LCR v)
  = (v, snd (fst (held3 w)), snd (held3 w)).
Proof.
  intros Hv. unfold held, after_write.
  cbn [machine with_machine dev log_event with_dev fst snd].
  destruct (lcr_write _ _ _ _ _ _ device (dev (machine w)) v Hv) as (A & B & C).
  cbv zeta in A, B, C. rewrite A, B, C. reflexivity.
Qed.

Lemma held_write_other w o v :
  Z.testbit (fst (fst (held3 w))) 7 = false ->
  o = R_UART_FCR \/ o = R_UART_IER \/ o = R_UART_MCR ->
  held3 (after_write pcd hw w mini o v) = held3 w.
Proof.
  intros Hbit Ho. unfold held, after_write.
  cbn [machine with_machine dev log_event with_dev fst snd].
  destruct (other_writes _ _ _ _ _ _ device (dev (machine w)) o v Hbit Ho)
    as (A & B & C).
  cbv zeta in A, B, C. rewrite A, B, C. reflexivity.
Qed.

Lemma held_check_latched w :
  held3 (check_latched pcd plat hw w)
  = (u8 (Z.lor (fst (fst (held3 w))) B_UART_LCR_DLAB),
     snd (fst (held3 w)), snd (held3 w)).
Proof.
  unfold check_latched. cbv zeta.
  rewrite held_write_lcr by apply u8_range.
  rewrite read_line_control, !held_after_read. reflexivity.
Qed.

Lemma check_lcr_held w : check_lcr pcd plat hw w = fst (fst (held3 w)).
Proof. apply read_line_control. Qed.

Lemma check_divisor_held w :
  check_divisor pcd plat hw w
  = Z.lor (u32 (Z.shiftl (snd (held3 w)) 8)) (u32 (snd (fst (held3 w)))).
Proof.
  unfold check_divisor. cbv zeta.
  assert (Hbit : Z.testbit (lcr_of (dev (machine (check_latched pcd plat hw w)))) 7
                 = true).
  { change (lcr_of (dev (machine (check_latched pcd plat hw w))))
      with (fst (fst (held3 (check_latched pcd plat hw w)))).
    rewrite held_check_latched. apply set_dlab_bit. }
  destruct (latch_read _ _ _ _ _ _ device _ Hbit) as (Hhi & _).
  assert (Hbit' : Z.testbit
                    (lcr_of (dev (machine (after_read pcd hw
                                             (check_latched pcd plat hw w)
                                             (MINI_UART_REGISTER_BASE plat)
                                             R_UART_BAUD_HIGH)))) 7
                  = true).
  { change (lcr_of (dev (machine ?x))) with (fst (fst (held3 x))).
    rewrite held_after_read, held_check_latched. apply set_dlab_bit. }
  destruct (latch_read _ _ _ _ _ _ device _ Hbit') as (_ & Hlo).
  unfold read_value. rewrite Hhi, Hlo.
  change (dlm_of (dev (machine (check_latched pcd plat hw w))))
    with (snd (held3 (check_latched pcd plat hw w))).
  change (dll_of (dev (machine ?x))) with (snd (fst (held3 x))).
  rewrite held_after_read, held_check_latched. reflexivity.
Qed.

Lemma held_check_world w :
  held3 (check_world pcd plat hw w)
  = (u8 (Z.land (u8 (Z.lor (fst (fst (held3 w))) B_UART_LCR_DLAB))
                (Z.lnot B_UART_LCR_DLAB)),
     snd (fst (held3 w)), snd (held3 w)).
Proof.
  unfold check_world. cbv zeta.
  rewrite held_write_lcr by apply u8_range.
  rewrite read_line_control, !held_after_read, held_check_latched. reflexivity.
Qed.

Lemma held_program_port w Divisor :
  held3 (program_port pcd plat hw w Divisor)
  = (u8 (Z.land (PcdGet8 pcd PcdSerialLineControl) 0x3F),
     u8 (Z.land Divisor 0xff), u8 (Z.shiftr Divisor 8)).
Proof.
  unfold program_port. cbv zeta.
  set (w1 := after_write pcd hw w mini R_UART_LCR B_UART_LCR_DLAB).
  assert (H1 : held3 w1 = (B_UART_LCR_DLAB, snd (fst (held3 w)), snd (held3 w))).
  { apply held_write_lcr. unfold B_UART_LCR_DLAB, BIT7. lia. }
  set (w2 := after_write pcd hw w1 mini R_UART_BAUD_HIGH (u8 (Z.shiftr Divisor 8))).
  assert (H2 : held3 w2
               = (B_UART_LCR_DLAB, snd (fst (held3 w)), u8 (Z.shiftr Divisor 8))).
  { unfold held, w2, after_write.
    cbn [machine with_machine dev log_event with_dev fst snd].
    assert (Hbit : Z.testbit (lcr_of (dev (machine w1))) 7 = true).
    { change (lcr_of (dev (machine w1))) with (fst (fst (held3 w1))).
      rewrite H1. reflexivity. }
    destruct (latch_write_high _ _ _ _ _ _ device (dev (machine w1))
                (u8 (Z.shiftr Divisor 8)) (u8_range _) Hbit) as (A & B & C).
    cbv zeta in A, B, C. rewrite A, B, C.
    change (lcr_of (dev (machine w1))) with (fst (fst (held3 w1))).
    change (dll_of (dev (machine w1))) with (snd (fst (held3 w1))).
    rewrite H1. reflexivity. }
  set (w3 := after_write pcd hw w2 mini R_UART_BAUD_LOW (u8 (Z.land Divisor 0xff))).
  assert (H3 : held3 w3
               = (B_UART_LCR_DLAB, u8 (Z.land Divisor 0xff),
                  u8 (Z.shiftr Divisor 8))).
  { unfold held, w3, after_write.
    cbn [machine with_machine dev log_event with_dev fst snd].
    assert (Hbit : Z.testbit (lcr_of (dev (machine w2))) 7 = true).
    { change (lcr_of (dev (machine w2))) with (fst (fst (held3 w2))).
      rewrite H2. reflexivity. }
    destruct (latch_write_low _ _ _ _ _ _ device (dev (machine w2))
                (u8 (Z.land Divisor 0xff)) (u8_range _) Hbit) as (A & B & C).
    cbv zeta in A, B, C. rewrite A, B, C.
    change (lcr_of (dev (machine w2))) with (fst (fst (held3 w2))).
    change (dlm_of (dev (machine w2))) with (snd (held3 w2)).
    rewrite H2. reflexivity. }
  set (l := u8 (Z.land (PcdGet8 pcd PcdSerialLineControl) 0x3F)).
  set (w4 := after_write pcd hw w3 mini R_UART_LCR l).
  assert (H4 : held3 w4 = (l, u8 (Z.land Divisor 0xff), u8 (Z.shiftr Divisor 8))).
  { unfold w4. rewrite held_write_lcr by apply u8_range. rewrite H3. reflexivity. }
  assert (Hclear : Z.testbit l 7 = false).
  { apply configured_line_control. apply u8_range. }
  assert (Hkeep : forall x o v,
             held3 x = held3 w4 ->
             o = R_UART_FCR \/ o = R_UART_IER \/ o = R_UART_MCR ->
             held3 (after_write pcd hw x mini o v) = held3 w4).
  { intros x o v Hx Ho. rewrite held_write_other; [exact Hx | | exact Ho].
    rewrite Hx, H4. exact Hclear. }
  rewrite <- H4. repeat (apply Hkeep; [|tauto]). reflexivity.
Qed.

Lemma held_TransmitterBusy fuel :
  respects (fun w w' : World hw => held3 w' = held3 w)
           (SpinWhile fuel (TransmitterBusy pcd hw mini)).
Proof.
  apply respects_SpinWhile.
  - split; [reflexivity | intros; congruence].
  - intros w b w' H. rewrite TransmitterBusy_run in H.
    injection H as _ <-. apply held_after_read.
Qed.

(** After a call that returned, the "already initialized" test matches. *)
Lemma second_check_matches fuel (w w1 w' : World hw) st Divisor :
  UsePl011Uart (detected plat hw w) = false ->
  SerialPortGetDivisor pcd plat hw (PcdGet32 pcd PcdSerialBaudRate)
                       (detected plat hw w) = Ret (Divisor, w1) ->
  0 <= Divisor <= 0xFFFF ->
  SerialPortInitialize pcd plat hw pl011 fuel w = Ret (st, w') ->
  Z.land (fst (fst (held3 w'))) 0x3F = Z.land (PcdGet8 pcd PcdSerialLineControl) 0x3F /\
  Z.lor (u32 (Z.shiftl (snd (held3 w')) 8)) (u32 (snd (fst (held3 w')))) = Divisor.
Proof.
  intros Hm Hdiv HD H.
  rewrite (Initialize_mini_run fuel w Hm), Hdiv in H.
  destruct (_ && _) eqn:E.
  - injection H as _ <-. apply andb_true_iff in E as [El Ed].
    apply Z.eqb_eq in El, Ed.
    rewrite held_check_world. cbn [fst snd].
    rewrite toggled_line_control by apply line_control_byte.
    rewrite <- check_lcr_held, <- check_divisor_held. split; assumption.
  - rewrite InitializeProgram_run in H.
    destruct (SpinWhile fuel _ _) as [[[] w3]| |] eqn:Hspin; try discriminate.
    injection H as _ <-.
    rewrite held_program_port. cbn [fst snd]. split.
    + apply configured_line_control. apply u8_range.
    + apply divisor_bytes. exact HD.
Qed.

End Latch.

(** C7, amended: on the mini-UART path, if at entry to SerialPortInitialize
    the line-control register masked to bits 0-5 equals the configured byte
    masked likewise and the divisor read under the divisor latch (high byte,
    then low byte) equals the target divisor, Initialize returns
    RETURN_SUCCESS for any fuel (no busy-wait) after exactly seven register
    accesses, whose only writes are the two latch toggles of the line-control
    register: nothing is reprogrammed.  Hence, on a device that holds its
    line-control register and its divisor latch, a second consecutive
    Initialize with the same configuration and the same clock performs no
    hardware reprogramming, provided the target divisor is at most 0xFFFF.
    The divisor read back never exceeds 0xFFFF, so with a larger target
    divisor every call that returns has run the reprogramming sequence. *)
Theorem Initialize_already_initialized
        (fuel : nat) (w w1 : World hw) (Divisor : Z) :
  UsePl011Uart (detected plat hw w) = false ->
  SerialPortGetDivisor pcd plat hw (PcdGet32 pcd PcdSerialBaudRate)
                       (detected plat hw w) = Ret (Divisor, w1) ->
  (Z.land (check_lcr pcd plat hw w1) 0x3F
   = Z.land (PcdGet8 pcd PcdSerialLineControl) 0x3F ->
   check_divisor pcd plat hw w1 = Divisor ->
   exists w' l1 l2 hi lo l3,
     SerialPortInitialize pcd plat hw pl011 fuel w = Ret (RETURN_SUCCESS, w') /\
     trace (machine w')
     = trace (machine w1)
       ++ [RegRead R_UART_LCR l1;
           RegRead R_UART_LCR l2;
           RegWrite R_UART_LCR (u8 (Z.lor l2 B_UART_LCR_DLAB));
           RegRead R_UART_BAUD_HIGH hi;
           RegRead R_UART_BAUD_LOW lo;
           RegRead R_UART_LCR l3;
           RegWrite R_UART_LCR (u8 (Z.land l3 (Z.lnot B_UART_LCR_DLAB)))] /\
     Z.land l1 0x3F = Z.land (PcdGet8 pcd PcdSerialLineControl) 0x3F /\
     Z.lor (u32 (Z.shiftl hi 8)) (u32 lo) = Divisor) /\
  check_divisor pcd plat hw w1 <= 0xFFFF /\
  (0xFFFF < Divisor ->
   forall st w',
     SerialPortInitialize pcd plat hw pl011 fuel w = Ret (st, w') ->
     exists evs,
       Forall is_read evs /\
       trace (machine w')
       = trace (machine (check_world pcd plat hw w1)) ++ evs
         ++ [RegWrite R_UART_LCR B_UART_LCR_DLAB;
             RegWrite R_UART_BAUD_HIGH (u8 (Z.shiftr Divisor 8));
             RegWrite R_UART_BAUD_LOW (u8 (Z.land Divisor 0xff));
             RegWrite R_UART_LCR
                      (u8 (Z.land (PcdGet8 pcd PcdSerialLineControl) 0x3F));
             RegWrite R_UART_FCR 0x00;
             RegWrite R_UART_FCR
                      (u8 (Z.land (PcdGet8 pcd PcdSerialFifoControl)
                                  (Z.lor B_UART_FCR_FIFOE B_UART_FCR_FIFO64)));
             RegWrite R_UART_IER 0x00;
             RegWrite R_UART_MCR 0x00]) /\
  (* two calls in a row *)
  (forall lcr_of dll_of dlm_of,
      holds_line_registers pcd plat hw lcr_of dll_of dlm_of ->
      Divisor <= 0xFFFF ->
      forall st w' w1',
        SerialPortInitialize pcd plat hw pl011 fuel w = Ret (st, w') ->
        SerialPortGetDivisor pcd plat hw (PcdGet32 pcd PcdSerialBaudRate) w'
        = Ret (Divisor, w1') ->
        forall fuel',
        exists w'' l2 l3,
          SerialPortInitialize pcd plat hw pl011 fuel' w' = Ret (RETURN_SUCCESS, w'') /\
          reg_writes (events_since w' w'')
          = [(R_UART_LCR, u8 (Z.lor l2 B_UART_LCR_DLAB));
             (R_UART_LCR, u8 (Z.land l3 (Z.lnot B_UART_LCR_DLAB)))]).
Proof.
  intros Hm Hdiv. pose proof (Initialize_mini_run fuel w Hm) as Hrun.
  rewrite Hdiv in Hrun. split; [|split; [|split]].
  - intros Hl Hd.
    apply Z.eqb_eq in Hl. apply Z.eqb_eq in Hd. rewrite Hl, Hd in Hrun.
    destruct (trace_check_world w1) as (l1 & l2 & hi & lo & l3 & Ht & E1 & E2).
    exists (check_world pcd plat hw w1), l1, l2, hi, lo, l3.
    apply Z.eqb_eq in Hl, Hd.
    repeat split; [exact Hrun | exact Ht | congruence | congruence].
  - apply check_divisor_range.
  - intros Hbig st w' H. rewrite Hrun in H.
    pose proof (check_divisor_range w1) as Hr.
    destruct (Z.eqb_spec (check_divisor pcd plat hw w1) Divisor) as [E|E]; [lia|].
    rewrite andb_false_r in H. rewrite InitializeProgram_run in H.
    destruct (SpinWhile fuel _ _) as [[u w3]| |] eqn:Hspin; try discriminate.
    inversion H; subst. clear H.
    apply (respects_SpinWhile (emits is_read)) in Hspin;
      [|apply emits_preorder | apply reads_TransmitterBusy].
    destruct Hspin as (evs & Hevs & Hall).
    exists evs. split; [exact Hall|].
    rewrite trace_program_port, Hevs, <- app_assoc. reflexivity.
  - intros lcr_of dll_of dlm_of Hdev HD st w' w1' Hrun1 Hdiv2 fuel'.
    destruct (GetDivisor_nonneg _ _ _ _ Hdiv) as [Hpos _].
    destruct (second_check_matches lcr_of dll_of dlm_of Hdev fuel w w1 w' st
                Divisor Hm Hdiv (conj Hpos HD) Hrun1) as [Hl Hd].
    apply flags_Initialize in Hrun1 as [Fu Fs].
    rewrite Hm in Fu. rewrite detected_is_set in Fs.
    assert (Hdet : detected plat hw w' = w')
      by (unfold detected; rewrite Fs; reflexivity).
    assert (Hm' : UsePl011Uart (detected plat hw w') = false)
      by (rewrite Hdet; exact Fu).
    pose proof (Initialize_mini_run fuel' w' Hm') as Hrun2.
    rewrite Hdet, Hdiv2 in Hrun2.
    destruct (GetDivisor_nonneg _ _ _ _ Hdiv2) as [_ Hw1'].
    assert (Hheld : held hw lcr_of dll_of dlm_of w1'
                    = held hw lcr_of dll_of dlm_of w')
      by (rewrite Hw1'; apply held_after_read32; exact Hdev).
    rewrite (check_lcr_held lcr_of dll_of dlm_of Hdev),
      (check_divisor_held lcr_of dll_of dlm_of Hdev), Hheld, Hl, Hd,
      !Z.eqb_refl in Hrun2.
    cbn [andb] in Hrun2.
    destruct (trace_check_world w1') as (l1 & l2 & hi & lo & l3 & Ht & _).
    exists (check_world pcd plat hw w1'), l2, l3. split; [exact Hrun2|].
    erewrite events_since_app
      by (rewrite Ht, Hw1', trace_after_read32, <- app_assoc; reflexivity).
    reflexivity.
Qed.

(** ** Values written to the line-control register *)

Lemma emits_detected (P : Event -> Prop) (w : World hw) :
  (forall a v, P (Mmio32Read a v)) -> emits P w (detected plat hw w).
Proof.
  intros HP. eexists. split; [apply trace_detected|].
  destruct (UsePl011UartSet w); auto.
Qed.

Lemma lcr_Write fuel Buffer NumberOfBytes w r w' :
  UsePl011Uart (detected plat hw w) = false ->
  SerialPortWrite pcd plat hw pl011 fuel Buffer NumberOfBytes w = Ret (r, w') ->
  emits not_lcr_write w w'.
Proof.
  intros Hm H. unfold SerialPortWrite in H.
  apply bind_Ret in H as ([] & w0 & H0 & H).
  rewrite DetectPl011Uart_run in H0. inversion H0; subst. clear H0.
  unfold bind at 1 in H. unfold get_UsePl011Uart in H. rewrite Hm in H.
  eapply emits_preorder; [apply emits_detected; intros; exact I|].
  match type of H with
  | ?m _ = _ => assert (R : respects (emits not_lcr_write) m)
  end.
  { unfold WriteLoop, WriteLoopTest, WriteLoopBody, WriteFillFifo,
      WriteFillFifoTest, WriteFillFifoBody, TransmitterBusy, NotWritable,
      SerialPortWritable, PcdGetBool.
    repeat respects_step. }
  exact (R _ _ _ H).
Qed.

Lemma lcr_mini_dispatch {A} (m1 m2 : M A) (w : World hw) r w' :
  UsePl011Uart w = false ->
  respects (emits not_lcr_write) m2 ->
  bind (get_UsePl011Uart hw) (fun use => if use then m1 else m2) w = Ret (r, w') ->
  emits not_lcr_write w w'.
Proof.
  intros Hm R H. unfold bind at 1 in H. unfold get_UsePl011Uart in H.
  rewrite Hm in H. exact (R _ _ _ H).
Qed.

Lemma lcr_Read fuel Buffer NumberOfBytes w r w' :
  UsePl011Uart w = false ->
  SerialPortRead pcd plat hw pl011 fuel Buffer NumberOfBytes w = Ret (r, w') ->
  emits not_lcr_write w w'.
Proof.
  intros Hm. unfold SerialPortRead. apply lcr_mini_dispatch; [exact Hm|].
  unfold ReadLoop, PcdGetBool. repeat respects_step.
Qed.

Lemma lcr_Poll w r w' :
  UsePl011Uart w = false ->
  SerialPortPoll pcd plat hw pl011 w = Ret (r, w') ->
  emits not_lcr_write w w'.
Proof.
  intros Hm. unfold SerialPortPoll. apply lcr_mini_dispatch; [exact Hm|].
  unfold PcdGetBool. repeat respects_step.
Qed.

Lemma lcr_GetControl w r w' :
  UsePl011Uart w = false ->
  SerialPortGetControl pcd plat hw pl011 w = Ret (r, w') ->
  emits not_lcr_write w w'.
Proof.
  intros Hm. unfold SerialPortGetControl. apply lcr_mini_dispatch; [exact Hm|].
  repeat respects_step.
Qed.

Lemma lcr_SetControl Control w r w' :
  UsePl011Uart w = false ->
  SerialPortSetControl pcd plat hw pl011 Control w = Ret (r, w') ->
  emits not_lcr_write w w'.
Proof.
  intros Hm. unfold SerialPortSetControl. apply lcr_mini_dispatch; [exact Hm|].
  repeat respects_step.
Qed.

Lemma masked_line_control z : Z.land (u8 (Z.land z 0x3F)) 0xC0 = 0.
Proof.
  assert (H : 0 <= Z.land z 0x3F < 64).
  { change 0x3F with (Z.ones 6). change 64 with (2 ^ 6).
    apply land_low_bits. lia. }
  rewrite u8_small by lia.
  rewrite <- Z.land_assoc. change (Z.land 63 192) with 0. apply Z.land_0_r.
Qed.

Lemma GetDivisor_trace B (w : World hw) Divisor w1 :
  SerialPortGetDivisor pcd plat hw B w = Ret (Divisor, w1) ->
  exists a v, trace (machine w1) = trace (machine w) ++ [Mmio32Read a v].
Proof.
  pose proof (GetDivisor_run B w) as H. cbv zeta in H. rewrite H. clear H.
  destruct (u32 (B * 16) =? 0); [discriminate|].
  intros H. inversion H; subst. do 2 eexists. apply trace_after_read32.
Qed.

Lemma lcr_detected (w : World hw) :
  exists evs, trace (machine (detected plat hw w)) = trace (machine w) ++ evs /\
              lcr_writes evs = [].
Proof.
  eexists. split; [apply trace_detected|].
  destruct (UsePl011UartSet w); reflexivity.
Qed.

(** C8, amended: on the mini-UART path the line-control register is written
    by SerialPortInitialize and SerialPortSetAttributes only.  The value that
    sets the line discipline (the last line-control write of a reprogramming
    Initialize and of a successful SetAttributes) has bits 6 and 7 clear.
    The other line-control writes are divisor-latch accesses and carry bit 7:
    the test of Initialize writes the value it read with bit 7 set, then the
    value it read with bit 7 cleared; each reprogramming sequence starts by
    writing 0x80. *)
Theorem line_control_register_writes (fuel : nat) (w : World hw) :
  (UsePl011Uart (detected plat hw w) = false ->
   forall st w',
     SerialPortInitialize pcd plat hw pl011 fuel w = Ret (st, w') ->
     exists l2 l3 : Z,
       let toggles := [u8 (Z.lor l2 B_UART_LCR_DLAB);
                       u8 (Z.land l3 (Z.lnot B_UART_LCR_DLAB))] in
       let line := u8 (Z.land (PcdGet8 pcd PcdSerialLineControl) 0x3F) in
       (lcr_writes (events_since w w') = toggles \/
        lcr_writes (events_since w w') = toggles ++ [B_UART_LCR_DLAB; line]) /\
       Z.land line 0xC0 = 0) /\
  (UsePl011Uart w = false ->
   forall a st a' w',
     SerialPortSetAttributes pcd plat hw pl011 a w = Ret ((st, a'), w') ->
     (st = RETURN_INVALID_PARAMETER /\ lcr_writes (events_since w w') = []) \/
     (st = RETURN_SUCCESS /\
      exists line,
        lcr_writes (events_since w w') = [B_UART_LCR_DLAB; line] /\
        Z.land line 0xC0 = 0)) /\
  (UsePl011Uart (detected plat hw w) = false ->
   forall Buffer NumberOfBytes r w',
     SerialPortWrite pcd plat hw pl011 fuel Buffer NumberOfBytes w = Ret (r, w') ->
     lcr_writes (events_since w w') = []) /\
  (UsePl011Uart w = false ->
   (forall Buffer NumberOfBytes r w',
       SerialPortRead pcd plat hw pl011 fuel Buffer NumberOfBytes w = Ret (r, w') ->
       lcr_writes (events_since w w') = []) /\
   (forall r w',
       SerialPortPoll pcd plat hw pl011 w = Ret (r, w') ->
       lcr_writes (events_since w w') = []) /\
   (forall r w',
       SerialPortGetControl pcd plat hw pl011 w = Ret (r, w') ->
       lcr_writes (events_since w w') = []) /\
   (forall Control r w',
       SerialPortSetControl pcd plat hw pl011 Control w = Ret (r, w') ->
       lcr_writes (events_since w w') = [])).
Proof.
  split; [|split; [|split]].
  - intros Hm st w' H. rewrite (Initialize_mini_run fuel w Hm) in H.
    destruct (SerialPortGetDivisor pcd plat hw _ _) as [[Divisor w1]| |] eqn:Hdiv;
      try discriminate.
    destruct (lcr_detected w) as (e0 & T0 & L0).
    destruct (GetDivisor_trace _ _ _ _ Hdiv) as (ad & vd & T1).
    destruct (trace_check_world w1) as (l1 & l2 & hi & lo & l3 & T2 & _ & _).
    exists l2, l3. cbv zeta. split; [|apply masked_line_control].
    destruct (_ && _).
    + left. inversion H; subst. clear H.
      erewrite events_since_app
        by (rewrite T2, T1, T0; repeat rewrite <- app_assoc; reflexivity).
      rewrite !lcr_writes_app, L0. reflexivity.
    + right. rewrite InitializeProgram_run in H.
      destruct (SpinWhile fuel _ _) as [[u w3]| |] eqn:Hspin; try discriminate.
      inversion H; subst. clear H.
      apply (respects_SpinWhile (emits is_read)) in Hspin;
        [|apply emits_preorder | apply reads_TransmitterBusy].
      destruct Hspin as (evs & T3 & Hall).
      erewrite events_since_app
        by (rewrite trace_program_port, T3, T2, T1, T0;
            repeat rewrite <- app_assoc; reflexivity).
      rewrite !lcr_writes_app, L0.
      rewrite (lcr_writes_none evs (is_read_not_lcr_write evs Hall)).
      reflexivity.
  - intros Hm a st a' w' H. rewrite (SetAttributes_mini_run a w Hm) in H.
    cbv zeta in H.
    assert (Hnil : lcr_writes (events_since w w) = []).
    { erewrite events_since_app by (rewrite app_nil_r; reflexivity).
      reflexivity. }
    destruct (ResolveDataBits pcd _) as [[LcrData a1]|];
      [|inversion H; subst; left; split; [reflexivity | exact Hnil]].
    destruct (ResolveParity pcd a1) as [[LcrParity a2]|];
      [|inversion H; subst; left; split; [reflexivity | exact Hnil]].
    destruct (ResolveStopBits pcd a2) as [[LcrStop a3]|];
      [|inversion H; subst; left; split; [reflexivity | exact Hnil]].
    destruct (SerialPortGetDivisor pcd plat hw _ w) as [[Divisor w1]| |] eqn:Hdiv;
      try discriminate.
    inversion H; subst. clear H. right. split; [reflexivity|].
    destruct (GetDivisor_trace _ _ _ _ Hdiv) as (ad & vd & T1).
    eexists. split; [|apply masked_line_control].
    erewrite events_since_app
      by (rewrite trace_program_line, T1; repeat rewrite <- app_assoc;
          reflexivity).
    reflexivity.
  - intros Hm Buffer NumberOfBytes r w' H.
    apply lcr_writes_none, emits_events_since.
    eapply lcr_Write; eassumption.
  - intros Hm. repeat split; intros.
    + apply lcr_writes_none, emits_events_since. eapply lcr_Read; eassumption.
    + apply lcr_writes_none, emits_events_since. eapply lcr_Poll; eassumption.
    + apply lcr_writes_none, emits_events_since.
      eapply lcr_GetControl; eassumption.
    + apply lcr_writes_none, emits_events_since.
      eapply lcr_SetControl; eassumption.
Qed.

(** ** Write on the mini UART *)

Lemma quiet_preorder : preorder (@quiet hw).
Proof. apply preorder_and; auto with runs. Qed.

Lemma quiet_TransmitterBusy Base : respects quiet (TransmitterBusy pcd hw Base).
Proof.
  apply respects_and; [apply reads_TransmitterBusy|].
  unfold TransmitterBusy. repeat respects_step.
Qed.

Lemma quiet_NotWritable Base : respects quiet (NotWritable pcd hw Base).
Proof.
  apply respects_and; [apply reads_NotWritable|].
  unfold NotWritable, SerialPortWritable, PcdGetBool. repeat respects_step.
Qed.

Lemma sent_quiet w0 Buffer0 n N B w w' :
  sent hw w0 Buffer0 n N B w -> quiet w w' -> sent hw w0 Buffer0 n N B w'.
Proof.
  intros (i & HN & H0 & HB & Hram & evs & Ht & Hw) [(evs' & Ht' & Hr) Hram'].
  exists i. repeat split; try assumption.
  - unfold same_ram in Hram'. congruence.
  - exists (evs ++ evs'). split.
    + rewrite Ht', Ht, app_assoc. reflexivity.
    + rewrite reg_writes_app, (reg_writes_reads evs' Hr), app_nil_r. exact Hw.
Qed.

Lemma buffer_bytes_S mem Buffer i :
  buffer_bytes mem Buffer (S i)
  = buffer_bytes mem Buffer i ++ [u8 (mem (Buffer + Z.of_nat i))].
Proof. unfold buffer_bytes. rewrite seq_S, map_app. reflexivity. Qed.

Lemma sent_FillFifo fuel w0 Buffer0 n FifoSize :
  n < 2 ^ 64 ->
  forall s w s' w',
    sent hw w0 Buffer0 n (snd (fst s)) (snd s) w ->
    WriteFillFifo pcd hw fuel (MINI_UART_REGISTER_BASE plat) FifoSize s w
    = Ret (s', w') ->
    sent hw w0 Buffer0 n (snd (fst s')) (snd s') w'.
Proof.
  intros Hn s w s' w' HI H. unfold WriteFillFifo in H.
  eapply (While_invariant
            (fun s w => sent hw w0 Buffer0 n (snd (fst s)) (snd s) w)) in H;
    [exact (proj1 H) | | | exact HI].
  - intros [[Index N] B] w1 b w2 HI1 Hc. unfold WriteFillFifoTest, ret in Hc.
    inversion Hc; subst. exact HI1.
  - intros [[Index N] B] w1 w2 [[Index' N'] B'] w3 HI1 Hc Hb. simpl in *.
    unfold WriteFillFifoTest, ret in Hc. inversion Hc; subst. clear Hc.
    apply andb_true_iff in H1 as [_ HN]. apply negb_true_iff, Z.eqb_neq in HN.
    unfold WriteFillFifoBody in Hb.
    apply bind_Ret in Hb as ([] & w4 & Hspin & Hb).
    apply (respects_SpinWhile quiet) in Hspin;
      [|apply quiet_preorder | apply quiet_NotWritable].
    apply (sent_quiet _ _ _ _ _ _ _ HI1) in Hspin.
    apply bind_Ret in Hb as (b & w5 & Hload & Hb).
    unfold load8 in Hload. inversion Hload; subst. clear Hload.
    apply bind_Ret in Hb as (v & w6 & Hwr & Hb).
    rewrite SerialPortWriteRegister_run in Hwr. inversion Hwr; subst. clear Hwr.
    unfold ret in Hb. inversion Hb; subst. clear Hb.
    destruct Hspin as (i & HN' & H0 & HB & Hram & evs & Ht & Hw).
    exists (S i). rewrite Nat2Z.inj_succ.
    assert (E : u64 (N - 1) = N - 1) by (apply u64_small; lia).
    rewrite E. repeat split; try lia.
    + exact Hram.
    + exists (evs ++ [RegWrite R_UART_TXBUF (u8 (ram (machine w5) B))]). split.
      * rewrite trace_after_write, Ht, app_assoc. reflexivity.
      * rewrite reg_writes_app, Hw, buffer_bytes_S. unfold tx_writes.
        rewrite map_app. simpl. rewrite Hram, HB. reflexivity.
Qed.

Lemma sent_WriteLoop fuel w0 Buffer0 n FifoSize :
  n < 2 ^ 64 ->
  forall s w s' w',
    sent hw w0 Buffer0 n (fst s) (snd s) w ->
    WriteLoop pcd hw fuel (MINI_UART_REGISTER_BASE plat) FifoSize s w
    = Ret (s', w') ->
    sent hw w0 Buffer0 n 0 (snd s') w'.
Proof.
  intros Hn s w s' w' HI H. unfold WriteLoop in H.
  eapply (While_invariant
            (fun s w => sent hw w0 Buffer0 n (fst s) (snd s) w)) in H;
    [| | | exact HI].
  - destruct H as (HI' & w1 & _ & Hc). destruct s' as [N' B'].
    unfold WriteLoopTest, ret in Hc. inversion Hc; subst.
    apply negb_false_iff, Z.eqb_eq in H0. simpl in HI'. subst N'. exact HI'.
  - intros [N B] w1 b w2 HI1 Hc. unfold WriteLoopTest, ret in Hc.
    inversion Hc; subst. exact HI1.
  - intros [N B] w1 w2 [N' B'] w3 HI1 Hc Hb. simpl in *.
    unfold WriteLoopTest, ret in Hc. inversion Hc; subst. clear Hc.
    unfold WriteLoopBody in Hb.
    apply bind_Ret in Hb as ([] & w4 & Hspin & Hb).
    apply (respects_SpinWhile quiet) in Hspin;
      [|apply quiet_preorder | apply quiet_TransmitterBusy].
    apply (sent_quiet _ _ _ _ _ _ _ HI1) in Hspin.
    apply bind_Ret in Hb as ([[Index N1] B1] & w5 & Hfill & Hb).
    eapply (sent_FillFifo fuel w0 Buffer0 n FifoSize Hn (0, N, B)) in Hfill;
      [|exact Hspin].
    unfold ret in Hb. inversion Hb; subst. exact Hfill.
Qed.

Lemma While_S {S} fuel (cond : S -> M (hw := hw) bool) (body : S -> M S) s :
  While (Datatypes.S fuel) cond body s
  = bind (cond s) (fun b =>
      if b then bind (body s) (fun s' => While fuel cond body s') else ret s).
Proof. reflexivity. Qed.

Lemma FillFifo_terminates K F FifoSize :
  ready_within pcd plat hw K -> (K <= F)%nat ->
  forall (m : nat) Index N B w (f : nat),
    0 <= N <= Z.of_nat m -> N < 2 ^ 64 -> (m < f)%nat ->
    exists Index' N' B' w',
      While f (WriteFillFifoTest hw FifoSize)
            (WriteFillFifoBody pcd hw F (MINI_UART_REGISTER_BASE plat))
            (Index, N, B) w
      = Ret ((Index', N', B'), w') /\
      0 <= N' <= N /\
      (Index < FifoSize -> N <> 0 -> N' < N).
Proof.
  intros Hready HK. induction m as [|m IH]; intros Index N B w f HN H64 Hf;
    (destruct f as [|f]; [lia|]); rewrite While_S;
    unfold WriteFillFifoTest at 1; unfold bind at 1; unfold ret at 1;
    destruct ((Index <? FifoSize) && negb (N =? 0)) eqn:Hb.
  - apply andb_true_iff in Hb as [_ Hb].
    apply negb_true_iff, Z.eqb_neq in Hb. lia.
  - exists Index, N, B, w. split; [reflexivity|]. split; [lia|].
    intros Hi Hz. apply andb_false_iff in Hb as [Hb|Hb].
    + apply Z.ltb_ge in Hb. lia.
    + apply negb_false_iff, Z.eqb_eq in Hb. contradiction.
  - apply andb_true_iff in Hb as [_ Hb].
    apply negb_true_iff, Z.eqb_neq in Hb.
    destruct (Hready w) as [_ (w1 & Hspin)].
    apply (SpinWhile_fuel_mono _ _ _ _ Hspin F) in HK.
    unfold WriteFillFifoBody at 1.
    erewrite bind_run by (erewrite bind_run by exact HK; reflexivity).
    rewrite (u64_small (N - 1)) by lia.
    destruct (IH (u64 (Index + 1)) (N - 1) (B + 1)
                 (after_write pcd hw w1 (MINI_UART_REGISTER_BASE plat)
                              R_UART_TXBUF (u8 (ram (machine w1) B)))
                 f) as (Index' & N' & B' & w' & Hrun & Hr & _); try lia.
    exists Index', N', B', w'. split; [exact Hrun|]. split; [lia|]. lia.
  - exists Index, N, B, w. split; [reflexivity|]. split; [lia|].
    intros Hi Hz. apply andb_false_iff in Hb as [Hb|Hb].
    + apply Z.ltb_ge in Hb. lia.
    + apply negb_false_iff, Z.eqb_eq in Hb. contradiction.
Qed.

Lemma WriteLoop_terminates K F FifoSize :
  ready_within pcd plat hw K -> (K <= F)%nat -> 0 < FifoSize ->
  forall (m : nat) N B w (f : nat),
    0 <= N <= Z.of_nat m -> N < 2 ^ 64 -> (m < f)%nat -> (m < F)%nat ->
    exists s' w',
      While f (WriteLoopTest hw)
            (WriteLoopBody pcd hw F (MINI_UART_REGISTER_BASE plat) FifoSize)
            (N, B) w
      = Ret (s', w').
Proof.
  intros Hready HK Hfifo. induction m as [|m IH]; intros N B w f HN H64 Hf HF;
    (destruct f as [|f]; [lia|]); rewrite While_S;
    unfold WriteLoopTest at 1; unfold bind at 1; unfold ret at 1;
    destruct (negb (N =? 0)) eqn:Hb.
  - apply negb_true_iff, Z.eqb_neq in Hb. lia.
  - eexists. eexists. reflexivity.
  - apply negb_true_iff, Z.eqb_neq in Hb.
    destruct (Hready w) as [(w1 & Hspin) _].
    pose proof HK as HK'.
    apply (SpinWhile_fuel_mono _ _ _ _ Hspin F) in HK.
    destruct (FillFifo_terminates K F FifoSize Hready HK' (S m) 0 N B w1 F)
      as (Index' & N' & B' & w2 & Hfill & Hr & Hlt); try lia.
    unfold WriteLoopBody at 1.
    erewrite bind_run
      by (erewrite bind_run by exact HK;
          unfold WriteFillFifo; erewrite bind_run by exact Hfill; reflexivity).
    apply IH; lia.
  - eexists. eexists. reflexivity.
Qed.

Lemma NotWritable_run Base (w : World hw) :
  PcdGetBool pcd PcdSerialUseHardwareFlowControl = true ->
  NotWritable pcd hw Base w
  = Ret (negb (clear_to_send (PcdGetBool pcd PcdSerialDetectCable)
                             (read_value pcd hw w Base R_UART_MSR)),
         after_read pcd hw w Base R_UART_MSR).
Proof.
  intros Hflow. unfold NotWritable, SerialPortWritable, clear_to_send.
  rewrite Hflow.
  destruct (PcdGetBool pcd PcdSerialDetectCable);
    erewrite bind_run
      by (erewrite bind_run by apply SerialPortReadRegister_run; reflexivity);
    reflexivity.
Qed.

Lemma NotWritable_free Base (w : World hw) :
  PcdGetBool pcd PcdSerialUseHardwareFlowControl = false ->
  NotWritable pcd hw Base w = Ret (false, w).
Proof.
  intros Hflow. unfold NotWritable, SerialPortWritable. rewrite Hflow.
  reflexivity.
Qed.

(** The two waits of the flush (lines 350 and 355), event by event. *)
Lemma flush_transmitter fuel Base :
  forall w w1 : World hw,
    SpinWhile fuel (TransmitterBusy pcd hw Base) w = Ret (tt, w1) ->
    exists busy v,
      trace (machine w1)
      = trace (machine w) ++ map (RegRead R_UART_LSR) busy ++ [RegRead R_UART_LSR v] /\
      Forall (fun x => transmitter_empty x = false) busy /\
      transmitter_empty v = true.
Proof.
  induction fuel as [|fuel IH]; intros w w1 H; [discriminate|].
  unfold SpinWhile in H. rewrite While_S in H.
  erewrite bind_run in H by apply TransmitterBusy_run.
  fold (transmitter_empty (read_value pcd hw w Base R_UART_LSR)) in H.
  set (lsr := read_value pcd hw w Base R_UART_LSR) in *.
  destruct (transmitter_empty lsr) eqn:E; cbn [negb] in H.
  - unfold ret in H. injection H as <-.
    exists [], lsr. split; [apply trace_after_read|]. split; [constructor | exact E].
  - erewrite bind_run in H by reflexivity.
    apply IH in H as (busy & v & T & Hbusy & Hv).
    exists (lsr :: busy), v. split; [|split; [constructor; assumption | exact Hv]].
    rewrite T, trace_after_read, <- app_assoc. reflexivity.
Qed.

Lemma flush_writable fuel Base :
  forall w w1 : World hw,
    SpinWhile fuel (NotWritable pcd hw Base) w = Ret (tt, w1) ->
    exists waits,
      trace (machine w1) = trace (machine w) ++ waits /\
      if PcdGetBool pcd PcdSerialUseHardwareFlowControl
      then exists blocked m,
             waits = map (RegRead R_UART_MSR) blocked ++ [RegRead R_UART_MSR m] /\
             Forall (fun x => clear_to_send (PcdGetBool pcd PcdSerialDetectCable) x
                              = false) blocked /\
             clear_to_send (PcdGetBool pcd PcdSerialDetectCable) m = true
      else waits = [].
Proof.
  destruct (PcdGetBool pcd PcdSerialUseHardwareFlowControl) eqn:Hflow.
  - induction fuel as [|fuel IH]; intros w w1 H; [discriminate|].
    unfold SpinWhile in H. rewrite While_S in H.
    erewrite bind_run in H by (apply NotWritable_run; exact Hflow).
    set (msr := read_value pcd hw w Base R_UART_MSR) in *.
    destruct (clear_to_send _ msr) eqn:E; cbn [negb] in H.
    + unfold ret in H. injection H as <-.
      exists [RegRead R_UART_MSR msr]. split; [apply trace_after_read|].
      exists [], msr. split; [reflexivity|]. split; [constructor | exact E].
    + erewrite bind_run in H by reflexivity.
      apply IH in H as (waits & T & blocked & m & -> & Hblocked & Hm).
      exists (RegRead R_UART_MSR msr
              :: map (RegRead R_UART_MSR) blocked ++ [RegRead R_UART_MSR m]).
      split; [rewrite T, trace_after_read, <- app_assoc; reflexivity|].
      exists (msr :: blocked), m.
      split; [reflexivity|]. split; [constructor; assumption | exact Hm].
  - intros w w1 H. destruct fuel as [|fuel]; [discriminate|].
    unfold SpinWhile in H. rewrite While_S in H.
    erewrite bind_run in H by (apply NotWritable_free; exact Hflow).
    unfold ret in H. injection H as <-.
    exists []. rewrite app_nil_r. split; reflexivity.
Qed.

Lemma Write_mini_run fuel Buffer NumberOfBytes (w : World hw) :
  UsePl011Uart (detected plat hw w) = false ->
  Buffer <> NULL ->
  SerialPortWrite pcd plat hw pl011 fuel Buffer NumberOfBytes w
  = (if NumberOfBytes =? 0 then
       bind (SpinWhile fuel (TransmitterBusy pcd hw (MINI_UART_REGISTER_BASE plat)))
            (fun _ =>
       bind (SpinWhile fuel (NotWritable pcd hw (MINI_UART_REGISTER_BASE plat)))
            (fun _ => ret 0))
     else
       bind (WriteLoop pcd hw fuel (MINI_UART_REGISTER_BASE plat) (TxFifoSize pcd)
                       (NumberOfBytes, Buffer))
            (fun _ => ret NumberOfBytes))
      (detected plat hw w).
Proof.
  intros Hm Hb. unfold SerialPortWrite.
  erewrite bind_run by apply DetectPl011Uart_run.
  unfold bind at 1. unfold get_UsePl011Uart. rewrite Hm.
  apply Z.eqb_neq in Hb. rewrite Hb.
  destruct (NumberOfBytes =? 0); reflexivity.
Qed.


(** With an effective FIFO depth of 0 the fill loop sends nothing, and the
    outer loop of SerialPortWrite never ends. *)
Lemma Write_zero_fifo_never_returns fuel Buffer NumberOfBytes (w : World hw) :
  UsePl011Uart (detected plat hw w) = false ->
  Buffer <> NULL ->
  NumberOfBytes <> 0 ->
  TxFifoSize pcd <= 0 ->
  forall r w',
    SerialPortWrite pcd plat hw pl011 fuel Buffer NumberOfBytes w <> Ret (r, w').
Proof.
  intros Hm Hb Hn Hfifo r w' H. rewrite (Write_mini_run fuel _ _ w Hm Hb) in H.
  apply Z.eqb_neq in Hn as Hn'. rewrite Hn' in H.
  apply bind_Ret in H as ([N' B'] & w1 & H1 & _).
  unfold WriteLoop in H1.
  eapply (While_invariant (fun s _ => fst s = NumberOfBytes)) in H1;
    [| | |reflexivity].
  - destruct H1 as (HI & w0 & _ & Hc). simpl in HI. subst N'.
    unfold WriteLoopTest, ret in Hc. inversion Hc. rewrite Hn' in H0.
    discriminate.
  - intros s w2 b w3 HI _. exact HI.
  - intros [N B] w2 w3 [N1 B1] w4 HI _ Hbody. simpl in *. subst N.
    unfold WriteLoopBody in Hbody.
    apply bind_Ret in Hbody as ([] & w5 & _ & Hbody).
    apply bind_Ret in Hbody as ([[Index N2] B2] & w6 & Hfill & Hret).
    unfold ret in Hret. inversion Hret; subst. clear Hret.
    unfold WriteFillFifo in Hfill.
    eapply (While_invariant
              (fun s _ => fst (fst s) = 0 /\ snd (fst s) = NumberOfBytes))
      in Hfill; [| | |split; reflexivity].
    + exact (proj2 (proj1 Hfill)).
    + intros s w7 b w8 HI _. exact HI.
    + intros [[Index0 N0] B0] w7 w8 s' w9 [HI0 _] Hc _. simpl in HI0. subst.
      unfold WriteFillFifoTest, ret in Hc. inversion Hc.
      apply andb_true_iff in H0 as [H0 _]. apply Z.ltb_lt in H0. lia.
Qed.

End Properties.


(** * The claims on the concrete board *)

Lemma Sim_ready_within : ready_within Sim.config Sim.board Sim.hardware 1.
Proof. intros w. split; eexists; reflexivity. Qed.

Lemma Sim_fifo0_ready_within :
  ready_within Board.config_fifo0 Sim.board Sim.hardware 1.
Proof. intros w. split; eexists; reflexivity. Qed.

(** C1, instance: on a board wired for the PL011, where [UsePl011Uart] is
    still false, Initialize from the unprobed state sets both globals, and
    the first Write is the call of the PL011 library in the world after the
    detection read: no register of the 16550 is written. *)
Lemma detection_at_first_use_witness :
  UsePl011UartSet Sim.pl011_board = false /\
  UsePl011Uart Sim.pl011_board = false /\
  UsePl011UartSet (final_world Sim.pl011_board
                     (Board.Initialize Sim.config 1 Sim.pl011_board)) = true /\
  UsePl011Uart (final_world Sim.pl011_board
                  (Board.Initialize Sim.config 1 Sim.pl011_board)) = true /\
  SerialPortWrite Sim.config Sim.board Sim.hardware Sim.pl011 1 0x1000 3
                  Sim.pl011_board
  = lift (PL011UartWrite Sim.pl011 (PL011_UART_REGISTER_BASE Sim.board) 0x1000 3)
         (detected Sim.board Sim.hardware Sim.pl011_board) /\
  trace (machine (final_world Sim.pl011_board
                    (Board.Write Sim.config 1 0x1000 3 Sim.pl011_board)))
  = [Mmio32Read (GPIO_BASE_ADDRESS Sim.board + 4) Sim.gpio_pl011].
Proof.
  split; [reflexivity|]. split; [reflexivity|].
  pose proof (detection_at_first_use Sim.config Sim.board Sim.hardware
                Sim.pl011 1 Sim.pl011_board eq_refl)
    as (Hinit & _ & _ & _ & _ & _ & _ & _ & _ & Hpl011 & _).
  split; [exact (proj1 (Hinit RETURN_SUCCESS _ eq_refl))|].
  split; [exact (proj2 (Hinit RETURN_SUCCESS _ eq_refl))|].
  split; [exact (proj2 (Hpl011 eq_refl) 0x1000 3)|].
  reflexivity.
Defined.

(** C1, counterexample: on the same board, SerialPortPoll from the unprobed
    state does not probe: it leaves [UsePl011UartSet] false and polls the mini
    UART, although the GPIO register selects the PL011. *)
Lemma Poll_does_not_probe :
  UsePl011UartSet Sim.pl011_board = false /\
  Z.land (read32_value Sim.hardware Sim.pl011_board
                       (GPIO_BASE_ADDRESS Sim.board + 4)) 0x0003F000
  = 0x00024000 /\
  returned (Board.Poll Sim.config Sim.pl011_board) = Some false /\
  UsePl011UartSet (final_world Sim.pl011_board
                     (Board.Poll Sim.config Sim.pl011_board)) = false /\
  UsePl011Uart (final_world Sim.pl011_board
                  (Board.Poll Sim.config Sim.pl011_board)) = false /\
  trace (machine (final_world Sim.pl011_board
                    (Board.Poll Sim.config Sim.pl011_board)))
  = [RegRead R_UART_LSR 0x60].
Proof. repeat split. Qed.



(** C3, instance: 115200 baud on a 2 GHz UART clock gives 1085. *)
Lemma GetDivisor_round_to_nearest_witness :
  0 < 115200 < 2 ^ 28 /\
  Board.GetDivisor Sim.config 115200 Sim.mini
  = Ret (nearest_divisor 2000000000 115200,
         after_read32 Sim.hardware Sim.mini
                      (BCM2836_CM_BASE Sim.board
                       + BCM2836_CM_VPU_CLOCK_DIVISOR Sim.board)) /\
  nearest_divisor 2000000000 115200 = 1085.
Proof.
  split; [lia|]. split; [|reflexivity].
  exact (GetDivisor_round_to_nearest Sim.config Sim.board Sim.hardware
           115200 Sim.mini (conj eq_refl eq_refl) eq_refl).
Defined.

(** C3, counterexample: with an 8 GHz UART clock the low 32 bits of the clock
    are divided (2010 instead of 4340); with the baud rate 2^28 + 1 the
    product by 16 wraps to 16 (125000000 instead of 0). *)
Lemma GetDivisor_wraps_at_32_bits :
  returned (Board.GetDivisor Sim.config 115200 Board.mini_fast) = Some 2010 /\
  nearest_divisor (Z.shiftl (500000000 * 4) 12 / 0x400) 115200 = 4340 /\
  returned (Board.GetDivisor Sim.config (2 ^ 28 + 1) Sim.mini) = Some 125000000 /\
  nearest_divisor (500000000 * 4) (2 ^ 28 + 1) = 0.
Proof. repeat split. Qed.

(** C4, instance: a control mask with bit 31 and a data-bits value of 9 are
    refused in the world of the call. *)
Lemma failure_leaves_device_untouched_witness :
  UsePl011Uart Sim.mini = false /\
  SerialPortSetControl Sim.config Sim.board Sim.hardware Sim.pl011 0x80000000
                       Sim.mini
  = Ret (RETURN_UNSUPPORTED, Sim.mini) /\
  exists a',
    Board.SetAttributes Sim.config (Board.attributes 115200 NoParity 9 OneStopBit)
                        Sim.mini
    = Ret ((RETURN_INVALID_PARAMETER, a'), Sim.mini).
Proof.
  split; [reflexivity|].
  pose proof (failure_leaves_device_untouched Sim.config Sim.board Sim.hardware
                Sim.pl011 Sim.mini eq_refl) as (_ & _ & Ha & Hc).
  split.
  - apply Hc. discriminate.
  - apply Ha. left. simpl. lia.
Defined.

(** C9, instance. *)
Lemma null_buffer_returns_zero_witness :
  UsePl011Uart (detected Sim.board Sim.hardware Sim.mini) = false /\
  Board.Write Sim.config 0 NULL 7 Sim.mini
  = Ret (0, detected Sim.board Sim.hardware Sim.mini) /\
  UsePl011Uart Sim.mini = false /\
  SerialPortRead Sim.config Sim.board Sim.hardware Sim.pl011 0 NULL 7 Sim.mini
  = Ret (0, Sim.mini).
Proof.
  pose proof (null_buffer_returns_zero Sim.config Sim.board Sim.hardware
                Sim.pl011 0 7 Sim.mini) as (Hw & Hr).
  split; [reflexivity|]. split; [exact (proj1 (Hw eq_refl))|].
  split; [reflexivity|]. exact (Hr eq_refl).
Defined.




Lemma u8_bit7 z : Z.testbit (u8 z) 7 = Z.testbit z 7.
Proof. unfold u8. change 256 with (2 ^ 8). apply Z.mod_pow2_bits_low. lia. Qed.

(** The register file of the simulation holds its line registers. *)
Lemma Sim_holds_line_registers :
  holds_line_registers Sim.config Sim.board Sim.hardware
    (fun d => u8 (Sim.lcr d)) (fun d => u8 (Sim.dll d)) (fun d => u8 (Sim.dlm d)).
Proof.
  constructor.
  - intros d a. repeat split.
  - intros d a. repeat split.
  - intros d. reflexivity.
  - intros d Hbit. rewrite u8_bit7 in Hbit.
    change (reg_address Sim.config (MINI_UART_REGISTER_BASE Sim.board) R_UART_BAUD_HIGH)
      with (Sim.uart_base + 4).
    change (reg_address Sim.config (MINI_UART_REGISTER_BASE Sim.board) R_UART_BAUD_LOW)
      with Sim.uart_base.
    cbn [mmio_read8 Sim.hardware]. unfold Sim.read8, Sim.dlab.
    change (Sim.uart_base + 4 =? Sim.uart_base) with false.
    change (Sim.uart_base + 4 =? Sim.uart_base + 4) with true.
    change (Sim.uart_base =? Sim.uart_base) with true.
    cbv iota. rewrite Hbit. split; reflexivity.
  - intros d v Hv.
    change (reg_address Sim.config (MINI_UART_REGISTER_BASE Sim.board) R_UART_LCR)
      with (Sim.uart_base + 12).
    cbv zeta. apply u8_small in Hv. repeat split. exact Hv.
  - intros d v Hv Hbit. rewrite u8_bit7 in Hbit.
    change (reg_address Sim.config (MINI_UART_REGISTER_BASE Sim.board) R_UART_BAUD_HIGH)
      with (Sim.uart_base + 4).
    cbv zeta. cbn [mmio_write8 Sim.hardware]. unfold Sim.write8, Sim.dlab.
    change (Sim.uart_base + 4 =? Sim.uart_base) with false.
    change (Sim.uart_base + 4 =? Sim.uart_base + 4) with true.
    cbv iota. rewrite Hbit. apply u8_small in Hv. repeat split. exact Hv.
  - intros d v Hv Hbit. rewrite u8_bit7 in Hbit.
    change (reg_address Sim.config (MINI_UART_REGISTER_BASE Sim.board) R_UART_BAUD_LOW)
      with Sim.uart_base.
    cbv zeta. cbn [mmio_write8 Sim.hardware]. unfold Sim.write8, Sim.dlab.
    change (Sim.uart_base =? Sim.uart_base) with true.
    cbv iota. rewrite Hbit. apply u8_small in Hv. repeat split. exact Hv.
  - intros d o v Hbit Ho. rewrite u8_bit7 in Hbit. cbv zeta.
    cbn [mmio_write8 Sim.hardware]. unfold Sim.write8, Sim.dlab.
    destruct Ho as [-> | [-> | ->]].
    + change (reg_address Sim.config (MINI_UART_REGISTER_BASE Sim.board) R_UART_FCR)
        with (Sim.uart_base + 8). repeat split.
    + change (reg_address Sim.config (MINI_UART_REGISTER_BASE Sim.board) R_UART_IER)
        with (Sim.uart_base + 4).
      change (Sim.uart_base + 4 =? Sim.uart_base) with false.
      change (Sim.uart_base + 4 =? Sim.uart_base + 4) with true.
      cbv iota. rewrite Hbit. repeat split.
    + change (reg_address Sim.config (MINI_UART_REGISTER_BASE Sim.board) R_UART_MCR)
        with (Sim.uart_base + 16). repeat split.
Qed.

(** C7, instance: the second of two consecutive calls with the standard
    configuration (target divisor 1085) finds the port initialized; it
    returns with no fuel after the seven accesses of the test, and its only
    writes are the two latch toggles. *)
Lemma Initialize_already_initialized_witness :
  exists w1,
    UsePl011Uart (detected Sim.board Sim.hardware (Board.initialized Sim.config))
    = false /\
    SerialPortGetDivisor Sim.config Sim.board Sim.hardware
      (PcdGet32 Sim.config PcdSerialBaudRate)
      (detected Sim.board Sim.hardware (Board.initialized Sim.config))
    = Ret (1085, w1) /\
    (exists w' l1 l2 hi lo l3,
      SerialPortInitialize Sim.config Sim.board Sim.hardware Sim.pl011 0
                           (Board.initialized Sim.config)
      = Ret (RETURN_SUCCESS, w') /\
      trace (machine w')
      = trace (machine w1)
        ++ [RegRead R_UART_LCR l1;
            RegRead R_UART_LCR l2;
            RegWrite R_UART_LCR (u8 (Z.lor l2 B_UART_LCR_DLAB));
            RegRead R_UART_BAUD_HIGH hi;
            RegRead R_UART_BAUD_LOW lo;
            RegRead R_UART_LCR l3;
            RegWrite R_UART_LCR (u8 (Z.land l3 (Z.lnot B_UART_LCR_DLAB)))] /\
      Z.land l1 0x3F = Z.land (PcdGet8 Sim.config PcdSerialLineControl) 0x3F /\
      Z.lor (u32 (Z.shiftl hi 8)) (u32 lo) = 1085) /\
    (* the two calls, from the state at boot *)
    UsePl011Uart (detected Sim.board Sim.hardware Sim.mini) = false /\
    SerialPortInitialize Sim.config Sim.board Sim.hardware Sim.pl011 1 Sim.mini
    = Ret (RETURN_SUCCESS, Board.initialized Sim.config) /\
    1085 <= 0xFFFF /\
    exists w'' l2 l3,
      SerialPortInitialize Sim.config Sim.board Sim.hardware Sim.pl011 0
                           (Board.initialized Sim.config)
      = Ret (RETURN_SUCCESS, w'') /\
      reg_writes (events_since (Board.initialized Sim.config) w'')
      = [(R_UART_LCR, u8 (Z.lor l2 B_UART_LCR_DLAB));
         (R_UART_LCR, u8 (Z.land l3 (Z.lnot B_UART_LCR_DLAB)))].
Proof.
  assert (Hm : UsePl011Uart (detected Sim.board Sim.hardware
                               (Board.initialized Sim.config)) = false)
    by (vm_compute; reflexivity).
  eexists. split; [exact Hm|].
  assert (Hdiv : forall w1,
             w1 = final_world (Board.initialized Sim.config)
                    (SerialPortGetDivisor Sim.config Sim.board Sim.hardware
                       (PcdGet32 Sim.config PcdSerialBaudRate)
                       (detected Sim.board Sim.hardware
                                 (Board.initialized Sim.config))) ->
             SerialPortGetDivisor Sim.config Sim.board Sim.hardware
               (PcdGet32 Sim.config PcdSerialBaudRate)
               (detected Sim.board Sim.hardware (Board.initialized Sim.config))
             = Ret (1085, w1))
    by (intros w1 ->; vm_compute; reflexivity).
  split; [exact (Hdiv _ eq_refl)|].
  split.
  { apply (proj1 (Initialize_already_initialized Sim.config Sim.board Sim.hardware
                    Sim.pl011 0 (Board.initialized Sim.config) _ 1085
                    Hm (Hdiv _ eq_refl))).
    - vm_compute. reflexivity.
    - vm_compute. reflexivity. }
  assert (Hm0 : UsePl011Uart (detected Sim.board Sim.hardware Sim.mini) = false)
    by reflexivity.
  assert (Hrun1 : SerialPortInitialize Sim.config Sim.board Sim.hardware Sim.pl011
                                       1 Sim.mini
                  = Ret (RETURN_SUCCESS, Board.initialized Sim.config))
    by (vm_compute; reflexivity).
  assert (Hdiv0 : forall w1,
             w1 = final_world Sim.mini
                    (SerialPortGetDivisor Sim.config Sim.board Sim.hardware
                       (PcdGet32 Sim.config PcdSerialBaudRate)
                       (detected Sim.board Sim.hardware Sim.mini)) ->
             SerialPortGetDivisor Sim.config Sim.board Sim.hardware
               (PcdGet32 Sim.config PcdSerialBaudRate)
               (detected Sim.board Sim.hardware Sim.mini)
             = Ret (1085, w1))
    by (intros w1 ->; vm_compute; reflexivity).
  assert (Hdiv2 : forall w1,
             w1 = final_world (Board.initialized Sim.config)
                    (SerialPortGetDivisor Sim.config Sim.board Sim.hardware
                       (PcdGet32 Sim.config PcdSerialBaudRate)
                       (Board.initialized Sim.config)) ->
             SerialPortGetDivisor Sim.config Sim.board Sim.hardware
               (PcdGet32 Sim.config PcdSerialBaudRate)
               (Board.initialized Sim.config)
             = Ret (1085, w1))
    by (intros w1 ->; vm_compute; reflexivity).
  assert (HD : 1085 <= 0xFFFF) by lia.
  split; [exact Hm0|]. split; [exact Hrun1|]. split; [exact HD|].
  exact (proj2 (proj2 (proj2
           (Initialize_already_initialized Sim.config Sim.board Sim.hardware
              Sim.pl011 1 Sim.mini _ 1085 Hm0 (Hdiv0 _ eq_refl))))
           _ _ _ Sim_holds_line_registers HD
           RETURN_SUCCESS (Board.initialized Sim.config) _
           Hrun1 (Hdiv2 _ eq_refl) 0%nat).
Defined.

(** C7, counterexample: at 300 baud the target divisor is 416667.  The second
    of two consecutive calls with this configuration reads back 0x5B9B from
    the latch, and reprograms the divisor, the line control, the FIFO control,
    the interrupt enable and the modem control registers again. *)
Lemma Initialize_twice_reprograms_twice :
  returned (Board.GetDivisor Board.config_300 300 (Board.initialized Board.config_300))
  = Some 416667 /\
  returned (Board.Initialize Board.config_300 1 (Board.initialized Board.config_300))
  = Some RETURN_SUCCESS /\
  reg_writes
    (events_since (Board.initialized Board.config_300)
       (final_world (Board.initialized Board.config_300)
          (Board.Initialize Board.config_300 1
                            (Board.initialized Board.config_300))))
  = [(R_UART_LCR, 0x83); (R_UART_LCR, 0x03);
     (R_UART_LCR, 0x80); (R_UART_BAUD_HIGH, 0x5B); (R_UART_BAUD_LOW, 0x9B);
     (R_UART_LCR, 0x03); (R_UART_FCR, 0x00); (R_UART_FCR, 0x21);
     (R_UART_IER, 0x00); (R_UART_MCR, 0x00)].
Proof. repeat split. Qed.

(** C8, instance: the two line-control writes of SetAttributes. *)
Lemma line_control_register_writes_witness :
  UsePl011Uart Sim.mini = false /\
  exists line,
    lcr_writes (events_since Sim.mini
                  (final_world Sim.mini
                     (Board.SetAttributes Sim.config Sim.all_defaults Sim.mini)))
    = [B_UART_LCR_DLAB; line] /\
    Z.land line 0xC0 = 0.
Proof.
  split; [reflexivity|].
  destruct (proj1 (proj2 (line_control_register_writes Sim.config Sim.board
                            Sim.hardware Sim.pl011 0 Sim.mini))
                  eq_refl Sim.all_defaults RETURN_SUCCESS _ _ eq_refl)
    as [[Hbad _] | [_ Hok]].
  - discriminate Hbad.
  - exact Hok.
Defined.

(** C8, counterexample: SetAttributes writes 0x80 to the line-control
    register, a value with bit 7 set. *)
Lemma line_control_write_with_bit7 :
  lcr_writes (events_since Sim.mini
                (final_world Sim.mini
                   (Board.SetAttributes Sim.config Sim.all_defaults Sim.mini)))
  = [0x80; 0x03] /\
  Z.testbit 0x80 7 = true.
Proof. repeat split. Qed.


(** * Further properties of the library *)

Lemma rxrdy_bit m :
  0 <= m < 256 -> negb (Z.land m B_UART_LSR_RXRDY =? 0) = Z.testbit m 0.
Proof. revert m. apply byte_ext_bool. vm_compute. reflexivity. Qed.

Lemma clear_rts_byte m :
  0 <= m < 256 -> u8 (Z.land m (Z.lnot B_UART_MCR_RTS)) = Z.land m 0xFD.
Proof. revert m. apply byte_ext_Z. vm_compute. reflexivity. Qed.

Lemma set_rts_byte m :
  0 <= m < 256 -> u8 (Z.lor m B_UART_MCR_RTS) = Z.lor m 0x02.
Proof. revert m. apply byte_ext_Z. vm_compute. reflexivity. Qed.

Lemma control_low_bits Control m :
  0 <= m < 256 ->
  (let Mcr := u8 (Z.land m (Z.lnot (Z.lor B_UART_MCR_DTRC B_UART_MCR_RTS))) in
   let Mcr :=
     if Z.land Control EFI_SERIAL_DATA_TERMINAL_READY
        =? EFI_SERIAL_DATA_TERMINAL_READY
     then u8 (Z.lor Mcr B_UART_MCR_DTRC) else Mcr in
   if Z.land Control EFI_SERIAL_REQUEST_TO_SEND =? EFI_SERIAL_REQUEST_TO_SEND
   then u8 (Z.lor Mcr B_UART_MCR_RTS) else Mcr)
  = Z.lor (Z.land m 0xFC) (Z.land Control 0x03).
Proof.
  intros Hm. cbv zeta.
  replace (Z.land Control EFI_SERIAL_DATA_TERMINAL_READY)
    with (Z.land (Z.land Control 3) 1)
    by (rewrite <- Z.land_assoc; reflexivity).
  replace (Z.land Control EFI_SERIAL_REQUEST_TO_SEND)
    with (Z.land (Z.land Control 3) 2)
    by (rewrite <- Z.land_assoc; reflexivity).
  pose proof (land_low_bits Control 2) as Hc.
  change (Z.ones 2) with 3 in Hc. change (2 ^ 2) with 4 in Hc.
  specialize (Hc ltac:(lia)).
  generalize dependent (Z.land Control 3). intros c Hc.
  assert (E : c = 0 \/ c = 1 \/ c = 2 \/ c = 3) by lia.
  revert m Hm.
  destruct E as [-> | [-> | [-> | ->]]];
    apply byte_ext_Z; vm_compute; reflexivity.
Qed.

Lemma lor_if (C m : Z) (b : bool) :
  (if b then Z.lor C m else C) = Z.lor C (if b then m else 0).
Proof. destruct b; [reflexivity | rewrite Z.lor_0_r; reflexivity]. Qed.

Lemma status_bit m k :
  0 <= m < 256 -> 0 <= k < 8 ->
  (Z.land m (2 ^ k) =? 2 ^ k) = Z.testbit m k.
Proof.
  intros Hm Hk.
  assert (E : k = 0 \/ k = 1 \/ k = 2 \/ k = 3 \/ k = 4 \/ k = 5 \/ k = 6 \/ k = 7)
    by lia.
  revert m Hm.
  destruct E as [-> | [-> | [-> | [-> | [-> | [-> | [-> | ->]]]]]]];
    apply byte_ext_bool; vm_compute; reflexivity.
Qed.

Lemma high_nibble_bits m :
  0 <= m < 256 ->
  Z.land m 0xF0
  = Z.lor (Z.lor (Z.lor (if Z.testbit m 4 then 0x10 else 0)
                        (if Z.testbit m 5 then 0x20 else 0))
                 (if Z.testbit m 6 then 0x40 else 0))
          (if Z.testbit m 7 then 0x80 else 0).
Proof. revert m. apply byte_ext_Z. vm_compute. reflexivity. Qed.

Lemma low_pair_bits m :
  0 <= m < 256 ->
  Z.land m 0x03
  = Z.lor (if Z.testbit m 0 then 0x01 else 0) (if Z.testbit m 1 then 0x02 else 0).
Proof. revert m. apply byte_ext_Z. vm_compute. reflexivity. Qed.

Lemma transmitter_empty_bits m :
  0 <= m < 256 ->
  (Z.land m (Z.lor B_UART_LSR_TEMT B_UART_LSR_TXRDY)
   =? Z.lor B_UART_LSR_TEMT B_UART_LSR_TXRDY)
  = Z.testbit m 5 && Z.testbit m 6.
Proof. revert m. apply byte_ext_bool. vm_compute. reflexivity. Qed.

Lemma receiver_empty_bit m :
  0 <= m < 256 -> (Z.land m B_UART_LSR_RXRDY =? 0) = negb (Z.testbit m 0).
Proof. revert m. apply byte_ext_bool. vm_compute. reflexivity. Qed.

Lemma codec_round_trip parity stop data :
  1 <= parity <= 5 -> 1 <= stop <= 3 -> 5 <= data <= 8 ->
  let l := u8 (Z.land (pack_lcr (parity_code parity) (stop_code stop) (data - 5))
                      0x3F) in
  u8 l = l /\
  Z.land l 0x3F = l /\
  decoded_parity l = parity /\
  decoded_data_bits l = data /\
  decoded_stop_bits l = stop_bits_read_back stop data.
Proof.
  intros Hp Hs Hd.
  assert (Ep : parity = 1 \/ parity = 2 \/ parity = 3 \/ parity = 4 \/ parity = 5)
    by lia.
  assert (Es : stop = 1 \/ stop = 2 \/ stop = 3) by lia.
  assert (Ed : data = 5 \/ data = 6 \/ data = 7 \/ data = 8) by lia.
  destruct Ep as [-> | [-> | [-> | [-> | ->]]]];
    destruct Es as [-> | [-> | ->]];
    destruct Ed as [-> | [-> | [-> | ->]]];
    vm_compute; repeat split.
Qed.

Lemma rx_reads_app evs1 evs2 :
  rx_reads (evs1 ++ evs2) = rx_reads evs1 ++ rx_reads evs2.
Proof. apply flat_map_app. Qed.

Lemma rx_reads_none evs : Forall not_rx evs -> rx_reads evs = [].
Proof.
  induction 1 as [|e evs He _ IH]; [reflexivity|].
  destruct e as [o v|o v|a v]; simpl in *; try exact IH.
  destruct (Z.eqb_spec o R_UART_RXBUF); [contradiction | exact IH].
Qed.

Lemma set_after_clear_rts_byte m :
  0 <= m < 256 ->
  u8 (Z.lor (u8 (Z.land m (Z.lnot B_UART_MCR_RTS))) B_UART_MCR_RTS)
  = Z.lor m 0x02.
Proof. revert m. apply byte_ext_Z. vm_compute. reflexivity. Qed.

Lemma fifo_room_app size room evs1 evs2 :
  fifo_room size room (evs1 ++ evs2)
  = match fifo_room size room evs1 with
    | Some r => fifo_room size r evs2
    | None => None
    end.
Proof.
  revert room. induction evs1 as [|e evs1 IH]; intros room; [reflexivity|].
  destruct e as [o v|o v|a v]; simpl.
  - destruct (_ && _); apply IH.
  - destruct (o =? R_UART_TXBUF); [|apply IH].
    destruct (0 <? room); [apply IH | reflexivity].
  - apply IH.
Qed.

Lemma fifo_room_neutral size room evs :
  Forall fifo_neutral evs -> fifo_room size room evs = Some room.
Proof.
  induction 1 as [|e evs He _ IH]; [reflexivity|].
  destruct e as [o v|o v|a v]; simpl in *.
  - destruct (Z.eqb_spec o R_UART_LSR); [contradiction | exact IH].
  - destruct (Z.eqb_spec o R_UART_TXBUF); [contradiction | exact IH].
  - exact IH.
Qed.

Lemma fifo_ok_step {hw} (w0 w w' : World hw) size (P Q : Z -> Prop) evs :
  fifo_ok w0 size P w ->
  trace (machine w') = trace (machine w) ++ evs ->
  (forall room, P room ->
                exists room', fifo_room size room evs = Some room' /\ Q room') ->
  fifo_ok w0 size Q w'.
Proof.
  intros (e0 & room & T & R & HP) T' Hstep.
  destruct (Hstep room HP) as (room' & R' & HQ).
  exists (e0 ++ evs), room'. split; [rewrite T', T, app_assoc; reflexivity|].
  split; [|exact HQ]. rewrite fifo_room_app, R. exact R'.
Qed.

Lemma monitor_app {S} (step : S -> Event -> option S) s evs1 evs2 :
  monitor step s (evs1 ++ evs2)
  = match monitor step s evs1 with
    | Some s' => monitor step s' evs2
    | None => None
    end.
Proof.
  revert s. induction evs1 as [|e evs1 IH]; intros s; [reflexivity|].
  simpl. destruct (step s e); [apply IH | reflexivity].
Qed.

Lemma monitored_step {hw S} (step : S -> Event -> option S) s0
      (w0 w w' : World hw) (P Q : S -> Prop) evs :
  monitored step s0 w0 P w ->
  trace (machine w') = trace (machine w) ++ evs ->
  (forall st, P st -> exists st', monitor step st evs = Some st' /\ Q st') ->
  monitored step s0 w0 Q w'.
Proof.
  intros (e0 & st & T & R & HP) T' Hstep.
  destruct (Hstep st HP) as (st' & R' & HQ).
  exists (e0 ++ evs), st'. split; [rewrite T', T, app_assoc; reflexivity|].
  split; [|exact HQ]. rewrite monitor_app, R. exact R'.
Qed.

Lemma tx_step_reads detect evs :
  Forall is_read evs ->
  forall st, exists st', monitor (tx_step detect) st evs = Some st'.
Proof.
  induction 1 as [|e evs He _ IH]; intros st; [exists st; reflexivity|].
  destruct e as [o v|o v|a v]; simpl in *; [apply IH | contradiction | apply IH].
Qed.

Section Further.
Variable pcd : Pcd.
Variable plat : Platform.
Variable hw : Hardware.
Variable pl011 : PL011UartLib hw.

(** ** The detection is one-shot *)

Lemma detected_when_set (w : World hw) :
  UsePl011UartSet w = true -> detected plat hw w = w.
Proof. intros H. unfold detected. rewrite H. reflexivity. Qed.

(** X1: once [UsePl011UartSet] is true, no operation probes again: the
    detection block leaves the world as it is (no read of the GPIO register),
    and every operation that returns leaves both globals as they were. *)
Theorem detection_is_one_shot (fuel : nat) (w : World hw) :
  UsePl011UartSet w = true ->
  DetectPl011Uart plat hw w = Ret (tt, w) /\
  (forall st w',
      SerialPortInitialize pcd plat hw pl011 fuel w = Ret (st, w') ->
      same_flags w w') /\
  (forall Buffer NumberOfBytes r w',
      SerialPortWrite pcd plat hw pl011 fuel Buffer NumberOfBytes w = Ret (r, w') ->
      same_flags w w') /\
  (forall Buffer NumberOfBytes r w',
      SerialPortRead pcd plat hw pl011 fuel Buffer NumberOfBytes w = Ret (r, w') ->
      same_flags w w') /\
  (forall r w', SerialPortPoll pcd plat hw pl011 w = Ret (r, w') -> same_flags w w') /\
  (forall r w',
      SerialPortGetControl pcd plat hw pl011 w = Ret (r, w') -> same_flags w w') /\
  (forall Control r w',
      SerialPortSetControl pcd plat hw pl011 Control w = Ret (r, w') ->
      same_flags w w') /\
  (forall a r w',
      SerialPortSetAttributes pcd plat hw pl011 a w = Ret (r, w') ->
      same_flags w w').
Proof.
  intros Hset. pose proof (detected_when_set w Hset) as Hd.
  split; [rewrite DetectPl011Uart_run, Hd; reflexivity|].
  split; [intros st w' H; apply flags_Initialize in H; rewrite Hd in H; exact H|].
  split; [intros B n r w' H; apply flags_Write in H; rewrite Hd in H; exact H|].
  split; [intros B n r w' H; exact (flags_Read pcd plat hw pl011 _ _ _ _ _ _ H)|].
  split; [intros r w' H; exact (flags_Poll pcd plat hw pl011 _ _ _ H)|].
  split; [intros r w' H; exact (flags_GetControl pcd plat hw pl011 _ _ _ H)|].
  split; [intros C r w' H; exact (flags_SetControl pcd plat hw pl011 _ _ _ _ H)|].
  intros a r w' H. exact (flags_SetAttributes pcd plat hw pl011 _ _ _ _ H).
Qed.

(** ** Poll *)


(** ** SetControl and GetControl *)

Lemma written_mcr_range m Control :
  0 <= m < 256 -> 0 <= Z.lor (Z.land m 0xFC) (Z.land Control 0x03) < 256.
Proof.
  intros Hm.
  pose proof (land_low_bits Control 2) as Hc.
  change (Z.ones 2) with 3 in Hc. change (2 ^ 2) with 4 in Hc.
  specialize (Hc ltac:(lia)).
  assert (H : 0 <= Z.land m 0xFC < 2 ^ 8).
  { split; [apply Z.land_nonneg; lia|].
    assert (E : (Z.land m 0xFC <? 256) = true).
    { revert m Hm.
      apply (forall_byte (fun m => Z.land m 0xFC <? 256)). vm_compute.
      reflexivity. }
    apply Z.ltb_lt in E. exact E. }
  apply (lor_bound _ _ 8); lia.
Qed.

Lemma SetControl_valid_run (Control : Z) (w : World hw) :
  UsePl011Uart w = false ->
  Z.land Control
    (Z.lnot (Z.lor (Z.lor EFI_SERIAL_REQUEST_TO_SEND
                          EFI_SERIAL_DATA_TERMINAL_READY)
                   EFI_SERIAL_HARDWARE_FLOW_CONTROL_ENABLE)) = 0 ->
  SerialPortSetControl pcd plat hw pl011 Control w
  = Ret (RETURN_SUCCESS,
         after_write pcd hw
           (after_read pcd hw w (MINI_UART_REGISTER_BASE plat) R_UART_MCR)
           (MINI_UART_REGISTER_BASE plat) R_UART_MCR
           (Z.lor (Z.land (read_value pcd hw w (MINI_UART_REGISTER_BASE plat)
                                      R_UART_MCR) 0xFC)
                  (Z.land Control 0x03))).
Proof.
  intros Hm Hvalid.
  rewrite (SetControl_mini_run pcd plat hw pl011 Control w Hm).
  apply Z.eqb_eq in Hvalid. rewrite Hvalid. simpl negb. cbv iota.
  pose proof (control_low_bits Control _
                (read_value_range pcd hw w (MINI_UART_REGISTER_BASE plat)
                                  R_UART_MCR)) as E.
  cbv zeta in E |- *. rewrite E. reflexivity.
Qed.


Lemma GetControl_mini_spec (w : World hw) :
  UsePl011Uart w = false ->
  let base := MINI_UART_REGISTER_BASE plat in
  let msr := read_value pcd hw w base R_UART_MSR in
  let w1 := after_read pcd hw w base R_UART_MSR in
  let mcr := read_value pcd hw w1 base R_UART_MCR in
  let w2 := after_read pcd hw w1 base R_UART_MCR in
  let lsr := read_value pcd hw w2 base R_UART_LSR in
  exists Control w',
    SerialPortGetControl pcd plat hw pl011 w = Ret ((RETURN_SUCCESS, Control), w') /\
    events_since w w'
    = [RegRead R_UART_MSR msr; RegRead R_UART_MCR mcr; RegRead R_UART_LSR lsr] /\
    Z.land Control 0xF0 = Z.land msr 0xF0 /\
    Z.land Control 0x03 = Z.land mcr 0x03 /\
    Z.testbit Control 14 = PcdSerialUseHardwareFlowControl pcd /\
    Z.testbit Control 9 = Z.testbit lsr 5 && Z.testbit lsr 6 /\
    Z.testbit Control 8 = negb (Z.testbit lsr 0) /\
    Z.land Control (Z.lnot 0x43F3) = 0.
Proof.
  intros Hm base msr w1 mcr w2 lsr.
  assert (Hs : 0 <= msr < 256) by apply read_value_range.
  assert (Hc : 0 <= mcr < 256) by apply read_value_range.
  assert (Hl : 0 <= lsr < 256) by apply read_value_range.
  unfold SerialPortGetControl. unfold bind at 1. unfold get_UsePl011Uart.
  rewrite Hm.
  erewrite bind_run by apply SerialPortReadRegister_run.
  erewrite bind_run by apply SerialPortReadRegister_run.
  erewrite bind_run by apply SerialPortReadRegister_run.
  fold base. fold msr. fold w1. fold mcr. fold w2. fold lsr.
  unfold ret, PcdGetBool.
  change B_UART_MSR_CTS with (2 ^ 4). change B_UART_MSR_DSR with (2 ^ 5).
  change B_UART_MSR_RI with (2 ^ 6). change B_UART_MSR_DCD with (2 ^ 7).
  change B_UART_MCR_DTRC with (2 ^ 0). change B_UART_MCR_RTS with (2 ^ 1).
  rewrite !(status_bit msr) by lia. rewrite !(status_bit mcr) by lia.
  change (Z.lor (2 ^ 6) (2 ^ 5))
    with (Z.lor B_UART_LSR_TEMT B_UART_LSR_TXRDY).
  rewrite (transmitter_empty_bits lsr Hl), (receiver_empty_bit lsr Hl).
  rewrite (high_nibble_bits msr Hs), (low_pair_bits mcr Hc).
  eexists. eexists. split; [reflexivity|].
  split.
  { apply events_since_app. unfold w2, w1. simpl.
    repeat rewrite <- app_assoc. reflexivity. }
  destruct (Z.testbit msr 4), (Z.testbit msr 5), (Z.testbit msr 6),
    (Z.testbit msr 7), (Z.testbit mcr 0), (Z.testbit mcr 1),
    (PcdSerialUseHardwareFlowControl pcd), (Z.testbit lsr 5),
    (Z.testbit lsr 6), (Z.testbit lsr 0);
    repeat split.
Qed.


(** X4: on the mini-UART path SerialPortGetControl always returns
    RETURN_SUCCESS after three register reads (modem status, modem control,
    line status) and no write.  In the word it returns, bits 4-7 are bits
    4-7 of the modem status (CTS, DSR, RI, DCD), bits 0-1 are bits 0-1 of the
    modem control (DTR, RTS), bit 14 is the configured hardware flow control
    flag, bit 9 (output buffer empty) is set when bits 5 and 6 of the line
    status are both set, bit 8 (input buffer empty) when bit 0 of the line
    status is clear; no other bit is set. *)
Theorem GetControl_reports_the_lines (w : World hw) :
  UsePl011Uart w = false ->
  let base := MINI_UART_REGISTER_BASE plat in
  let msr := read_value pcd hw w base R_UART_MSR in
  let w1 := after_read pcd hw w base R_UART_MSR in
  let mcr := read_value pcd hw w1 base R_UART_MCR in
  let w2 := after_read pcd hw w1 base R_UART_MCR in
  let lsr := read_value pcd hw w2 base R_UART_LSR in
  exists Control w',
    SerialPortGetControl pcd plat hw pl011 w = Ret ((RETURN_SUCCESS, Control), w') /\
    events_since w w'
    = [RegRead R_UART_MSR msr; RegRead R_UART_MCR mcr; RegRead R_UART_LSR lsr] /\
    Z.land Control 0xF0 = Z.land msr 0xF0 /\
    Z.land Control 0x03 = Z.land mcr 0x03 /\
    Z.testbit Control 14 = PcdSerialUseHardwareFlowControl pcd /\
    Z.testbit Control 9 = Z.testbit lsr 5 && Z.testbit lsr 6 /\
    Z.testbit Control 8 = negb (Z.testbit lsr 0) /\
    Z.land Control (Z.lnot 0x43F3) = 0.
Proof. exact (GetControl_mini_spec w). Qed.

(** X5: on the mini-UART path, on a device that gives back the
    modem-control byte last written, SerialPortGetControl after
    SerialPortSetControl (with a valid mask) reports the DataTerminalReady
    and RequestToSend bits that were set. *)
Theorem GetControl_after_SetControl (Control : Z) (w : World hw) :
  UsePl011Uart w = false ->
  Z.land Control
    (Z.lnot (Z.lor (Z.lor EFI_SERIAL_REQUEST_TO_SEND
                          EFI_SERIAL_DATA_TERMINAL_READY)
                   EFI_SERIAL_HARDWARE_FLOW_CONTROL_ENABLE)) = 0 ->
  mcr_latched pcd plat hw ->
  exists Control' w',
    bind (SerialPortSetControl pcd plat hw pl011 Control)
         (fun _ => SerialPortGetControl pcd plat hw pl011) w
    = Ret ((RETURN_SUCCESS, Control'), w') /\
    Z.testbit Control' 0 = Z.testbit Control 0 /\
    Z.testbit Control' 1 = Z.testbit Control 1.
Proof.
  intros Hm Hvalid Hlatch.
  erewrite bind_run by apply (SetControl_valid_run Control w Hm Hvalid).
  set (base := MINI_UART_REGISTER_BASE plat).
  set (mcr := read_value pcd hw w base R_UART_MCR).
  set (v := Z.lor (Z.land mcr 0xFC) (Z.land Control 0x03)).
  set (w1 := after_write pcd hw (after_read pcd hw w base R_UART_MCR)
                         base R_UART_MCR v).
  assert (Hv : 0 <= v < 256)
    by (apply written_mcr_range; apply read_value_range).
  assert (Hm1 : UsePl011Uart w1 = false) by exact Hm.
  destruct (GetControl_mini_spec w1 Hm1)
    as (Control' & w' & Hrun & _ & _ & Hlow & _).
  exists Control', w'. split; [exact Hrun|].
  assert (Hread :
            read_value pcd hw (after_read pcd hw w1 base R_UART_MSR)
                       base R_UART_MCR = v).
  { exact (Hlatch _ v Hv). }
  fold base in Hlow. rewrite Hread in Hlow.
  assert (Hbits : Z.land Control' 3 = Z.land Control 3).
  { rewrite Hlow. unfold v. rewrite Z.land_lor_distr_l.
    rewrite <- !Z.land_assoc. change (Z.land 252 3) with 0.
    change (Z.land 3 3) with 3. rewrite Z.land_0_r, Z.lor_0_l. reflexivity. }
  split.
  - assert (E : forall x, Z.testbit x 0 = Z.testbit (Z.land x 3) 0).
    { intros x. rewrite Z.land_spec. simpl. rewrite andb_true_r. reflexivity. }
    rewrite (E Control'), (E Control), Hbits. reflexivity.
  - assert (E : forall x, Z.testbit x 1 = Z.testbit (Z.land x 3) 1).
    { intros x. rewrite Z.land_spec. simpl. rewrite andb_true_r. reflexivity. }
    rewrite (E Control'), (E Control), Hbits. reflexivity.
Qed.

(** ** SetAttributes: what comes back, and the line-control codec *)

Lemma ResolveBaudRate_all_fields a :
  ReceiveFifoDepth (ResolveBaudRate pcd a) = ReceiveFifoDepth a /\
  Timeout (ResolveBaudRate pcd a) = Timeout a /\
  BaudRate (ResolveBaudRate pcd a)
  = (if BaudRate a =? 0 then PcdGet32 pcd PcdSerialBaudRate else BaudRate a).
Proof. unfold ResolveBaudRate. destruct (BaudRate a =? 0); auto. Qed.

Lemma ResolveDataBits_all_fields a LcrData a1 :
  ResolveDataBits pcd a = Some (LcrData, a1) ->
  ReceiveFifoDepth a1 = ReceiveFifoDepth a /\
  Timeout a1 = Timeout a /\
  (DataBits a <> 0 -> DataBits a1 = DataBits a).
Proof.
  unfold ResolveDataBits. destruct (Z.eqb_spec (DataBits a) 0).
  - intros H. inversion H; subst. simpl. repeat split; auto. contradiction.
  - destruct ((DataBits a <? 5) || (DataBits a >? 8)); [discriminate|].
    intros H. inversion H; subst. auto.
Qed.

Lemma ResolveParity_all_fields a LcrParity a2 :
  ResolveParity pcd a = Some (LcrParity, a2) ->
  ReceiveFifoDepth a2 = ReceiveFifoDepth a /\
  Timeout a2 = Timeout a /\
  (Parity a <> DefaultParity -> Parity a2 = Parity a).
Proof.
  unfold ResolveParity. destruct (Z.eqb_spec (Parity a) DefaultParity).
  - intros H. inversion H; subst.
    repeat match goal with
           | |- context [if ?b then _ else _] => destruct b
           end; simpl; repeat split; auto; contradiction.
  - repeat match goal with
           | |- context [if ?b then _ else _] => destruct b
           end; intros H; inversion H; subst; auto.
Qed.

Lemma ResolveStopBits_all_fields a LcrStop a3 :
  ResolveStopBits pcd a = Some (LcrStop, a3) ->
  ReceiveFifoDepth a3 = ReceiveFifoDepth a /\
  Timeout a3 = Timeout a /\
  BaudRate a3 = BaudRate a /\
  DataBits a3 = DataBits a /\
  Parity a3 = Parity a /\
  (StopBits a <> DefaultStopBits -> StopBits a3 = StopBits a).
Proof.
  unfold ResolveStopBits. destruct (Z.eqb_spec (StopBits a) DefaultStopBits).
  - intros H. inversion H; subst.
    repeat match goal with
           | |- context [if ?b then _ else _] => destruct b
           end; simpl; repeat split; auto; contradiction.
  - repeat match goal with
           | |- context [if ?b then _ else _] => destruct b
           end; intros H; inversion H; subst; repeat split; auto.
Qed.

(** X6: on the mini-UART path SerialPortSetAttributes, whatever it returns,
    gives [*ReceiveFifoDepth] and [*Timeout] back untouched and every
    attribute passed with an explicit value back unchanged.  A [*BaudRate]
    of 0 comes back as the configured baud rate even when the call then
    fails with RETURN_INVALID_PARAMETER. *)
Theorem SetAttributes_in_out_parameters
        (a a' : SerialAttributes) (st : RETURN_STATUS) (w w' : World hw) :
  UsePl011Uart w = false ->
  SerialPortSetAttributes pcd plat hw pl011 a w = Ret ((st, a'), w') ->
  ReceiveFifoDepth a' = ReceiveFifoDepth a /\
  Timeout a' = Timeout a /\
  BaudRate a'
  = (if BaudRate a =? 0 then PcdGet32 pcd PcdSerialBaudRate else BaudRate a) /\
  (DataBits a <> 0 -> DataBits a' = DataBits a) /\
  (Parity a <> DefaultParity -> Parity a' = Parity a) /\
  (StopBits a <> DefaultStopBits -> StopBits a' = StopBits a).
Proof.
  intros Hm H. rewrite (SetAttributes_mini_run pcd plat hw pl011 a w Hm) in H.
  cbv zeta in H.
  destruct (ResolveBaudRate_all_fields a) as (Hf0 & Ht0 & Hb0).
  destruct (ResolveBaudRate_fields pcd a) as (Hd0 & Hp0 & Hs0).
  destruct (ResolveDataBits pcd _) as [[LcrData a1]|] eqn:E1.
  2:{ inversion H; subst. repeat split; auto. }
  destruct (ResolveDataBits_all_fields _ _ _ E1) as (Hf1 & Ht1 & Hd1).
  destruct (ResolveDataBits_fields pcd _ _ _ E1) as (Hp1 & Hs1 & Hb1 & _).
  destruct (ResolveParity pcd a1) as [[LcrParity a2]|] eqn:E2.
  2:{ inversion H; subst. repeat split; try congruence.
      intros Hx. rewrite Hd1; congruence. }
  destruct (ResolveParity_all_fields _ _ _ E2) as (Hf2 & Ht2 & Hp2).
  destruct (ResolveParity_fields pcd _ _ _ E2) as (Hs2 & Hd2 & Hb2).
  destruct (ResolveStopBits pcd a2) as [[LcrStop a3]|] eqn:E3.
  2:{ inversion H; subst. repeat split; try congruence.
      - intros Hx. rewrite Hd2, Hd1; congruence.
      - intros Hx. rewrite Hp2; congruence. }
  destruct (ResolveStopBits_all_fields _ _ _ E3)
    as (Hf3 & Ht3 & Hb3 & Hd3 & Hp3 & Hs3).
  destruct (SerialPortGetDivisor pcd plat hw _ w) as [[Divisor w1]| |];
    try discriminate.
  inversion H; subst. repeat split; try congruence.
  - intros Hx. rewrite Hd3, Hd2, Hd1; congruence.
  - intros Hx. rewrite Hp3, Hp2; congruence.
  - intros Hx. rewrite Hs3; congruence.
Qed.

Lemma ResolveDataBits_explicit a :
  5 <= DataBits a <= 8 ->
  ResolveDataBits pcd a = Some (DataBits a - 5, a).
Proof.
  intros H. unfold ResolveDataBits.
  destruct (Z.eqb_spec (DataBits a) 0); [lia|].
  destruct (Z.ltb_spec (DataBits a) 5); [lia|].
  rewrite Z.gtb_ltb. destruct (Z.ltb_spec 8 (DataBits a)); [lia|].
  simpl orb. cbv iota. change (u8 5) with 5. rewrite u8_small by lia.
  reflexivity.
Qed.

Lemma ResolveParity_explicit a :
  1 <= Parity a <= 5 ->
  ResolveParity pcd a = Some (parity_code (Parity a), a).
Proof.
  intros H. unfold ResolveParity, parity_code, DefaultParity, NoParity,
              EvenParity, OddParity, SpaceParity, MarkParity.
  repeat match goal with
         | |- context [?x =? ?y] => destruct (Z.eqb_spec x y)
         end; try reflexivity; lia.
Qed.

Lemma ResolveStopBits_explicit a :
  1 <= StopBits a <= 3 ->
  ResolveStopBits pcd a = Some (stop_code (StopBits a), a).
Proof.
  intros H. unfold ResolveStopBits, stop_code, DefaultStopBits, OneStopBit,
              OneFiveStopBits, TwoStopBits.
  destruct (Z.eqb_spec (StopBits a) 0); [lia|].
  destruct (Z.eqb_spec (StopBits a) 1); [reflexivity|].
  destruct (Z.eqb_spec (StopBits a) 2); [reflexivity|].
  destruct (Z.eqb_spec (StopBits a) 3); [reflexivity | lia].
Qed.

Lemma SetAttributes_lcr_writes B (w w1 : World hw) Divisor Lcr :
  SerialPortGetDivisor pcd plat hw B w = Ret (Divisor, w1) ->
  lcr_writes (events_since w (program_line pcd plat hw w1 Divisor Lcr))
  = [B_UART_LCR_DLAB; u8 (Z.land Lcr 0x3F)].
Proof.
  intros Hdiv.
  destruct (GetDivisor_trace pcd plat hw _ _ _ _ Hdiv) as (ad & vd & T1).
  erewrite events_since_app
    by (rewrite trace_program_line, T1; repeat rewrite <- app_assoc;
        reflexivity).
  reflexivity.
Qed.

(** X7: the line-control codec round-trips.  On the mini-UART path, a call of
    SerialPortSetAttributes with explicit, valid data bits (5..8), parity and
    stop bits succeeds and writes a line-control byte [l]; with [l] as the
    configured default, a call with the three "use default" sentinels
    succeeds, writes the same byte, and reports the same data bits and
    parity.  The stop bits come back the same, except that 1.5 and 2 stop
    bits share a code: they come back as 1.5 with 5 data bits and as 2
    otherwise. *)
Theorem line_control_round_trip
        (a b : SerialAttributes) (w w1 w2 w3 : World hw) (Divisor Divisor2 : Z) :
  UsePl011Uart w = false ->
  UsePl011Uart w2 = false ->
  5 <= DataBits a <= 8 ->
  1 <= Parity a <= 5 ->
  1 <= StopBits a <= 3 ->
  DataBits b = 0 ->
  Parity b = DefaultParity ->
  StopBits b = DefaultStopBits ->
  SerialPortGetDivisor pcd plat hw (u32 (BaudRate (ResolveBaudRate pcd a))) w
  = Ret (Divisor, w1) ->
  SerialPortGetDivisor pcd plat hw (u32 (BaudRate (ResolveBaudRate pcd b))) w2
  = Ret (Divisor2, w3) ->
  exists l w' b' w'',
    SerialPortSetAttributes pcd plat hw pl011 a w
    = Ret ((RETURN_SUCCESS, ResolveBaudRate pcd a), w') /\
    lcr_writes (events_since w w') = [B_UART_LCR_DLAB; l] /\
    SerialPortSetAttributes (with_line_control pcd l) plat hw pl011 b w2
    = Ret ((RETURN_SUCCESS, b'), w'') /\
    lcr_writes (events_since w2 w'') = [B_UART_LCR_DLAB; l] /\
    DataBits b' = DataBits a /\
    Parity b' = Parity a /\
    StopBits b' = stop_bits_read_back (StopBits a) (DataBits a).
Proof.
  intros Hm Hm2 Hd Hp Hs Hbd Hbp Hbs Hdiv Hdiv2.
  destruct (codec_round_trip (Parity a) (StopBits a) (DataBits a) Hp Hs Hd)
    as (Hu & Hmask & Hdp & Hdd & Hds).
  set (l := u8 (Z.land (pack_lcr (parity_code (Parity a)) (stop_code (StopBits a))
                                 (DataBits a - 5)) 0x3F)) in *.
  set (pcd' := with_line_control pcd l).
  assert (Hcfg : PcdGet8 pcd' PcdSerialLineControl = l) by exact Hu.
  exists l.
  (* the explicit call *)
  pose proof (SetAttributes_mini_run pcd plat hw pl011 a w Hm) as Hrun.
  cbv zeta in Hrun.
  destruct (ResolveBaudRate_fields pcd a) as (Ed & Ep & Es).
  rewrite ResolveDataBits_explicit in Hrun by lia.
  rewrite ResolveParity_explicit in Hrun by lia.
  rewrite ResolveStopBits_explicit in Hrun by lia.
  rewrite Hdiv, Ed, Ep, Es in Hrun.
  eexists. 
  (* the call with the sentinels *)
  pose proof (SetAttributes_mini_run pcd' plat hw pl011 b w2 Hm2) as Hrun2.
  cbv zeta in Hrun2.
  destruct (ResolveBaudRate_fields pcd' b) as (Ed' & Ep' & Es').
  rewrite (ResolveDataBits_default pcd') in Hrun2 by congruence.
  rewrite (ResolveParity_default pcd') in Hrun2 by (simpl; congruence).
  rewrite Hcfg, Hdp in Hrun2.
  assert (Hne : (Parity a =? DefaultParity) = false)
    by (apply Z.eqb_neq; unfold DefaultParity; lia).
  rewrite Hne in Hrun2.
  rewrite (ResolveStopBits_default pcd') in Hrun2
    by (rewrite ?Hcfg; simpl; congruence).
  rewrite Hcfg in Hrun2.
  change (SerialPortGetDivisor pcd' plat hw
            (u32 (BaudRate (ResolveBaudRate pcd' b))) w2)
    with (SerialPortGetDivisor pcd plat hw
            (u32 (BaudRate (ResolveBaudRate pcd b))) w2) in Hrun2.
  rewrite Hdiv2 in Hrun2.
  eexists. eexists.
  split; [exact Hrun|].
  split; [exact (SetAttributes_lcr_writes _ _ _ _ _ Hdiv)|].
  split; [exact Hrun2|].
  split.
  { change (program_line pcd' plat hw w3 Divisor2)
      with (program_line pcd plat hw w3 Divisor2).
    rewrite (SetAttributes_lcr_writes _ _ _ _ _ Hdiv2).
    rewrite (pack_decoded_fields l); [rewrite Hmask; reflexivity|].
    unfold l. apply u8_range. }
  unfold set_StopBits, set_Parity, set_DataBits.
  cbn [DataBits Parity StopBits].
  auto.
Qed.

(** ** SerialPortRead *)

Lemma ReadLoop_named fuel Base Mcr :
  ReadLoop pcd hw fuel Base Mcr
  = While fuel (ReadLoopTest hw) (ReadLoopBody pcd hw fuel Base Mcr).
Proof. reflexivity. Qed.

Lemma Read_mini_run fuel Buffer NumberOfBytes (w : World hw) :
  UsePl011Uart w = false ->
  Buffer <> NULL ->
  let base := MINI_UART_REGISTER_BASE plat in
  SerialPortRead pcd plat hw pl011 fuel Buffer NumberOfBytes w
  = bind (While fuel (ReadLoopTest hw)
            (ReadLoopBody pcd hw fuel base
               (u8 (Z.land (read_value pcd hw w base R_UART_MCR)
                           (Z.lnot B_UART_MCR_RTS))))
            (0, NumberOfBytes, Buffer))
         (fun s => ret (fst (fst s)))
         (after_read pcd hw w base R_UART_MCR).
Proof.
  intros Hm Hb base. unfold SerialPortRead.
  unfold bind at 1. unfold get_UsePl011Uart. rewrite Hm.
  assert (E : (NULL =? Buffer) = false) by (apply Z.eqb_neq; congruence).
  rewrite E.
  erewrite bind_run by apply SerialPortReadRegister_run.
  rewrite ReadLoop_named. unfold bind.
  destruct (While _ _ _ _ _) as [[[[r n] b] w']| |]; reflexivity.
Qed.

Lemma ReadLoopBody_run F Base Mcr Result N Buffer (w w1 : World hw) :
  ReadWait pcd hw F Base Mcr w = Ret (tt, w1) ->
  ReadLoopBody pcd hw F Base Mcr (Result, N, Buffer) w
  = Ret ((u64 (Result + 1), u64 (N - 1), Buffer + 1),
         stored hw (after_read pcd hw (rts_cleared pcd hw w1 Base Mcr) Base R_UART_RXBUF)
                Buffer
                (read_value pcd hw (rts_cleared pcd hw w1 Base Mcr) Base R_UART_RXBUF)).
Proof.
  intros H. unfold ReadLoopBody. cbv zeta.
  erewrite bind_run by exact H.
  unfold rts_cleared.
  destruct (PcdGetBool pcd PcdSerialUseHardwareFlowControl).
  - erewrite bind_run
      by (erewrite bind_run by apply SerialPortWriteRegister_run; reflexivity).
    erewrite bind_run by apply SerialPortReadRegister_run. reflexivity.
  - erewrite bind_run by reflexivity.
    erewrite bind_run by apply SerialPortReadRegister_run. reflexivity.
Qed.

Lemma ReadLoopBody_Ret F Base Mcr s s' (w w' : World hw) :
  ReadLoopBody pcd hw F Base Mcr s w = Ret (s', w') ->
  exists w1,
    ReadWait pcd hw F Base Mcr w = Ret (tt, w1) /\
    s' = (u64 (fst (fst s) + 1), u64 (snd (fst s) - 1), snd s + 1) /\
    w' = stored hw (after_read pcd hw (rts_cleared pcd hw w1 Base Mcr) Base R_UART_RXBUF)
                (snd s)
                (read_value pcd hw (rts_cleared pcd hw w1 Base Mcr) Base R_UART_RXBUF).
Proof.
  destruct s as [[Result N] Buffer]. intros H.
  destruct (ReadWait pcd hw F Base Mcr w) as [[[] w1]| |] eqn:E.
  - rewrite (ReadLoopBody_run _ _ _ _ _ _ _ _ E) in H.
    injection H as <- <-. exists w1. repeat split; reflexivity.
  - unfold ReadLoopBody in H. cbv zeta in H. unfold bind at 1 in H.
    rewrite E in H. discriminate.
  - unfold ReadLoopBody in H. cbv zeta in H. unfold bind at 1 in H.
    rewrite E in H. discriminate.
Qed.

Lemma ReadWait_no_rx fuel Base Mcr :
  respects (fun w w' : World hw => emits not_rx w w' /\ same_ram w w')
           (ReadWait pcd hw fuel Base Mcr).
Proof.
  unfold ReadWait, ReadWaitTest, ReadWaitBody.
  apply respects_and; repeat respects_step; try exact I.
  unfold R_UART_LSR, R_UART_RXBUF. discriminate.
Qed.

Lemma trace_rts_cleared (w : World hw) Base Mcr :
  exists evs,
    trace (machine (rts_cleared pcd hw w Base Mcr)) = trace (machine w) ++ evs /\
    rx_reads evs = [] /\
    ram (machine (rts_cleared pcd hw w Base Mcr)) = ram (machine w).
Proof.
  unfold rts_cleared. destruct (PcdGetBool pcd PcdSerialUseHardwareFlowControl).
  - exists [RegWrite R_UART_MCR Mcr]. repeat split; reflexivity.
  - exists []. rewrite app_nil_r. repeat split; reflexivity.
Qed.

Lemma received_ReadLoop fuel F Base Mcr (w0 : World hw) Buffer0 n :
  n < 2 ^ 64 ->
  forall s w s' w',
    received hw w0 Buffer0 n s w ->
    While fuel (ReadLoopTest hw) (ReadLoopBody pcd hw F Base Mcr) s w
    = Ret (s', w') ->
    received hw w0 Buffer0 n s' w' /\ snd (fst s') = 0.
Proof.
  intros Hn s w s' w' HI H.
  eapply (While_invariant (received hw w0 Buffer0 n)) in H; [| | | exact HI].
  - destruct H as (HI' & w1 & _ & Hc). split; [exact HI'|].
    destruct s' as [[R' N'] B']. unfold ReadLoopTest, ret in Hc.
    injection Hc as Hc _. apply negb_false_iff, Z.eqb_eq in Hc. exact Hc.
  - intros [[R1 N1] B1] w1 b w2 HI1 Hc. unfold ReadLoopTest, ret in Hc.
    injection Hc as _ <-. exact HI1.
  - intros [[R1 N1] B1] w1 w2 s2 w3 HI1 Hc Hb.
    unfold ReadLoopTest, ret in Hc. injection Hc as Hc <-.
    apply negb_true_iff, Z.eqb_neq in Hc.
    apply ReadLoopBody_Ret in Hb as (w4 & Hwait & -> & ->).
    destruct HI1 as (i & HR & HN & Hpos & HB & evs & Ht & Hlen & Hmem & Hrest).
    simpl in HR, HN, Hpos, HB. simpl fst. simpl snd.
    apply ReadWait_no_rx in Hwait. destruct Hwait as [(e1 & T1 & F1) R1'].
    unfold same_ram in R1'.
    destruct (trace_rts_cleared w4 Base Mcr) as (e2 & T2 & F2 & R2).
    set (w5 := rts_cleared pcd hw w4 Base Mcr) in *.
    set (v := read_value pcd hw w5 Base R_UART_RXBUF).
    exists (S i). simpl fst. simpl snd.
    rewrite u64_small by lia. rewrite u64_small by lia.
    repeat split; try lia.
    exists (evs ++ e1 ++ e2 ++ [RegRead R_UART_RXBUF v]).
    assert (Hrx : rx_reads (evs ++ e1 ++ e2 ++ [RegRead R_UART_RXBUF v])
                  = rx_reads evs ++ [v]).
    { rewrite !rx_reads_app, (rx_reads_none e1 F1), F2. reflexivity. }
    rewrite Hrx.
    assert (Hram : forall x,
               ram (machine (stored hw (after_read pcd hw w5 Base R_UART_RXBUF) B1 v)) x
               = if x =? B1 then v else ram (machine w1) x).
    { intros x. simpl. destruct (x =? B1); [reflexivity|].
      fold w5. rewrite R2, R1'. reflexivity. }
    split; [|split; [|split]].
    + change (trace (machine (stored hw (after_read pcd hw w5 Base R_UART_RXBUF) B1 v)))
        with (trace (machine w5) ++ [RegRead R_UART_RXBUF v]).
      rewrite T2, T1, Ht. rewrite <- !app_assoc. reflexivity.
    + rewrite length_app, Hlen. simpl. lia.
    + intros j Hj. rewrite Hram.
      destruct (Z.eqb_spec (Buffer0 + Z.of_nat j) B1) as [E|E].
      * assert (j = i) by lia. subst j.
        rewrite app_nth2 by lia. rewrite Hlen, Nat.sub_diag. reflexivity.
      * rewrite app_nth1 by lia. apply Hmem. lia.
    + intros x Hx. rewrite Hram.
      destruct (Z.eqb_spec x B1) as [E|E]; [lia|].
      apply Hrest. lia.
Qed.

Lemma ReadLoop_terminates K F Base Mcr :
  Base = MINI_UART_REGISTER_BASE plat ->
  data_within pcd plat hw K -> (K <= F)%nat ->
  forall (m : nat) R N B (w : World hw) (f : nat),
    0 <= N <= Z.of_nat m -> N < 2 ^ 64 -> (m < f)%nat ->
    exists s' w',
      While f (ReadLoopTest hw) (ReadLoopBody pcd hw F Base Mcr) (R, N, B) w
      = Ret (s', w').
Proof.
  intros -> Hlive HK. induction m as [|m IH]; intros R N B w f HN H64 Hf;
    (destruct f as [|f]; [lia|]); rewrite While_S;
    unfold ReadLoopTest at 1; unfold bind at 1; unfold ret at 1;
    destruct (negb (N =? 0)) eqn:Hb.
  - apply negb_true_iff, Z.eqb_neq in Hb. lia.
  - eexists. eexists. reflexivity.
  - apply negb_true_iff, Z.eqb_neq in Hb.
    destruct (Hlive Mcr w) as (w1 & Hw).
    apply (While_fuel_mono _ _ _ _ _ _ Hw F) in HK.
    erewrite bind_run by (apply ReadLoopBody_run; exact HK).
    rewrite (u64_small (N - 1)) by lia.
    apply IH; lia.
  - eexists. eexists. reflexivity.
Qed.

(** X8: on the mini-UART path with a non-null buffer, every call of
    SerialPortRead that returns gives back [NumberOfBytes]; it took exactly
    [NumberOfBytes] bytes from the receive-buffer register and stored them in
    order at [Buffer], [Buffer + 1], ...; memory outside the buffer is as
    before.  When the receiver is live (each wait for data ends within a
    bounded number of polls), the call does return. *)
Theorem Read_stores_received_bytes (Buffer NumberOfBytes : Z) (w : World hw) :
  UsePl011Uart w = false ->
  Buffer <> NULL ->
  0 <= NumberOfBytes < 2 ^ 64 ->
  (forall fuel r w',
      SerialPortRead pcd plat hw pl011 fuel Buffer NumberOfBytes w = Ret (r, w') ->
      r = NumberOfBytes /\
      length (rx_reads (events_since w w')) = Z.to_nat NumberOfBytes /\
      (forall j, (j < Z.to_nat NumberOfBytes)%nat ->
                 ram (machine w') (Buffer + Z.of_nat j)
                 = nth j (rx_reads (events_since w w')) 0) /\
      (forall x, ~ (Buffer <= x < Buffer + NumberOfBytes) ->
                 ram (machine w') x = ram (machine w) x)) /\
  (forall K,
      data_within pcd plat hw K ->
      exists fuel w',
        SerialPortRead pcd plat hw pl011 fuel Buffer NumberOfBytes w
        = Ret (NumberOfBytes, w')).
Proof.
  intros Hm Hb Hn.
  set (base := MINI_UART_REGISTER_BASE plat).
  set (w0 := after_read pcd hw w base R_UART_MCR).
  assert (Hstart : received hw w0 Buffer NumberOfBytes (0, NumberOfBytes, Buffer) w0).
  { exists 0%nat. simpl. repeat split; try lia.
    exists []. rewrite app_nil_r.
    split; [reflexivity|]. split; [reflexivity|].
    split; [intros j Hj; lia | intros; reflexivity]. }
  assert (Hrun : forall fuel r w',
             SerialPortRead pcd plat hw pl011 fuel Buffer NumberOfBytes w = Ret (r, w') ->
             r = NumberOfBytes /\
             exists s', received hw w0 Buffer NumberOfBytes s' w' /\
                        fst (fst s') = r /\ snd (fst s') = 0).
  { intros fuel r w' H.
    rewrite (Read_mini_run fuel _ _ w Hm Hb) in H. cbv zeta in H.
    apply bind_Ret in H as (s' & w1 & H1 & H).
    unfold ret in H. injection H as Hr Hw'. subst r w1.
    apply (received_ReadLoop _ _ _ _ w0 Buffer NumberOfBytes (proj2 Hn)
                             _ _ _ _ Hstart) in H1.
    destruct H1 as [HI HN]. split; [|exists s'; auto].
    destruct HI as (i & HR & HN' & _). lia. }
  split.
  - intros fuel r w' H. destruct (Hrun fuel r w' H) as (Hr & s' & HI & _ & HN).
    split; [exact Hr|].
    destruct HI as (i & HR & HN' & _ & _ & evs & Ht & Hlen & Hmem & Hrest).
    assert (Hi : i = Z.to_nat NumberOfBytes) by lia.
    erewrite events_since_app
      by (rewrite Ht; unfold w0; rewrite trace_after_read, <- app_assoc;
          reflexivity).
    change (rx_reads ([RegRead R_UART_MCR (read_value pcd hw w base R_UART_MCR)] ++ evs))
      with (rx_reads evs).
    split; [congruence|]. split.
    + intros j Hj. apply Hmem. lia.
    + intros x Hx. rewrite Hrest by lia. reflexivity.
  - intros K Hlive.
    set (F := S (K + Z.to_nat NumberOfBytes)).
    destruct (ReadLoop_terminates K F base
                (u8 (Z.land (read_value pcd hw w base R_UART_MCR)
                            (Z.lnot B_UART_MCR_RTS)))
                eq_refl Hlive ltac:(unfold F; lia)
                (Z.to_nat NumberOfBytes) 0 NumberOfBytes Buffer w0 F
                ltac:(lia) ltac:(lia) ltac:(unfold F; lia))
      as (s' & w' & Hloop).
    assert (H : SerialPortRead pcd plat hw pl011 F Buffer NumberOfBytes w
                = Ret (fst (fst s'), w')).
    { rewrite (Read_mini_run F _ _ w Hm Hb). cbv zeta.
      fold base. fold w0. erewrite bind_run by exact Hloop. reflexivity. }
    destruct (Hrun F _ _ H) as (Hr & _).
    exists F, w'. rewrite H, Hr. reflexivity.
Qed.

Lemma ReadWait_protocol fuel Base mcr :
  0 <= mcr < 256 ->
  respects (emits (receive_event
                     (PcdGetBool pcd PcdSerialUseHardwareFlowControl) mcr))
           (ReadWait pcd hw fuel Base (u8 (Z.land mcr (Z.lnot B_UART_MCR_RTS)))).
Proof.
  intros Hm. unfold ReadWait, ReadWaitTest, ReadWaitBody.
  apply respects_While; [auto with runs | intros [] | intros []].
  - apply respects_bind; [auto with runs | | intros; apply respects_ret; auto with runs].
    apply emits_ReadRegister. intros v. left. reflexivity.
  - destruct (PcdGetBool pcd PcdSerialUseHardwareFlowControl);
      [|apply respects_ret; auto with runs].
    apply respects_bind; [auto with runs | | intros; apply respects_ret; auto with runs].
    apply emits_WriteRegister.
    split; [reflexivity|]. split; [reflexivity|].
    right. apply set_after_clear_rts_byte. exact Hm.
Qed.

Lemma ReadLoopBody_protocol fuel Base mcr s :
  0 <= mcr < 256 ->
  respects (emits (receive_event
                     (PcdGetBool pcd PcdSerialUseHardwareFlowControl) mcr))
           (ReadLoopBody pcd hw fuel Base
                         (u8 (Z.land mcr (Z.lnot B_UART_MCR_RTS))) s).
Proof.
  intros Hm. destruct s as [[Result N] Buffer]. unfold ReadLoopBody. cbv zeta.
  apply respects_bind; [auto with runs | apply ReadWait_protocol; exact Hm | intros _].
  apply respects_bind; [auto with runs | | intros _].
  - destruct (PcdGetBool pcd PcdSerialUseHardwareFlowControl);
      [|apply respects_ret; auto with runs].
    apply respects_bind; [auto with runs | | intros; apply respects_ret; auto with runs].
    apply emits_WriteRegister.
    split; [reflexivity|]. split; [reflexivity|].
    left. apply clear_rts_byte. exact Hm.
  - apply respects_bind; [auto with runs | | intros v].
    + apply emits_ReadRegister. intros v. right. reflexivity.
    + apply respects_bind; [auto with runs | auto with runs | intros _].
      apply respects_ret; auto with runs.
Qed.

(** X9: the register traffic of SerialPortRead on the mini-UART path.  A call
    with a non-null buffer first reads the modem-control register; after
    that it only reads the line-status and the receive-buffer registers and,
    when hardware flow control is configured, writes the modem-control value
    back with RTS cleared or set, every other bit as read.  Without hardware
    flow control it writes no register at all.  It never probes the GPIO
    function select, and leaves the detection flags alone. *)
Theorem Read_register_traffic (fuel : nat) (Buffer NumberOfBytes r : Z)
        (w w' : World hw) :
  UsePl011Uart w = false ->
  Buffer <> NULL ->
  SerialPortRead pcd plat hw pl011 fuel Buffer NumberOfBytes w = Ret (r, w') ->
  let mcr := read_value pcd hw w (MINI_UART_REGISTER_BASE plat) R_UART_MCR in
  exists evs,
    events_since w w' = RegRead R_UART_MCR mcr :: evs /\
    Forall (receive_event (PcdGetBool pcd PcdSerialUseHardwareFlowControl) mcr)
           evs /\
    (PcdGetBool pcd PcdSerialUseHardwareFlowControl = false ->
     reg_writes (events_since w w') = []) /\
    same_flags w w'.
Proof.
  intros Hm Hb H mcr.
  rewrite (Read_mini_run fuel _ _ w Hm Hb) in H. cbv zeta in H.
  apply bind_Ret in H as (s' & w1 & H1 & H).
  unfold ret in H. injection H as _ Hw'. subst w1.
  assert (Hmcr : 0 <= mcr < 256) by apply read_value_range.
  pose proof H1 as H2.
  apply (respects_While
           (emits (receive_event
                     (PcdGetBool pcd PcdSerialUseHardwareFlowControl) mcr)))
    in H1.
  - destruct H1 as (evs & Ht & Hev).
    rewrite trace_after_read in Ht. rewrite <- app_assoc in Ht.
    exists evs. rewrite (events_since_app _ _ _ Ht).
    split; [reflexivity|]. split; [exact Hev|]. split.
    + intros Hflow. rewrite Hflow in Hev. simpl.
      apply reg_writes_reads. revert Hev. apply Forall_impl.
      intros [o v|o v|a v]; simpl; auto. intros [? _]. discriminate.
    + apply (respects_While same_flags) in H2.
      * destruct H2 as [A B]. split; [rewrite A | rewrite B]; reflexivity.
      * auto with runs.
      * intros [[R1 N1] B1]. unfold ReadLoopTest. repeat respects_step.
      * intros [[R1 N1] B1].
        unfold ReadLoopBody, ReadWait, ReadWaitTest, ReadWaitBody.
        repeat respects_step.
  - auto with runs.
  - intros [[R1 N1] B1]. unfold ReadLoopTest. apply respects_ret. auto with runs.
  - intros s. apply ReadLoopBody_protocol. exact Hmcr.
Qed.

(** ** SerialPortInitialize on the mini-UART path *)

Lemma ram_detected (w : World hw) :
  ram (machine (detected plat hw w)) = ram (machine w).
Proof. unfold detected. destruct (UsePl011UartSet w); reflexivity. Qed.

Lemma ram_GetDivisor B (w w1 : World hw) Divisor :
  SerialPortGetDivisor pcd plat hw B w = Ret (Divisor, w1) ->
  ram (machine w1) = ram (machine w).
Proof.
  pose proof (GetDivisor_run pcd plat hw B w) as H. cbv zeta in H. rewrite H.
  destruct (u32 (B * 16) =? 0); [discriminate|].
  intros E. inversion E; subst. reflexivity.
Qed.

Lemma reg_writes_check_world (w : World hw) :
  exists evs l2 l3,
    trace (machine (check_world pcd plat hw w)) = trace (machine w) ++ evs /\
    reg_writes evs
    = [(R_UART_LCR, u8 (Z.lor l2 B_UART_LCR_DLAB));
       (R_UART_LCR, u8 (Z.land l3 (Z.lnot B_UART_LCR_DLAB)))].
Proof.
  destruct (trace_check_world pcd plat hw w) as (l1 & l2 & hi & lo & l3 & Ht & _).
  eexists. exists l2, l3. split; [exact Ht | reflexivity].
Qed.


(** ** SerialPortWrite and the depth of the transmit FIFO *)

Lemma TransmitterBusy_room size fuel Base :
  forall w w1 : World hw,
    SpinWhile fuel (TransmitterBusy pcd hw Base) w = Ret (tt, w1) ->
    exists evs,
      trace (machine w1) = trace (machine w) ++ evs /\
      forall room, fifo_room size room evs = Some size.
Proof.
  induction fuel as [|fuel IH]; intros w w1 H; [discriminate|].
  unfold SpinWhile in H. rewrite While_S in H.
  erewrite bind_run in H by apply TransmitterBusy_run.
  destruct (Z.land (read_value pcd hw w Base R_UART_LSR) _ =? _) eqn:E;
    cbn [negb] in H.
  - unfold ret in H. injection H as <-.
    exists [RegRead R_UART_LSR (read_value pcd hw w Base R_UART_LSR)].
    split; [apply trace_after_read|].
    intros room. cbn [fifo_room]. rewrite E. reflexivity.
  - erewrite bind_run in H by reflexivity.
    apply IH in H as (evs & T & R).
    exists (RegRead R_UART_LSR (read_value pcd hw w Base R_UART_LSR) :: evs).
    split; [rewrite T, trace_after_read, <- app_assoc; reflexivity|].
    intros room. cbn [fifo_room]. rewrite E. apply R.
Qed.

Lemma neutral_NotWritable Base :
  respects (emits fifo_neutral) (NotWritable pcd hw Base).
Proof.
  unfold NotWritable, SerialPortWritable, PcdGetBool.
  repeat respects_step; unfold R_UART_MSR, R_UART_LSR; discriminate.
Qed.

Lemma TxFifoSize_range : 0 <= TxFifoSize pcd < 2 ^ 32.
Proof.
  unfold TxFifoSize.
  destruct (negb _); [|lia].
  destruct (_ =? 0); [lia|]. apply u32_range.
Qed.

Lemma room_FillFifo fuel Base size (w0 : World hw) :
  0 <= size < 2 ^ 64 ->
  forall s w s' w',
    0 <= fst (fst s) ->
    fifo_ok w0 size (fun room => size - fst (fst s) <= room /\ 0 <= room <= size) w ->
    WriteFillFifo pcd hw fuel Base size s w = Ret (s', w') ->
    fifo_ok w0 size (fun room => 0 <= room <= size) w'.
Proof.
  intros Hsize s w s' w' H0 HI H. unfold WriteFillFifo in H.
  eapply (While_invariant
            (fun s w => 0 <= fst (fst s) /\
                        fifo_ok w0 size
                                (fun room => size - fst (fst s) <= room /\
                                             0 <= room <= size) w))
    in H; [| | | split; [exact H0 | exact HI]].
  - destruct H as [[_ (evs & room & T & R & _ & HP)] _]. exists evs, room. auto.
  - intros [[Index N] B] w1 b w2 HI1 Hc. unfold WriteFillFifoTest, ret in Hc.
    injection Hc as _ <-. exact HI1.
  - intros [[Index N] B] w1 w2 s2 w3 [Hpos HI1] Hc Hb. simpl in Hpos, HI1.
    unfold WriteFillFifoTest, ret in Hc. injection Hc as Hc <-.
    apply andb_true_iff in Hc as [Hc _]. apply Z.ltb_lt in Hc.
    unfold WriteFillFifoBody in Hb.
    apply bind_Ret in Hb as ([] & w4 & Hspin & Hb).
    apply (respects_SpinWhile (emits fifo_neutral)) in Hspin;
      [|apply emits_preorder | apply neutral_NotWritable].
    destruct Hspin as (e1 & T1 & F1).
    apply bind_Ret in Hb as (b & w5 & Hload & Hb).
    unfold load8 in Hload. injection Hload as <- <-.
    apply bind_Ret in Hb as (v & w6 & Hwr & Hb).
    rewrite SerialPortWriteRegister_run in Hwr. injection Hwr as <- <-.
    unfold ret in Hb. injection Hb as <- <-.
    assert (E : u64 (Index + 1) = Index + 1) by (apply u64_small; lia).
    cbn [fst snd]. rewrite E. split; [lia|].
    eapply (fifo_ok_step _ _ _ _ _ _
              (e1 ++ [RegWrite R_UART_TXBUF (u8 (ram (machine w4) B))])
              HI1).
    + rewrite trace_after_write, T1, app_assoc. reflexivity.
    + intros room Hroom. exists (room - 1).
      rewrite fifo_room_app, (fifo_room_neutral _ _ _ F1).
      cbn [fifo_room].
      assert (Hr : (0 <? room) = true) by (apply Z.ltb_lt; lia).
      change (R_UART_TXBUF =? R_UART_TXBUF) with true. cbv iota.
      rewrite Hr. split; [reflexivity | lia].
Qed.

Lemma room_WriteLoop fuel Base size (w0 : World hw) :
  0 <= size < 2 ^ 64 ->
  forall s w s' w',
    fifo_ok w0 size (fun room => 0 <= room <= size) w ->
    WriteLoop pcd hw fuel Base size s w = Ret (s', w') ->
    fifo_ok w0 size (fun room => 0 <= room <= size) w'.
Proof.
  intros Hsize s w s' w' HI H. unfold WriteLoop in H.
  eapply (While_invariant
            (fun _ w => fifo_ok w0 size (fun room => 0 <= room <= size) w)) in H;
    [exact (proj1 H) | | | exact HI].
  - intros [N B] w1 b w2 HI1 Hc. unfold WriteLoopTest, ret in Hc.
    injection Hc as _ <-. exact HI1.
  - intros [N B] w1 w2 s2 w3 HI1 Hc Hb.
    unfold WriteLoopTest, ret in Hc. injection Hc as _ <-.
    unfold WriteLoopBody in Hb.
    apply bind_Ret in Hb as ([] & w4 & Hspin & Hb).
    apply (TransmitterBusy_room size) in Hspin as (e1 & T1 & R1).
    apply bind_Ret in Hb as ([[Index N1] B1] & w5 & Hfill & Hb).
    unfold ret in Hb. injection Hb as _ <-.
    eapply (room_FillFifo fuel Base size w0 Hsize (0, N, B)); [| |exact Hfill].
    + simpl. lia.
    + eapply (fifo_ok_step _ _ _ _ _ _ e1 HI1 T1).
      intros room _. exists size. split; [apply R1 | simpl; lia].
Qed.

(** X11: SerialPortWrite never writes a byte into a transmit FIFO it has not
    seen to have room.  On the mini-UART path, along every call that returns,
    each write of the transmit-buffer register comes after a line-status read
    that showed the transmitter empty (TEMT and TXRDY set), with fewer than
    the FIFO depth of lines 362-369 bytes written since that read. *)
Theorem Write_respects_fifo_depth (fuel : nat) (Buffer NumberOfBytes r : Z)
        (w w' : World hw) :
  UsePl011Uart (detected plat hw w) = false ->
  Buffer <> NULL ->
  SerialPortWrite pcd plat hw pl011 fuel Buffer NumberOfBytes w = Ret (r, w') ->
  exists room,
    fifo_room (TxFifoSize pcd) 0 (events_since w w') = Some room /\
    0 <= room <= TxFifoSize pcd.
Proof.
  intros Hm Hb H.
  assert (Hstart : fifo_ok w (TxFifoSize pcd) (fun room => 0 <= room <= TxFifoSize pcd)
                          (detected plat hw w)).
  { eexists. exists 0. split; [apply trace_detected|].
    pose proof TxFifoSize_range.
    split; [destruct (UsePl011UartSet w); reflexivity | lia]. }
  cut (fifo_ok w (TxFifoSize pcd) (fun room => 0 <= room <= TxFifoSize pcd) w').
  { intros (evs & room & T & R & HP). exists room.
    rewrite (events_since_app _ _ _ T). split; assumption. }
  rewrite (Write_mini_run pcd plat hw pl011 fuel _ _ w Hm Hb) in H.
  destruct (NumberOfBytes =? 0).
  - apply bind_Ret in H as ([] & w1 & H1 & H).
    apply bind_Ret in H as ([] & w2 & H2 & H).
    unfold ret in H. injection H as _ <-.
    apply (TransmitterBusy_room (TxFifoSize pcd)) in H1 as (e1 & T1 & R1).
    apply (respects_SpinWhile (emits fifo_neutral)) in H2;
      [|apply emits_preorder | apply neutral_NotWritable].
    destruct H2 as (e2 & T2 & F2).
    eapply (fifo_ok_step _ _ _ _ _ _ (e1 ++ e2) Hstart).
    + rewrite T2, T1, app_assoc. reflexivity.
    + intros room _. exists (TxFifoSize pcd).
      rewrite fifo_room_app, R1, (fifo_room_neutral _ _ _ F2).
      pose proof TxFifoSize_range. split; [reflexivity | lia].
  - apply bind_Ret in H as (s' & w1 & H1 & H).
    unfold ret in H. injection H as _ <-.
    pose proof TxFifoSize_range as Hsize.
    eapply (room_WriteLoop fuel _ (TxFifoSize pcd) w); [lia| |exact H1].
    exact Hstart.
Qed.

(** ** SerialPortRead takes a byte only when one is ready *)

Lemma ReadWait_ready fuel Base Mcr :
  forall w w1 : World hw,
    ReadWait pcd hw fuel Base Mcr w = Ret (tt, w1) ->
    exists evs,
      trace (machine w1) = trace (machine w) ++ evs /\
      forall st, monitor rx_step st evs = Some true.
Proof.
  induction fuel as [|fuel IH]; intros w w1 H; [discriminate|].
  unfold ReadWait in H. rewrite While_S in H.
  unfold ReadWaitTest at 1 in H.
  erewrite bind_run in H
    by (erewrite bind_run by apply SerialPortReadRegister_run; reflexivity).
  set (lsr := read_value pcd hw w Base R_UART_LSR) in *.
  destruct (Z.land lsr B_UART_LSR_RXRDY =? 0) eqn:E.
  - unfold ReadWaitBody at 1 in H.
    destruct (PcdGetBool pcd PcdSerialUseHardwareFlowControl).
    + erewrite bind_run in H
        by (erewrite bind_run by apply SerialPortWriteRegister_run; reflexivity).
      apply IH in H as (evs & T & R).
      exists (RegRead R_UART_LSR lsr
              :: RegWrite R_UART_MCR (u8 (Z.lor Mcr B_UART_MCR_RTS)) :: evs).
      split; [rewrite T, trace_after_write, trace_after_read, <- !app_assoc;
              reflexivity|].
      intros st. apply R.
    + erewrite bind_run in H by reflexivity.
      apply IH in H as (evs & T & R).
      exists (RegRead R_UART_LSR lsr :: evs).
      split; [rewrite T, trace_after_read, <- app_assoc; reflexivity|].
      intros st. apply R.
  - unfold ret in H. injection H as <-.
    exists [RegRead R_UART_LSR lsr].
    split; [apply trace_after_read|].
    intros st. cbn [monitor rx_step].
    change (R_UART_LSR =? R_UART_LSR) with true. cbv iota.
    fold lsr. rewrite E. reflexivity.
Qed.

Lemma rts_cleared_keeps (w : World hw) Base Mcr :
  exists evs,
    trace (machine (rts_cleared pcd hw w Base Mcr)) = trace (machine w) ++ evs /\
    forall st, monitor rx_step st evs = Some st.
Proof.
  unfold rts_cleared. destruct (PcdGetBool pcd PcdSerialUseHardwareFlowControl).
  - exists [RegWrite R_UART_MCR Mcr]. split; reflexivity.
  - exists []. rewrite app_nil_r. split; reflexivity.
Qed.

(** X12: SerialPortRead takes a byte from the receive buffer only when one is
    there.  On the mini-UART path, along every call that returns, each read
    of the receive-buffer register comes after a read of the line-status
    register that showed RXRDY, with no other read of the receive buffer in
    between. *)
Theorem Read_takes_only_ready_bytes (fuel : nat) (Buffer NumberOfBytes r : Z)
        (w w' : World hw) :
  UsePl011Uart w = false ->
  Buffer <> NULL ->
  SerialPortRead pcd plat hw pl011 fuel Buffer NumberOfBytes w = Ret (r, w') ->
  exists ready, monitor rx_step false (events_since w w') = Some ready.
Proof.
  intros Hm Hb H.
  cut (monitored rx_step false w (fun _ => True) w').
  { intros (evs & st & T & R & _). exists st.
    rewrite (events_since_app _ _ _ T). exact R. }
  rewrite (Read_mini_run fuel _ _ w Hm Hb) in H. cbv zeta in H.
  apply bind_Ret in H as (s' & w1 & H1 & H).
  unfold ret in H. injection H as _ <-.
  eapply (While_invariant (fun _ x => monitored rx_step false w (fun _ => True) x))
    in H1; [exact (proj1 H1) | | |].
  - intros [[R1 N1] B1] w2 b w3 HI Hc. unfold ReadLoopTest, ret in Hc.
    injection Hc as _ <-. exact HI.
  - intros s w2 w3 s2 w4 HI Hc Hbody.
    destruct s as [[R1 N1] B1]. unfold ReadLoopTest, ret in Hc.
    injection Hc as _ <-.
    apply ReadLoopBody_Ret in Hbody as (w5 & Hwait & _ & ->).
    apply ReadWait_ready in Hwait as (e1 & T1 & M1).
    match goal with
    | |- context [rts_cleared pcd hw w5 ?b ?m] =>
        destruct (rts_cleared_keeps w5 b m) as (e2 & T2 & M2);
        set (w6 := rts_cleared pcd hw w5 b m) in *
    end.
    eapply (monitored_step _ _ _ _ _ _ _
              (e1 ++ e2 ++ [RegRead R_UART_RXBUF
                                    (read_value pcd hw w6 _ R_UART_RXBUF)]) HI).
    + change (trace (machine (stored hw (after_read pcd hw w6 ?b R_UART_RXBUF) ?a ?v)))
        with (trace (machine (after_read pcd hw w6 b R_UART_RXBUF))).
      rewrite trace_after_read, T2, T1, <- !app_assoc. reflexivity.
    + intros st _. exists false. split; [|exact I].
      rewrite monitor_app, M1, monitor_app, M2. reflexivity.
  - exists [RegRead R_UART_MCR
                    (read_value pcd hw w (MINI_UART_REGISTER_BASE plat) R_UART_MCR)],
      false.
    split; [apply trace_after_read|]. split; [reflexivity | exact I].
Qed.

(** ** SerialPortWrite under hardware flow control *)

Lemma NotWritable_open fuel Base :
  PcdGetBool pcd PcdSerialUseHardwareFlowControl = true ->
  forall w w1 : World hw,
    SpinWhile fuel (NotWritable pcd hw Base) w = Ret (tt, w1) ->
    exists evs,
      trace (machine w1) = trace (machine w) ++ evs /\
      forall st,
        monitor (tx_step (PcdGetBool pcd PcdSerialDetectCable)) st evs
        = Some true.
Proof.
  intros Hflow. induction fuel as [|fuel IH]; intros w w1 H; [discriminate|].
  unfold SpinWhile in H. rewrite While_S in H.
  erewrite bind_run in H by (apply NotWritable_run; exact Hflow).
  set (msr := read_value pcd hw w Base R_UART_MSR) in *.
  destruct (clear_to_send _ msr) eqn:E; cbn [negb] in H.
  - unfold ret in H. injection H as <-.
    exists [RegRead R_UART_MSR msr]. split; [apply trace_after_read|].
    intros st. cbn [monitor tx_step].
    change (R_UART_MSR =? R_UART_MSR) with true. cbv iota.
    rewrite E. reflexivity.
  - erewrite bind_run in H by reflexivity.
    apply IH in H as (evs & T & R).
    exists (RegRead R_UART_MSR msr :: evs).
    split; [rewrite T, trace_after_read, <- app_assoc; reflexivity|].
    intros st. apply R.
Qed.

Lemma gate_FillFifo fuel Base size (w0 : World hw) :
  PcdGetBool pcd PcdSerialUseHardwareFlowControl = true ->
  let step := tx_step (PcdGetBool pcd PcdSerialDetectCable) in
  forall s w s' w',
    monitored step false w0 (fun _ => True) w ->
    WriteFillFifo pcd hw fuel Base size s w = Ret (s', w') ->
    monitored step false w0 (fun _ => True) w'.
Proof.
  intros Hflow step s w s' w' HI H. unfold WriteFillFifo in H.
  eapply (While_invariant (fun _ w => monitored step false w0 (fun _ => True) w))
    in H; [exact (proj1 H) | | | exact HI].
  - intros [[Index N] B] w1 b w2 HI1 Hc. unfold WriteFillFifoTest, ret in Hc.
    injection Hc as _ <-. exact HI1.
  - intros [[Index N] B] w1 w2 s2 w3 HI1 Hc Hb.
    unfold WriteFillFifoTest, ret in Hc. injection Hc as _ <-.
    unfold WriteFillFifoBody in Hb.
    apply bind_Ret in Hb as ([] & w4 & Hspin & Hb).
    apply (NotWritable_open _ _ Hflow) in Hspin as (e1 & T1 & M1).
    apply bind_Ret in Hb as (b & w5 & Hload & Hb).
    unfold load8 in Hload. injection Hload as <- <-.
    apply bind_Ret in Hb as (v & w6 & Hwr & Hb).
    rewrite SerialPortWriteRegister_run in Hwr. injection Hwr as <- <-.
    unfold ret in Hb. injection Hb as _ <-.
    eapply (monitored_step _ _ _ _ _ _ _
              (e1 ++ [RegWrite R_UART_TXBUF (u8 (ram (machine w4) B))]) HI1).
    + rewrite trace_after_write, T1, app_assoc. reflexivity.
    + intros st _. exists false. split; [|exact I].
      rewrite monitor_app. unfold step. rewrite M1. reflexivity.
Qed.

Lemma gate_WriteLoop fuel Base size (w0 : World hw) :
  PcdGetBool pcd PcdSerialUseHardwareFlowControl = true ->
  let step := tx_step (PcdGetBool pcd PcdSerialDetectCable) in
  forall s w s' w',
    monitored step false w0 (fun _ => True) w ->
    WriteLoop pcd hw fuel Base size s w = Ret (s', w') ->
    monitored step false w0 (fun _ => True) w'.
Proof.
  intros Hflow step s w s' w' HI H. unfold WriteLoop in H.
  eapply (While_invariant (fun _ w => monitored step false w0 (fun _ => True) w))
    in H; [exact (proj1 H) | | | exact HI].
  - intros [N B] w1 b w2 HI1 Hc. unfold WriteLoopTest, ret in Hc.
    injection Hc as _ <-. exact HI1.
  - intros [N B] w1 w2 s2 w3 HI1 Hc Hb.
    unfold WriteLoopTest, ret in Hc. injection Hc as _ <-.
    unfold WriteLoopBody in Hb.
    apply bind_Ret in Hb as ([] & w4 & Hspin & Hb).
    apply (respects_SpinWhile (emits is_read)) in Hspin;
      [|apply emits_preorder | apply reads_TransmitterBusy].
    destruct Hspin as (e1 & T1 & R1).
    apply bind_Ret in Hb as ([[Index N1] B1] & w5 & Hfill & Hb).
    unfold ret in Hb. injection Hb as _ <-.
    eapply (gate_FillFifo fuel Base size w0 Hflow); [|exact Hfill].
    eapply (monitored_step _ _ _ _ _ _ _ e1 HI1 T1).
    intros st _.
    destruct (tx_step_reads (PcdGetBool pcd PcdSerialDetectCable) e1 R1 st)
      as (st' & Hst).
    exists st'. split; [exact Hst | exact I].
Qed.

(** X13: under hardware flow control, SerialPortWrite sends a byte only when
    the peer allows it.  On the mini-UART path, along every call that
    returns, each write of the transmit-buffer register is the next register
    access after a read of the modem-status register whose DSR and CTS bits
    allow sending (both set with cable detection; not DSR-without-CTS
    otherwise). *)
Theorem Write_waits_for_clear_to_send (fuel : nat) (Buffer NumberOfBytes r : Z)
        (w w' : World hw) :
  PcdGetBool pcd PcdSerialUseHardwareFlowControl = true ->
  UsePl011Uart (detected plat hw w) = false ->
  Buffer <> NULL ->
  SerialPortWrite pcd plat hw pl011 fuel Buffer NumberOfBytes w = Ret (r, w') ->
  exists open,
    monitor (tx_step (PcdGetBool pcd PcdSerialDetectCable)) false
            (events_since w w') = Some open.
Proof.
  intros Hflow Hm Hb H.
  set (step := tx_step (PcdGetBool pcd PcdSerialDetectCable)).
  assert (Hstart : monitored step false w (fun _ => True) (detected plat hw w)).
  { eexists. exists false. split; [apply trace_detected|].
    split; [destruct (UsePl011UartSet w); reflexivity | exact I]. }
  cut (monitored step false w (fun _ => True) w').
  { intros (evs & st & T & R & _). exists st.
    rewrite (events_since_app _ _ _ T). exact R. }
  rewrite (Write_mini_run pcd plat hw pl011 fuel _ _ w Hm Hb) in H.
  destruct (NumberOfBytes =? 0).
  - apply bind_Ret in H as ([] & w1 & H1 & H).
    apply bind_Ret in H as ([] & w2 & H2 & H).
    unfold ret in H. injection H as _ <-.
    apply (respects_SpinWhile (emits is_read)) in H1;
      [|apply emits_preorder | apply reads_TransmitterBusy].
    destruct H1 as (e1 & T1 & R1).
    apply (NotWritable_open _ _ Hflow) in H2 as (e2 & T2 & M2).
    eapply (monitored_step _ _ _ _ _ _ _ (e1 ++ e2) Hstart).
    + rewrite T2, T1, app_assoc. reflexivity.
    + intros st _. exists true. split; [|exact I].
      rewrite monitor_app.
      destruct (tx_step_reads (PcdGetBool pcd PcdSerialDetectCable) e1 R1 st)
        as (st' & Hst).
      unfold step. rewrite Hst. apply M2.
  - apply bind_Ret in H as (s' & w1 & H1 & H).
    unfold ret in H. injection H as _ <-.
    eapply (gate_WriteLoop fuel _ (TxFifoSize pcd) w Hflow); [|exact H1].
    exact Hstart.
Qed.

(** ** The baud rate is not validated *)


End Further.


(** * The further properties on the concrete boards *)

Lemma Sim_mcr_latched : mcr_latched Sim.config Sim.board Sim.hardware.
Proof.
  intros d v Hv.
  change (reg_address Sim.config (MINI_UART_REGISTER_BASE Sim.board) R_UART_MCR)
    with (Sim.uart_base + 16).
  change (reg_address Sim.config (MINI_UART_REGISTER_BASE Sim.board) R_UART_MSR)
    with (Sim.uart_base + 24).
  cbv zeta. apply u8_small in Hv. exact Hv.
Qed.

Lemma rts_set_bit Mcr : Z.testbit (u8 (Z.lor Mcr B_UART_MCR_RTS)) 1 = true.
Proof.
  unfold u8. change 256 with (2 ^ 8).
  rewrite Z.mod_pow2_bits_low by lia.
  rewrite Z.lor_spec. apply orb_true_r.
Qed.

(** The peer answers RTS at once: a wait for data takes two polls at most. *)
Lemma Lab_data_within : data_within Lab.flow_config Sim.board Lab.receiver 2.
Proof.
  intros Mcr [[[p n m] mem tr] f1 f2].
  unfold ReadWait. rewrite While_S. unfold ReadWaitTest at 1.
  erewrite bind_run
    by (erewrite bind_run by apply SerialPortReadRegister_run; reflexivity).
  destruct p.
  - eexists. reflexivity.
  - change (Z.land _ B_UART_LSR_RXRDY =? 0) with true. cbv iota.
    unfold ReadWaitBody at 1.
    change (PcdGetBool Lab.flow_config PcdSerialUseHardwareFlowControl) with true.
    cbv iota.
    erewrite bind_run
      by (erewrite bind_run by apply SerialPortWriteRegister_run; reflexivity).
    rewrite While_S. unfold ReadWaitTest at 1.
    erewrite bind_run
      by (erewrite bind_run by apply SerialPortReadRegister_run; reflexivity).
    match goal with
    | |- context [Z.land ?x B_UART_LSR_RXRDY =? 0] =>
        assert (E : x = 0x61)
    end.
    { unfold read_value, after_write, after_read.
      change (reg_address Lab.flow_config (MINI_UART_REGISTER_BASE Sim.board) R_UART_LSR)
        with (Sim.uart_base + 20).
      change (reg_address Lab.flow_config (MINI_UART_REGISTER_BASE Sim.board) R_UART_MCR)
        with (Sim.uart_base + 16).
      cbn [machine dev with_machine log_event with_dev mmio_read8 mmio_write8
           Lab.receiver fst snd].
      unfold Lab.peer_read8, Lab.peer_write8.
      change (Sim.uart_base + 20 =? Sim.uart_base) with false.
      change (Sim.uart_base + 20 =? Sim.uart_base + 16) with false.
      change (Sim.uart_base + 20 =? Sim.uart_base + 20) with true.
      change (Sim.uart_base + 16 =? Sim.uart_base + 16) with true.
      cbv iota. cbn [fst snd Lab.pending orb].
      rewrite rts_set_bit. reflexivity. }
    rewrite E. eexists. reflexivity.
Qed.

(** X1, instance: after the first write has probed the board, Initialize
    leaves the two flags as they are. *)
Lemma detection_is_one_shot_witness :
  UsePl011UartSet Lab.probed = true /\
  exists w',
    SerialPortInitialize Sim.config Sim.board Sim.hardware Sim.pl011 1 Lab.probed
    = Ret (RETURN_SUCCESS, w') /\
    same_flags Lab.probed w'.
Proof.
  assert (Hset : UsePl011UartSet Lab.probed = true) by (vm_compute; reflexivity).
  split; [exact Hset|].
  assert (E : forall w',
             w' = final_world Lab.probed
                    (SerialPortInitialize Sim.config Sim.board Sim.hardware
                                          Sim.pl011 1 Lab.probed) ->
             SerialPortInitialize Sim.config Sim.board Sim.hardware Sim.pl011 1
                                  Lab.probed
             = Ret (RETURN_SUCCESS, w'))
    by (intros w' ->; vm_compute; reflexivity).
  eexists. split; [exact (E _ eq_refl)|].
  exact (proj1 (proj2 (detection_is_one_shot Sim.config Sim.board Sim.hardware
                         Sim.pl011 1 Lab.probed Hset))
               RETURN_SUCCESS _ (E _ eq_refl)).
Defined.



(** X4, instance: on the idle board both "buffer empty" bits are reported. *)
Lemma GetControl_reports_the_lines_witness :
  UsePl011Uart Sim.mini = false /\
  exists Control w',
    SerialPortGetControl Sim.config Sim.board Sim.hardware Sim.pl011 Sim.mini
    = Ret ((RETURN_SUCCESS, Control), w') /\
    events_since Sim.mini w'
    = [RegRead R_UART_MSR 0; RegRead R_UART_MCR 0; RegRead R_UART_LSR 0x60] /\
    Z.testbit Control 9 = true /\
    Z.testbit Control 8 = true.
Proof.
  split; [reflexivity|].
  destruct (GetControl_reports_the_lines Sim.config Sim.board Sim.hardware
              Sim.pl011 Sim.mini eq_refl)
    as (Control & w' & Hrun & Hev & _ & _ & _ & H9 & H8 & _).
  exists Control, w'. split; [exact Hrun|]. split; [exact Hev|].
  split; [exact H9 | exact H8].
Defined.

(** X5, instance: RTS set without DTR reads back so. *)
Lemma GetControl_after_SetControl_witness :
  UsePl011Uart Sim.mini = false /\
  mcr_latched Sim.config Sim.board Sim.hardware /\
  exists Control' w',
    bind (SerialPortSetControl Sim.config Sim.board Sim.hardware Sim.pl011
                               EFI_SERIAL_REQUEST_TO_SEND)
         (fun _ => SerialPortGetControl Sim.config Sim.board Sim.hardware Sim.pl011)
         Sim.mini
    = Ret ((RETURN_SUCCESS, Control'), w') /\
    Z.testbit Control' 0 = false /\
    Z.testbit Control' 1 = true.
Proof.
  split; [reflexivity|]. split; [exact Sim_mcr_latched|].
  exact (GetControl_after_SetControl Sim.config Sim.board Sim.hardware Sim.pl011
           EFI_SERIAL_REQUEST_TO_SEND Sim.mini eq_refl eq_refl Sim_mcr_latched).
Defined.

(** X6, instance: a baud rate of 0 comes back as the configured rate; the
    explicit 7 data bits, even parity and two stop bits come back as given. *)
Lemma SetAttributes_in_out_parameters_witness :
  UsePl011Uart Sim.mini = false /\
  exists st a' w',
    SerialPortSetAttributes Sim.config Sim.board Sim.hardware Sim.pl011
      (Board.attributes 0 EvenParity 7 TwoStopBits) Sim.mini
    = Ret ((st, a'), w') /\
    BaudRate a' = 115200 /\
    DataBits a' = 7 /\
    Parity a' = EvenParity /\
    StopBits a' = TwoStopBits.
Proof.
  split; [reflexivity|].
  destruct (SerialPortSetAttributes Sim.config Sim.board Sim.hardware Sim.pl011
              (Board.attributes 0 EvenParity 7 TwoStopBits) Sim.mini)
    as [[[st a'] w']| |] eqn:E; [|vm_compute in E; discriminate E..].
  exists st, a', w'. split; [reflexivity|].
  destruct (SetAttributes_in_out_parameters Sim.config Sim.board Sim.hardware
              Sim.pl011 _ a' st Sim.mini w' eq_refl E)
    as (_ & _ & Hbaud & Hdata & Hparity & Hstop).
  split; [exact Hbaud|].
  split; [apply Hdata; discriminate|].
  split; [apply Hparity; discriminate | apply Hstop; discriminate].
Defined.

(** X7, instance: 9600 baud, 7 data bits, even parity, two stop bits; the
    byte written is then taken as the configured default. *)
Lemma line_control_round_trip_witness :
  UsePl011Uart Sim.mini = false /\
  exists l w' b' w'',
    SerialPortSetAttributes Sim.config Sim.board Sim.hardware Sim.pl011
      (Board.attributes 9600 EvenParity 7 TwoStopBits) Sim.mini
    = Ret ((RETURN_SUCCESS, Board.attributes 9600 EvenParity 7 TwoStopBits), w') /\
    lcr_writes (events_since Sim.mini w') = [B_UART_LCR_DLAB; l] /\
    SerialPortSetAttributes (with_line_control Sim.config l) Sim.board Sim.hardware Sim.pl011 Sim.all_defaults Sim.mini
    = Ret ((RETURN_SUCCESS, b'), w'') /\
    lcr_writes (events_since Sim.mini w'') = [B_UART_LCR_DLAB; l] /\
    DataBits b' = 7 /\
    Parity b' = EvenParity /\
    StopBits b' = TwoStopBits.
Proof.
  split; [reflexivity|].
  destruct (SerialPortGetDivisor Sim.config Sim.board Sim.hardware 9600 Sim.mini) as [[D1 w1]| |] eqn:E1;
    [|vm_compute in E1; discriminate E1..].
  destruct (SerialPortGetDivisor Sim.config Sim.board Sim.hardware 115200 Sim.mini) as [[D2 w3]| |] eqn:E2;
    [|vm_compute in E2; discriminate E2..].
  assert (Hd : 5 <= 7 <= 8) by lia.
  assert (Hp : 1 <= EvenParity <= 5) by (unfold EvenParity; lia).
  assert (Hs : 1 <= TwoStopBits <= 3) by (unfold TwoStopBits; lia).
  exact (line_control_round_trip Sim.config Sim.board Sim.hardware Sim.pl011
           (Board.attributes 9600 EvenParity 7 TwoStopBits) Sim.all_defaults
           Sim.mini w1 Sim.mini w3 D1 D2
           eq_refl eq_refl Hd Hp Hs eq_refl eq_refl eq_refl E1 E2).
Defined.

(** X8, instance: two bytes from the peer land at 0x2000 and 0x2001. *)
Lemma Read_stores_received_bytes_witness :
  UsePl011Uart Lab.listening = false /\
  0x2000 <> NULL /\
  0 <= 2 < 2 ^ 64 /\
  data_within Lab.flow_config Sim.board Lab.receiver 2 /\
  exists fuel w',
    SerialPortRead Lab.flow_config Sim.board Lab.receiver Lab.receiver_pl011
                   fuel 0x2000 2 Lab.listening
    = Ret (2, w') /\
    length (rx_reads (events_since Lab.listening w')) = 2%nat /\
    ram (machine w') 0x2000 = nth 0 (rx_reads (events_since Lab.listening w')) 0 /\
    ram (machine w') 0x2001 = nth 1 (rx_reads (events_since Lab.listening w')) 0 /\
    ram (machine w') 0x2002 = 0.
Proof.
  assert (Hb : 0x2000 <> NULL) by discriminate.
  assert (Hn : 0 <= 2 < 2 ^ 64) by lia.
  split; [reflexivity|]. split; [exact Hb|]. split; [exact Hn|].
  split; [exact Lab_data_within|].
  destruct (Read_stores_received_bytes Lab.flow_config Sim.board Lab.receiver
              Lab.receiver_pl011 0x2000 2 Lab.listening eq_refl Hb Hn)
    as (Hpartial & Htotal).
  destruct (Htotal 2%nat Lab_data_within) as (fuel & w' & Hrun).
  exists fuel, w'. split; [exact Hrun|].
  destruct (Hpartial fuel 2 w' Hrun) as (_ & Hlen & Hmem & Hrest).
  split; [exact Hlen|].
  split; [exact (Hmem 0%nat ltac:(simpl; lia))|].
  split; [exact (Hmem 1%nat ltac:(simpl; lia))|].
  apply (Hrest 0x2002). lia.
Defined.

(** X9, instance: the traffic of the same read starts with the modem-control
    read, which gives 1 (DTR). *)
Lemma Read_register_traffic_witness :
  UsePl011Uart Lab.listening = false /\
  0x2000 <> NULL /\
  exists w' evs,
    SerialPortRead Lab.flow_config Sim.board Lab.receiver Lab.receiver_pl011
                   5 0x2000 2 Lab.listening
    = Ret (2, w') /\
    events_since Lab.listening w' = RegRead R_UART_MCR 1 :: evs /\
    Forall (receive_event true 1) evs /\
    same_flags Lab.listening w'.
Proof.
  assert (Hb : 0x2000 <> NULL) by discriminate.
  split; [reflexivity|]. split; [exact Hb|].
  assert (E : forall w',
             w' = final_world Lab.listening
                    (SerialPortRead Lab.flow_config Sim.board Lab.receiver
                       Lab.receiver_pl011 5 0x2000 2 Lab.listening) ->
             SerialPortRead Lab.flow_config Sim.board Lab.receiver
                            Lab.receiver_pl011 5 0x2000 2 Lab.listening
             = Ret (2, w'))
    by (intros w' ->; vm_compute; reflexivity).
  eexists.
  destruct (Read_register_traffic Lab.flow_config Sim.board Lab.receiver
              Lab.receiver_pl011 5 0x2000 2 2 Lab.listening _
              eq_refl Hb (E _ eq_refl))
    as (evs & Hev & Hall & _ & Hflags).
  exists evs. split; [exact (E _ eq_refl)|].
  split; [exact Hev|]. split; [exact Hall | exact Hflags].
Defined.


(** X11, instance: the three bytes of the message fit the 8-byte FIFO. *)
Lemma Write_respects_fifo_depth_witness :
  UsePl011Uart (detected Sim.board Sim.hardware Sim.mini) = false /\
  0x1000 <> NULL /\
  exists w' room,
    SerialPortWrite Sim.config Sim.board Sim.hardware Sim.pl011 5 0x1000 3 Sim.mini = Ret (3, w') /\
    fifo_room (TxFifoSize Sim.config) 0 (events_since Sim.mini w') = Some room /\
    0 <= room <= 8.
Proof.
  assert (Hb : 0x1000 <> NULL) by discriminate.
  split; [reflexivity|]. split; [exact Hb|].
  assert (E : forall w',
             w' = final_world Sim.mini (SerialPortWrite Sim.config Sim.board Sim.hardware Sim.pl011 5 0x1000 3 Sim.mini) ->
             SerialPortWrite Sim.config Sim.board Sim.hardware Sim.pl011 5 0x1000 3 Sim.mini = Ret (3, w'))
    by (intros w' ->; vm_compute; reflexivity).
  eexists.
  destruct (Write_respects_fifo_depth Sim.config Sim.board Sim.hardware Sim.pl011
              5 0x1000 3 3 Sim.mini _ eq_refl Hb (E _ eq_refl))
    as (room & Hroom & Hrange).
  exists room. split; [exact (E _ eq_refl)|]. split; [exact Hroom | exact Hrange].
Defined.

(** X12, instance: the read of two bytes from the peer. *)
Lemma Read_takes_only_ready_bytes_witness :
  UsePl011Uart Lab.listening = false /\
  0x2000 <> NULL /\
  exists w' ready,
    SerialPortRead Lab.flow_config Sim.board Lab.receiver Lab.receiver_pl011
                   5 0x2000 2 Lab.listening
    = Ret (2, w') /\
    monitor rx_step false (events_since Lab.listening w') = Some ready.
Proof.
  assert (Hb : 0x2000 <> NULL) by discriminate.
  split; [reflexivity|]. split; [exact Hb|].
  assert (E : forall w',
             w' = final_world Lab.listening
                    (SerialPortRead Lab.flow_config Sim.board Lab.receiver
                       Lab.receiver_pl011 5 0x2000 2 Lab.listening) ->
             SerialPortRead Lab.flow_config Sim.board Lab.receiver
                            Lab.receiver_pl011 5 0x2000 2 Lab.listening
             = Ret (2, w'))
    by (intros w' ->; vm_compute; reflexivity).
  eexists.
  destruct (Read_takes_only_ready_bytes Lab.flow_config Sim.board Lab.receiver
              Lab.receiver_pl011 5 0x2000 2 2 Lab.listening _
              eq_refl Hb (E _ eq_refl))
    as (ready & Hready).
  exists ready. split; [exact (E _ eq_refl) | exact Hready].
Defined.

(** X13, instance: with hardware flow control on the board, whose modem
    status allows sending. *)
Lemma Write_waits_for_clear_to_send_witness :
  PcdGetBool Lab.flow_config PcdSerialUseHardwareFlowControl = true /\
  UsePl011Uart (detected Sim.board Sim.hardware Sim.mini) = false /\
  0x1000 <> NULL /\
  exists w' open,
    SerialPortWrite Lab.flow_config Sim.board Sim.hardware Sim.pl011 5 0x1000 3 Sim.mini = Ret (3, w') /\
    monitor (tx_step false) false (events_since Sim.mini w') = Some open.
Proof.
  assert (Hb : 0x1000 <> NULL) by discriminate.
  split; [reflexivity|]. split; [reflexivity|]. split; [exact Hb|].
  assert (E : forall w',
             w' = final_world Sim.mini
                    (SerialPortWrite Lab.flow_config Sim.board Sim.hardware Sim.pl011 5 0x1000 3 Sim.mini) ->
             SerialPortWrite Lab.flow_config Sim.board Sim.hardware Sim.pl011 5 0x1000 3 Sim.mini = Ret (3, w'))
    by (intros w' ->; vm_compute; reflexivity).
  eexists.
  destruct (Write_waits_for_clear_to_send Lab.flow_config Sim.board Sim.hardware
              Sim.pl011 5 0x1000 3 3 Sim.mini _ eq_refl eq_refl Hb (E _ eq_refl))
    as (open & Hopen).
  exists open. split; [exact (E _ eq_refl) | exact Hopen].
Defined.

